(** * NEST insect sensing platform: a shallow embedding of the request
    handlers, stores and classifiers, with the properties of the
    specification stated and proved over it.

    Python [str] values are modelled as Rocq [string]s holding the UTF-8
    encoding of the text.  Equality and the substring test [in] agree on
    code points and on their UTF-8 bytes, so every comparison the handlers
    make on Korean text is the one made here. *)

From Stdlib Require Import String Ascii List ZArith QArith Bool Lia.
From stdpp Require Import base gmap strings list pretty.

Import ListNotations.
Open Scope string_scope.
Open Scope list_scope.

(** ** Python string helpers *)

Module PyStr.

(** [needle in hay] on [str]. *)
Fixpoint contains (needle hay : string) {struct hay} : bool :=
  String.prefix needle hay
  || match hay with
     | EmptyString => false
     | String _ rest => contains needle rest
     end.

(** [str.lower] on the ASCII range; the bytes of other code points are
    left as they are.  Korean text has no case, and the texts the code
    compares lowered text against are ASCII or Korean; [str.lower] turns
    two code points outside ASCII into ASCII letters (U+0130 and U+212A),
    so [lower] and [str.lower] find the same ASCII texts in every text that
    holds neither, in particular in ASCII text and in header text, which is
    decoded as latin-1. *)
Definition lower_ascii (c : ascii) : ascii :=
  let n := nat_of_ascii c in
  if (65 <=? n)%nat && (n <=? 90)%nat then ascii_of_nat (n + 32) else c.

Fixpoint lower (s : string) : string :=
  match s with
  | EmptyString => EmptyString
  | String c rest => String (lower_ascii c) (lower rest)
  end.

(** Truthiness of a [str]: the empty string is falsy. *)
Definition truthy (s : string) : bool :=
  match s with EmptyString => false | _ => true end.

(** [len(s)] counts code points: the bytes that are not UTF-8
    continuation bytes (10xxxxxx). *)
Definition is_continuation (c : ascii) : bool :=
  let n := nat_of_ascii c in (128 <=? n)%nat && (n <? 192)%nat.

Fixpoint len (s : string) : nat :=
  match s with
  | EmptyString => 0
  | String c rest => (if is_continuation c then 0 else 1) + len rest
  end.

(** A [str] may hold a lone surrogate, which a JSON document can bring in
    as an escape.  It appears here in the three-byte form of its range,
    ED A0..BF xx, and it is what cannot be written to a UTF-8 file. *)
Fixpoint has_surrogate (s : string) : bool :=
  match s with
  | EmptyString => false
  | String a rest =>
      match rest with
      | String b _ =>
          (nat_of_ascii a =? 237)%nat
          && (160 <=? nat_of_ascii b)%nat && (nat_of_ascii b <=? 191)%nat
      | EmptyString => false
      end
      || has_surrogate rest
  end.

Definition encodable (s : string) : bool := negb (has_surrogate s).

Lemma prefix_app (p s : string) : String.prefix p (p +:+ s) = true.
Proof.
  induction p as [|c p IH]; simpl.
  - now destruct s.
  - destruct (ascii_dec c c) as [_|n]; [exact IH | now elim n].
Qed.

Lemma prefix_contains (p s : string) :
  String.prefix p s = true -> contains p s = true.
Proof. intros H. destruct s; simpl in *; rewrite H; reflexivity. Qed.

Lemma contains_app (p a b : string) : contains p (a +:+ p +:+ b) = true.
Proof.
  induction a as [|c a IH].
  - change (contains p (p +:+ b) = true). apply prefix_contains, prefix_app.
  - change (String.prefix p (String c (a +:+ p +:+ b))
            || contains p (a +:+ p +:+ b) = true).
    rewrite IH. apply orb_true_r.
Qed.

Lemma prefix_split (p s : string) :
  String.prefix p s = true -> exists b, s = p +:+ b.
Proof.
  revert s. induction p as [|c p IH]; intros s H.
  - exists s. reflexivity.
  - destruct s as [|d s]; simpl in H; [discriminate|].
    destruct (ascii_dec c d) as [->|]; [|discriminate].
    destruct (IH s H) as [b ->]. exists b. reflexivity.
Qed.

Lemma contains_split (p s : string) :
  contains p s = true -> exists a b, s = a +:+ p +:+ b.
Proof.
  induction s as [|c s IH]; intros H.
  - change (String.prefix p EmptyString || false = true) in H.
    rewrite orb_false_r in H. destruct (prefix_split _ _ H) as [b Hb].
    exists EmptyString, b. exact Hb.
  - change (String.prefix p (String c s) || contains p s = true) in H.
    apply orb_true_iff in H as [H|H].
    + destruct (prefix_split _ _ H) as [b Hb]. exists EmptyString, b. exact Hb.
    + destruct (IH H) as (a & b & ->). exists (String c a), b. reflexivity.
Qed.

Lemma lower_app (a b : string) : lower (a +:+ b) = lower a +:+ lower b.
Proof. induction a as [|c a IH]; simpl; [reflexivity | now rewrite IH]. Qed.

Lemma append_assoc (a b c : string) : (a +:+ b) +:+ c = a +:+ b +:+ c.
Proof.
  induction a as [|x a IH]; [reflexivity|].
  change (String x ((a +:+ b) +:+ c) = String x (a +:+ b +:+ c)).
  now f_equal.
Qed.

(** A pattern that [lower] leaves alone is found in the lowered text
    wherever it occurs in the text. *)
Lemma contains_lower (p s : string) :
  lower p = p -> contains p s = true -> contains p (lower s) = true.
Proof.
  intros Hp H. destruct (contains_split _ _ H) as (a & b & ->).
  rewrite !lower_app, Hp. apply contains_app.
Qed.

(** A text that contains [a +:+ p] contains [p]. *)
Lemma contains_suffix (a p s : string) :
  contains (a +:+ p) s = true -> contains p s = true.
Proof.
  intros H. destruct (contains_split _ _ H) as (x & y & ->).
  rewrite append_assoc, <- (append_assoc x a). apply contains_app.
Qed.

End PyStr.

(** ** Demo application: the map page's risk buckets (app.py, [map_page]) *)

Module MapPage.
Import PyStr.

Inductive bucket :=
| critical | danger | caution | safe | unknown | unclassified.

(** The [if]/[elif] chain over the stored [threat_level] string. *)
Definition filter_level (threat_level : string) : bucket :=
  if truthy threat_level then
    if contains "인체 고위험" threat_level || contains "공격성·독성" threat_level
    then critical
    else if contains "인체 중위험" threat_level
            || contains "독성·피부염" threat_level
            || contains "질병 매개" threat_level
    then danger
    else if contains "반려동물 위험" threat_level
    then caution
    else if contains "일반·불쾌" threat_level
            || contains "불쾌 곤충" threat_level
            || contains "일반·불쾌 곤충" threat_level
            || contains "불쾌" threat_level
            || contains "일반" threat_level
    then safe
    else if contains "보호" threat_level || contains "천연기념물" threat_level
    then unknown
    else unclassified
  else unclassified.

(** The colour chosen for a bucket in the branch taken when a
    [threat_level] string is stored. *)
Definition bucket_color (b : bucket) : string :=
  match b with
  | critical => "#F44336"
  | danger => "#FF9800"
  | caution => "#FFC107"
  | safe => "#4CAF50"
  | unknown => "#9E9E9E"
  | unclassified => "#6366F1"
  end.

Record risk_entry := {
  re_threat_level : string;
  re_risk_category : string;
  re_risk_level_color : string
}.

(** What the page attaches to a location whose classification carries a
    non-empty [threat_level]: the entry and the statistics bucket it is
    counted in.  [None] stands for the other branch (no [threat_level]),
    which falls back to a stored or fresh risk assessment. *)
Definition threat_level_risk (threat_level risk_category : string)
  : option (risk_entry * bucket) :=
  if truthy threat_level then
    let lvl := filter_level threat_level in
    Some ({| re_threat_level := threat_level;
             re_risk_category := risk_category;
             re_risk_level_color := bucket_color lvl |}, lvl)
  else None.

(** The markers tested before the "safe" family of terms. *)
Definition higher_priority_markers : list string :=
  ["인체 고위험"; "공격성·독성"; "인체 중위험"; "독성·피부염"; "질병 매개";
   "반려동물 위험"].

Lemma contains_truthy (p s : string) :
  truthy p = true -> contains p s = true -> truthy s = true.
Proof.
  intros Hp H. destruct s; [|reflexivity].
  destruct p; simpl in *; discriminate.
Qed.

(** The two markers of the claim can occur together, and then the first
    branch wins. *)
Example mixed_markers_bucket :
  filter_level "일반 곤충이 아님: 인체 고위험" = critical.
Proof. reflexivity. Qed.

(** C7, as stated, fails: a stored [threat_level] that contains "일반"
    next to a higher-priority marker is put in the critical bucket with the
    red colour, not in the safe bucket with #4CAF50. *)
Lemma map_bucket_safe_counterexample :
  contains "일반" "일반 곤충이 아님: 인체 고위험" = true
  /\ threat_level_risk "일반 곤충이 아님: 인체 고위험" EmptyString
     = Some ({| re_threat_level := "일반 곤충이 아님: 인체 고위험";
                re_risk_category := EmptyString;
                re_risk_level_color := "#F44336" |}, critical)
  /\ critical <> safe
  /\ "#F44336" <> "#4CAF50".
Proof. repeat split; try reflexivity; discriminate. Qed.

(** C7 (amended): every [threat_level] containing "인체 고위험" is put in
    bucket critical with colour #F44336, whatever surrounds the marker; every
    [threat_level] containing "일반" and none of the markers tested before
    the safe family (인체 고위험, 공격성·독성, 인체 중위험, 독성·피부염,
    질병 매개, 반려동물 위험) is put in bucket safe with colour #4CAF50. *)
Theorem map_bucket_by_marker (threat_level risk_category : string) :
  (contains "인체 고위험" threat_level = true ->
     exists e, threat_level_risk threat_level risk_category = Some (e, critical)
               /\ re_threat_level e = threat_level
               /\ re_risk_level_color e = "#F44336")
  /\ (contains "일반" threat_level = true ->
      (forall m, In m higher_priority_markers -> contains m threat_level = false) ->
      exists e, threat_level_risk threat_level risk_category = Some (e, safe)
                /\ re_threat_level e = threat_level
                /\ re_risk_level_color e = "#4CAF50").
Proof.
  split.
  - intros H.
    assert (Ht : truthy threat_level = true)
      by (eapply contains_truthy; [|exact H]; reflexivity).
    unfold threat_level_risk, filter_level. rewrite Ht, H. simpl.
    eexists. repeat split.
  - intros H Hno.
    assert (Ht : truthy threat_level = true)
      by (eapply contains_truthy; [|exact H]; reflexivity).
    unfold threat_level_risk, filter_level. rewrite Ht, H.
    rewrite !Hno by (unfold higher_priority_markers; simpl; tauto).
    rewrite !orb_true_r. simpl.
    eexists. repeat split.
Qed.

Lemma map_bucket_by_marker_witness :
  (exists e, threat_level_risk "사람에게 위험 (인체 고위험 종)" "벌목"
             = Some (e, critical)
             /\ re_threat_level e = "사람에게 위험 (인체 고위험 종)"
             /\ re_risk_level_color e = "#F44336")
  /\ (exists e, threat_level_risk "일반 곤충" "딱정벌레목" = Some (e, safe)
                /\ re_threat_level e = "일반 곤충"
                /\ re_risk_level_color e = "#4CAF50").
Proof.
  split.
  - apply (proj1 (map_bucket_by_marker "사람에게 위험 (인체 고위험 종)" "벌목")).
    reflexivity.
  - apply (proj2 (map_bucket_by_marker "일반 곤충" "딱정벌레목")).
    + reflexivity.
    + intros m Hm. simpl in Hm.
      repeat (destruct Hm as [<-|Hm]; [reflexivity|]). contradiction.
Defined.

End MapPage.

(** ** Social storage (utils/social_storage.py) *)

Module SocialStorage.
Import PyStr.

Record comment := {
  c_id : nat;
  c_user_id : string;
  c_text : string;
  c_timestamp : string
}.

(** One image's entry of social_data.json.  The keys ['likes'] and
    ['comments'] are read with [dict.get(key, [])], so either may be
    absent. *)
Record file_data := {
  likes : option (list string);
  comments : option (list comment)
}.

(** The JSON file: its content, [None] when it cannot be opened or parsed
    ([_load_data] then answers the empty dictionary), and whether it can be
    opened for writing. *)
Record storage := {
  file : option (gmap string file_data);
  writable : bool
}.

Definition _load_data (st : storage) : gmap string file_data :=
  default ∅ (file st).

(** What [json.dump(data, f, ensure_ascii=False)] can write: every text in
    the dictionary can be encoded. *)
Definition encodable_comment (c : comment) : bool :=
  encodable (c_user_id c) && encodable (c_text c) && encodable (c_timestamp c).

Definition encodable_entry (filename : string) (fd : file_data) : bool :=
  encodable filename
  && forallb encodable (default [] (likes fd))
  && forallb encodable_comment (default [] (comments fd)).

Definition encodable_data (data : gmap string file_data) : Prop :=
  map_Forall (fun filename fd => encodable_entry filename fd = true) data.

(** [_save_data]: every error is caught and printed.  When the file cannot
    be opened it stays as it was; when [json.dump] raises, the file has
    been truncated by then and no longer parses. *)
Definition _save_data (st : storage) (data : gmap string file_data)
  : storage :=
  if writable st then
    {| file := if decide (encodable_data data) then Some data else None;
       writable := true |}
  else st.

(** [file_data.get('likes', [])] of [data.get(filename, {})]. *)
Definition likes_of (data : gmap string file_data) (filename : string)
  : list string :=
  match data !! filename with
  | Some fd => default [] (likes fd)
  | None => []
  end.

Definition get_likes (st : storage) (filename : string) : nat :=
  length (likes_of (_load_data st) filename).

Definition or_anonymous (user_id : option string) : string :=
  default "anonymous" user_id.

Definition is_liked (st : storage) (filename : string)
  (user_id : option string) : bool :=
  bool_decide (or_anonymous user_id ∈ likes_of (_load_data st) filename).

(** [list.remove(x)]: drops the first element equal to [x]. *)
Fixpoint remove_first (x : string) (l : list string) : list string :=
  match l with
  | [] => []
  | y :: rest => if decide (x = y) then rest else y :: remove_first x rest
  end.

Record like_result := { liked : bool; count : nat }.

Definition toggle_like (st : storage) (filename : string)
  (user_id : option string) : like_result * storage :=
  let data := _load_data st in
  let data :=
    match data !! filename with
    | Some _ => data
    | None => <[filename := {| likes := Some []; comments := Some [] |}]> data
    end in
  let fd := default {| likes := Some []; comments := Some [] |}
                    (data !! filename) in
  let old := default [] (likes fd) in
  let uid := or_anonymous user_id in
  let '(new, flag) :=
    if bool_decide (uid ∈ old) then (remove_first uid old, false)
    else (old ++ [uid], true) in
  let fd := {| likes := Some new; comments := comments fd |} in
  let data := <[filename := fd]> data in
  ({| liked := flag; count := length new |}, _save_data st data).

Lemma remove_first_snoc (x : string) (l : list string) :
  x ∉ l -> remove_first x (l ++ [x]) = l.
Proof.
  induction l as [|y l IH]; intros Hnot; simpl.
  - destruct (decide (x = x)); congruence.
  - destruct (decide (x = y)) as [->|Hne].
    + exfalso. apply Hnot. left.
    + f_equal. apply IH. intros Hin. apply Hnot. now right.
Qed.

(** A write that goes through. *)
Lemma _save_data_ok (st : storage) (data : gmap string file_data) :
  writable st = true -> encodable_data data ->
  _save_data st data = {| file := Some data; writable := true |}.
Proof.
  intros Hw He. unfold _save_data. rewrite Hw.
  now rewrite decide_True by exact He.
Qed.

Lemma encodable_data_lookup (data : gmap string file_data)
  (filename : string) (fd : file_data) :
  encodable_data data -> data !! filename = Some fd ->
  encodable filename = true
  /\ forallb encodable (default [] (likes fd)) = true
  /\ forallb encodable_comment (default [] (comments fd)) = true.
Proof.
  intros He Hl. specialize (He filename fd Hl). simpl in He.
  unfold encodable_entry in He.
  apply andb_true_iff in He as [He Hc].
  apply andb_true_iff in He as [Hf Hk]. auto.
Qed.

Lemma encodable_data_insert (data : gmap string file_data)
  (filename : string) (fd : file_data) :
  encodable_data data ->
  encodable filename = true ->
  forallb encodable (default [] (likes fd)) = true ->
  forallb encodable_comment (default [] (comments fd)) = true ->
  encodable_data (<[filename := fd]> data).
Proof.
  intros He Hf Hl Hc. apply map_Forall_insert_2; [|exact He].
  unfold encodable_entry. now rewrite Hf, Hl, Hc.
Qed.

(** The dictionary [toggle_like] hands to [_save_data] when the identifier
    has not liked the file. *)
Definition liked_by (data : gmap string file_data) (filename uid : string)
  : gmap string file_data :=
  <[filename :=
      {| likes := Some (likes_of data filename ++ [uid]);
         comments := match data !! filename with
                     | Some fd => comments fd
                     | None => Some []
                     end |}]> data.

Lemma toggle_like_fresh (st : storage) (filename : string)
  (user_id : option string) :
  is_liked st filename user_id = false ->
  toggle_like st filename user_id
  = ({| liked := true; count := S (get_likes st filename) |},
     _save_data st (liked_by (_load_data st) filename (or_anonymous user_id))).
Proof.
  unfold is_liked, get_likes, toggle_like, liked_by, likes_of.
  intros H.
  destruct (_load_data st !! filename) as [fd|] eqn:E.
  - rewrite E. simpl. simpl in H. rewrite H.
    rewrite length_app. simpl. rewrite Nat.add_1_r. reflexivity.
  - rewrite lookup_insert_eq. simpl.
    rewrite insert_insert_eq. reflexivity.
Qed.

Lemma encodable_liked_by (data : gmap string file_data)
  (filename uid : string) :
  encodable_data data -> encodable filename = true -> encodable uid = true ->
  encodable_data (liked_by data filename uid).
Proof.
  intros He Hf Hu. unfold liked_by, likes_of.
  destruct (data !! filename) as [fd|] eqn:E.
  - destruct (encodable_data_lookup _ _ _ He E) as (_ & Hl & Hc).
    apply encodable_data_insert; try assumption.
    cbn [likes from_option id]. rewrite forallb_app, Hl. cbn. now rewrite Hu.
  - apply encodable_data_insert; try assumption; cbn; now rewrite ?Hu.
Qed.

(** C8 (amended): on a store whose file can be written and whose texts,
    the file name and the identifier included, can be encoded, starting
    from a state in which the identifier has not liked the file, with [n]
    the like count before, two toggles in a row answer
    [{liked: true, count: n+1}] and then [{liked: false, count: n}], and
    the file's likes list is the original one again; no other file's entry
    is touched. *)
Theorem toggle_like_twice (st : storage) (filename : string)
  (user_id : option string) :
  writable st = true ->
  encodable_data (_load_data st) ->
  encodable filename = true ->
  encodable (or_anonymous user_id) = true ->
  is_liked st filename user_id = false ->
  let n := get_likes st filename in
  let '(r1, st1) := toggle_like st filename user_id in
  let '(r2, st2) := toggle_like st1 filename user_id in
  r1 = {| liked := true; count := n + 1 |}
  /\ r2 = {| liked := false; count := n |}
  /\ likes_of (_load_data st2) filename = likes_of (_load_data st) filename
  /\ is_liked st2 filename user_id = false
  /\ forall other, other <> filename ->
       _load_data st2 !! other = _load_data st !! other.
Proof.
  intros Hw He Hf Hu Hfresh n. rewrite (toggle_like_fresh _ _ _ Hfresh).
  set (old := likes_of (_load_data st) filename).
  assert (Hnot : or_anonymous user_id ∉ old).
  { unfold is_liked in Hfresh. fold old in Hfresh.
    now apply bool_decide_eq_false in Hfresh. }
  pose proof (encodable_liked_by _ _ _ He Hf Hu) as He1.
  rewrite (_save_data_ok _ _ Hw He1).
  unfold toggle_like, liked_by. fold old. cbn [_load_data file from_option id].
  rewrite !lookup_insert_eq. cbn [from_option id likes comments].
  rewrite bool_decide_eq_true_2 by (apply elem_of_app; right; left).
  rewrite remove_first_snoc by exact Hnot.
  rewrite insert_insert_eq.
  set (back := <[filename :=
                   {| likes := Some old;
                      comments := match _load_data st !! filename with
                                  | Some fd => comments fd
                                  | None => Some []
                                  end |}]> (_load_data st)).
  assert (He2 : encodable_data back).
  { unfold back. destruct (_load_data st !! filename) as [fd|] eqn:E.
    - destruct (encodable_data_lookup _ _ _ He E) as (_ & Hl & Hc).
      apply encodable_data_insert; try assumption.
      unfold old, likes_of. now rewrite E.
    - apply encodable_data_insert; try assumption.
      + unfold old, likes_of. now rewrite E.
      + reflexivity. }
  rewrite (_save_data_ok {| file := _; writable := true |} _ eq_refl He2).
  repeat split.
  - f_equal. unfold n, get_likes. fold old. lia.
  - unfold likes_of at 1, back. cbn [_load_data file from_option id].
    rewrite lookup_insert_eq. reflexivity.
  - unfold is_liked, likes_of, back. cbn [_load_data file from_option id].
    rewrite lookup_insert_eq. cbn [from_option id likes].
    now apply bool_decide_eq_false.
  - intros other Hne. unfold back. cbn [_load_data file from_option id].
    now rewrite !lookup_insert_ne.
Qed.

Definition fresh_store : storage := {| file := Some ∅; writable := true |}.

(** C8, as stated, fails where the write does not go through, which
    [_save_data] keeps to itself.  On a file that cannot be opened for
    writing the first toggle is not recorded, and the second answers
    [{liked: true, count: 1}] again.  With an identifier that holds a lone
    surrogate (U+D800) the first write leaves a truncated file, and the
    second toggle answers the same. *)
Lemma toggle_like_write_counterexample :
  let read_only := {| file := Some ∅; writable := false |} in
  let odd := String "237" (String "160" (String "128" EmptyString)) in
  toggle_like read_only "a.jpg" (Some "1.2.3.4")
  = ({| liked := true; count := 1 |}, read_only)
  /\ fst (toggle_like (snd (toggle_like read_only "a.jpg" (Some "1.2.3.4")))
            "a.jpg" (Some "1.2.3.4"))
     = {| liked := true; count := 1 |}
  /\ toggle_like fresh_store "a.jpg" (Some odd)
     = ({| liked := true; count := 1 |}, {| file := None; writable := true |})
  /\ fst (toggle_like (snd (toggle_like fresh_store "a.jpg" (Some odd)))
            "a.jpg" (Some odd))
     = {| liked := true; count := 1 |}.
Proof. vm_compute. repeat split; reflexivity. Qed.

(** The spec's example: a fresh store, "a.jpg", "1.2.3.4". *)
Lemma toggle_like_twice_witness :
  let st := fresh_store in
  let n := get_likes st "a.jpg" in
  let '(r1, st1) := toggle_like st "a.jpg" (Some "1.2.3.4") in
  let '(r2, st2) := toggle_like st1 "a.jpg" (Some "1.2.3.4") in
  r1 = {| liked := true; count := n + 1 |}
  /\ r2 = {| liked := false; count := n |}
  /\ likes_of (_load_data st2) "a.jpg" = likes_of (_load_data st) "a.jpg"
  /\ is_liked st2 "a.jpg" (Some "1.2.3.4") = false
  /\ forall other, other <> "a.jpg" ->
       _load_data st2 !! other = _load_data st !! other.
Proof.
  apply (toggle_like_twice fresh_store "a.jpg" (Some "1.2.3.4"));
    try reflexivity.
  intros filename fd Hl. discriminate Hl.
Defined.

Example toggle_like_spec_example :
  let '(r1, st1) := toggle_like fresh_store "a.jpg" (Some "1.2.3.4") in
  let '(r2, _) := toggle_like st1 "a.jpg" (Some "1.2.3.4") in
  r1 = {| liked := true; count := 1 |} /\ r2 = {| liked := false; count := 0 |}.
Proof. vm_compute. split; reflexivity. Qed.

End SocialStorage.

(** ** Exceptions *)

Module Py.

Inductive error :=
| KeyError | TypeError | ValueError | IndexError | AttributeError | OSError.

(** The outcome of code that may raise. *)
Inductive result (A : Type) :=
| Ok (a : A)
| Raise (e : error).
Arguments Ok {A} a.
Arguments Raise {A} e.

Definition bind {A B} (r : result A) (k : A -> result B) : result B :=
  match r with
  | Ok a => k a
  | Raise e => Raise e
  end.

(** [d[key]] on an optional field: [KeyError] when the key is absent. *)
Definition item {A} (field : option A) : result A :=
  match field with
  | Some a => Ok a
  | None => Raise KeyError
  end.

End Py.

Declare Scope py_scope.
Notation "'let*' x ':=' c1 'in' c2" := (Py.bind c1 (fun x => c2))
  (at level 10, x name, c1 at level 100, c2 at level 200) : py_scope.

(** ** Risk assessor (utils/risk_assessor.py) *)

Module RiskAssessor.
Import PyStr Py.
Open Scope py_scope.

Record factors := {
  toxicity : Q;
  aggression : Q;
  bite_sting : Q;
  allergy : Q;
  severity : Q
}.

(** One entry of the risk database, as the JSON object it is: every key
    may be absent. *)
Record entry := {
  scientific_name : option string;
  category : option string;
  risk_factors : option factors;
  overall_risk : option Q;
  risk_level : option string;
  description : option string;
  protection_status : option string;
  mortality : option string;
  invasive_species : option bool;
  toxin : option string
}.

(** The database is a [dict] read in insertion order. *)
Definition database := list (string * entry).

Record level_info := { li_name : string; li_color : string; li_range : Q * Q }.

Definition RISK_LEVELS : list (string * level_info) :=
  [ ("safe", {| li_name := "안전"; li_color := "#4CAF50"; li_range := (0, 1.5)%Q |});
    ("caution", {| li_name := "주의"; li_color := "#FFC107"; li_range := (1.5, 3.0)%Q |});
    ("danger", {| li_name := "위험"; li_color := "#FF9800"; li_range := (3.0, 4.0)%Q |});
    ("critical", {| li_name := "매우 위험"; li_color := "#F44336"; li_range := (4.0, 5.0)%Q |}) ].

(** [d[key]] and [key in d] on a dictionary kept as an association list. *)
Fixpoint lookup {A} (key : string) (d : list (string * A)) : option A :=
  match d with
  | [] => None
  | (k, v) :: rest => if String.eqb key k then Some v else lookup key rest
  end.

Definition mk_entry (sci cat : string) (tox agg bite alg sev overall : Q)
  (level descr : string) : entry :=
  {| scientific_name := Some sci; category := Some cat;
     risk_factors := Some {| toxicity := tox; aggression := agg;
                             bite_sting := bite; allergy := alg;
                             severity := sev |};
     overall_risk := Some overall; risk_level := Some level;
     description := Some descr;
     protection_status := None; mortality := None;
     invasive_species := None; toxin := None |}.

Definition with_protection_status (s : string) (e : entry) : entry :=
  {| scientific_name := scientific_name e; category := category e;
     risk_factors := risk_factors e; overall_risk := overall_risk e;
     risk_level := risk_level e; description := description e;
     protection_status := Some s; mortality := mortality e;
     invasive_species := invasive_species e; toxin := toxin e |}.

Definition with_mortality (s : string) (e : entry) : entry :=
  {| scientific_name := scientific_name e; category := category e;
     risk_factors := risk_factors e; overall_risk := overall_risk e;
     risk_level := risk_level e; description := description e;
     protection_status := protection_status e; mortality := Some s;
     invasive_species := invasive_species e; toxin := toxin e |}.

Definition with_invasive_species (b : bool) (e : entry) : entry :=
  {| scientific_name := scientific_name e; category := category e;
     risk_factors := risk_factors e; overall_risk := overall_risk e;
     risk_level := risk_level e; description := description e;
     protection_status := protection_status e; mortality := mortality e;
     invasive_species := Some b; toxin := toxin e |}.

Definition with_toxin (s : string) (e : entry) : entry :=
  {| scientific_name := scientific_name e; category := category e;
     risk_factors := risk_factors e; overall_risk := overall_risk e;
     risk_level := risk_level e; description := description e;
     protection_status := protection_status e; mortality := mortality e;
     invasive_species := invasive_species e; toxin := Some s |}.

Definition _get_default_database : database :=
  [ ("장수풍뎅이",
     mk_entry "Allomyrina dichotoma" "딱정벌레목" 0 0 0 0 0 0.0 "safe"
       "큰 뿔과 위압적인 외형에도 불구하고 독이 없고 매우 온순합니다. 애완곤충으로 대량 사육될 정도로 안전합니다.");
    ("왕사슴벌레",
     mk_entry "Dorcus hopei" "딱정벌레목" 0 1 1 0 0.5 0.5 "safe"
       "큰 턱이 위협적으로 보이지만 독이 없습니다. 물려도 경미한 상처 수준으로, 애완용으로 인기가 있습니다.");
    ("장수하늘소",
     with_protection_status "천연기념물 제218호, 멸종위기 야생동물 1급"
       (mk_entry "Callipogon relictus" "딱정벌레목" 0 0.5 0.5 0 0 0.2 "safe"
          "국내 최대 딱정벌레로 위압적이지만 독이 없고 공격성이 낮습니다. 천연기념물이므로 절대 포획 금지입니다."));
    ("왕사마귀",
     mk_entry "Tenodera angustipennis" "사마귀목" 0 1 1 0 0.5 0.5 "safe"
       "위협 자세가 공격적으로 보이지만 독이 없고 사람에게는 무해합니다. 포식성 곤충으로 해충을 잡아먹는 익충입니다.");
    ("장수말벌",
     with_mortality "연평균 10명 이상 사망"
       (mk_entry "Vespa mandarinia" "벌목" 5 5 5 5 5 5.0 "critical"
          "국내 말벌류 중 독성이 가장 강합니다. 여러 번 반복해서 쏠 수 있으며, 아나필락시스 쇼크로 사망에 이를 수 있습니다."));
    ("등검은말벌",
     with_invasive_species true
       (mk_entry "Vespa velutina nigrithorax" "벌목" 4.5 5 4.5 4.5 4.5 4.6 "critical"
          "외래 침입종으로 공격성이 매우 높습니다. 도시 주거지에 둥지를 트는 경우가 많아 주의가 필요합니다."));
    ("화상벌레",
     with_toxin "파데린 (pederin)"
       (mk_entry "Paederus fuscipes" "딱정벌레목" 4 0 0 3 3.5 3.5 "danger"
          "작고 무해해 보이지만 파데린 독소를 보유합니다. 손으로 누르면 화상 같은 통증과 물집이 생깁니다."));
    ("독나방",
     mk_entry "Euproctis spp." "나비목" 3 0 0 3.5 3 3.0 "caution"
       "유충의 미세한 독모와 성충의 날개 가루로 독나방피부염을 일으킵니다. 맨손 접촉을 피해야 합니다.");
    ("쐐기나방",
     mk_entry "Limacodidae spp." "나비목" 4 0 4 3.5 4 4.0 "danger"
       "화려한 가시털이 미세한 독침 역할을 합니다. 접촉 시 강한 통증과 염증, 심한 부종을 유발합니다.") ]%Q.

(** [x >= n] on the risk scores. *)
Definition ge (x n : Q) : bool := Qle_bool n x.

Definition opt_truthy (o : option string) : bool :=
  match o with Some s => truthy s | None => false end.

Definition _generate_warnings (data : entry) : result (list string) :=
  let* rf := item (risk_factors data) in
  let* level := item (risk_level data) in
  Ok (if String.eqb level "critical" then
        ["⚠️ 매우 위험: 생명을 위협할 수 있습니다"]
        ++ (if ge (toxicity rf) 4 then ["🔴 강한 독성 보유"] else [])
        ++ (if ge (aggression rf) 4 then ["🔴 높은 공격성"] else [])
        ++ (if ge (allergy rf) 4 then ["🔴 아나필락시스 위험"] else [])
      else if String.eqb level "danger" then
        ["⚠️ 위험: 심각한 증상을 유발할 수 있습니다"]
        ++ (if ge (toxicity rf) 3 then ["🟠 독성 물질 보유"] else [])
        ++ (if ge (allergy rf) 3 then ["🟠 알레르기 반응 가능"] else [])
      else if String.eqb level "caution" then
        ["⚠️ 주의: 접촉 시 불편한 증상 발생 가능"; "🟡 맨손 접촉 피하기"]
      else
        ["✅ 안전: 일반적으로 무해합니다"]
        ++ (if opt_truthy (protection_status data)
            then ["🛡️ 보호종: 포획 및 채집 금지"] else [])).

Record response_guide := {
  prevention : option (list string);
  first_aid : option (list string);
  emergency : option (list string);
  reporting : option string;
  observation : option (list string);
  handling : option (list string);
  legal : option (list string)
}.

Definition _generate_response_guide (data : entry) : result response_guide :=
  let* level := item (risk_level data) in
  Ok (if String.eqb level "critical" then
        {| prevention := Some ["둥지나 서식지 접근 금지"; "야외 활동 시 긴 옷 착용";
                               "향수나 밝은 색 옷 피하기"];
           first_aid := Some ["쏘인 부위를 깨끗이 씻기"; "얼음찜질로 부기 완화";
                              "즉시 병원 방문 (119 연락)"];
           emergency := Some ["호흡곤란, 어지러움 발생 시 즉시 응급실";
                              "전신 두드러기나 구토 증상 주의";
                              "과거 벌 알레르기 있으면 에피펜 휴대"];
           reporting := Some "둥지 발견 시 소방서(119) 또는 지자체에 신고";
           observation := None; handling := None; legal := None |}
      else if String.eqb level "danger" then
        {| prevention := Some ["절대 손으로 만지지 말 것";
                               "종이나 테이프로 조심스럽게 제거";
                               "실내 침입 시 불빛 관리"];
           first_aid := Some ["접촉 부위를 즉시 비누와 물로 씻기";
                              "문지르지 말고 흐르는 물로 헹구기";
                              "증상 심화 시 피부과 진료"];
           emergency := Some ["물집이나 심한 발진 발생 시 병원 방문";
                              "눈이나 입에 닿았다면 즉시 응급실"];
           reporting := None;
           observation := None; handling := None; legal := None |}
      else if String.eqb level "caution" then
        {| prevention := Some ["맨손 접촉 피하기"; "어린이와 반려동물 접근 차단";
                               "발견 시 관찰만 하고 만지지 않기"];
           first_aid := Some ["접촉 시 물로 씻어내기";
                              "가려움증 심하면 항히스타민제 복용";
                              "증상 지속 시 병원 방문"];
           emergency := None; reporting := None;
           observation := None; handling := None; legal := None |}
      else
        {| prevention := None; first_aid := None; emergency := None;
           reporting := None;
           observation := Some ["안전하게 관찰 가능"; "사진 촬영 권장";
                                "생태 교육 자료로 활용"];
           handling := Some ["부드럽게 다루기"; "떨어뜨리지 않도록 주의";
                             "관찰 후 자연으로 돌려보내기"];
           legal := if opt_truthy (protection_status data)
                    then Some ["천연기념물 또는 멸종위기종";
                               "포획 및 채집 절대 금지";
                               "발견 시 국립수목원 또는 환경부에 신고"]
                    else None |}).

Record risk_result := {
  r_species_name : string;
  r_scientific_name : string;
  r_category : string;
  r_risk_factors : factors;
  r_overall_risk : Q;
  r_risk_level : string;
  r_risk_level_name : string;
  r_risk_level_color : string;
  r_description : string;
  r_warnings : list string;
  r_response_guide : response_guide;
  r_protection_status : option string;
  r_mortality : option string;
  r_invasive_species : option bool;
  r_toxin : option string
}.

Definition _format_risk_result (species_name : string) (data : entry)
  : result risk_result :=
  let* level := item (risk_level data) in
  let* info := item (lookup level RISK_LEVELS) in
  let* rf := item (risk_factors data) in
  let* overall := item (overall_risk data) in
  let* warnings := _generate_warnings data in
  let* guide := _generate_response_guide data in
  Ok {| r_species_name := species_name;
        r_scientific_name := default EmptyString (scientific_name data);
        r_category := default EmptyString (category data);
        r_risk_factors := rf;
        r_overall_risk := overall;
        r_risk_level := level;
        r_risk_level_name := li_name info;
        r_risk_level_color := li_color info;
        r_description := default EmptyString (description data);
        r_warnings := warnings;
        r_response_guide := guide;
        r_protection_status := protection_status data;
        r_mortality := mortality data;
        r_invasive_species := invasive_species data;
        r_toxin := toxin data |}.

(** The second loop: the first entry whose scientific name equals the
    input ([data.get("scientific_name") == species_name]). *)
Fixpoint by_scientific_name (species_name : string) (items : database)
  : option (string * entry) :=
  match items with
  | [] => None
  | (korean_name, data) :: rest =>
      match scientific_name data with
      | Some sci =>
          if String.eqb sci species_name then Some (korean_name, data)
          else by_scientific_name species_name rest
      | None => by_scientific_name species_name rest
      end
  end.

(** The third loop: containment in either direction against
    [data.get("scientific_name", "")]. *)
Fixpoint by_containment (species_name : string) (items : database)
  : option (string * entry) :=
  match items with
  | [] => None
  | (korean_name, data) :: rest =>
      let scientific := default EmptyString (scientific_name data) in
      if contains species_name scientific || contains scientific species_name
      then Some (korean_name, data)
      else by_containment species_name rest
  end.

(** [assess_risk]: [Ok None] is the no-match answer. *)
Definition assess_risk (risk_database : database) (species_name : string)
  : result (option risk_result) :=
  match lookup species_name risk_database with
  | Some data =>
      let* r := _format_risk_result species_name data in Ok (Some r)
  | None =>
      match by_scientific_name species_name risk_database with
      | Some (korean_name, data) =>
          let* r := _format_risk_result korean_name data in Ok (Some r)
      | None =>
          match by_containment species_name risk_database with
          | Some (korean_name, data) =>
              let* r := _format_risk_result korean_name data in Ok (Some r)
          | None => Ok None
          end
      end
  end.

(** The matching order in the specification's words: the entry whose key
    is the name, else the first entry whose scientific name is the name,
    else the first entry whose scientific name contains the name or is
    contained in it. *)
Definition key_is (name : string) (kv : string * entry) : bool :=
  String.eqb (fst kv) name.

Definition scientific_is (name : string) (kv : string * entry) : bool :=
  match scientific_name (snd kv) with
  | Some sci => String.eqb sci name
  | None => false
  end.

Definition scientific_overlaps (name : string) (kv : string * entry) : bool :=
  let sci := default EmptyString (scientific_name (snd kv)) in
  contains name sci || contains sci name.

Definition spec_match (db : database) (name : string)
  : option (string * entry) :=
  match find (key_is name) db with
  | Some kv => Some kv
  | None =>
      match find (scientific_is name) db with
      | Some kv => Some kv
      | None => find (scientific_overlaps name) db
      end
  end.

(** Entries on which formatting cannot raise: the level is one of
    [RISK_LEVELS] and the mandatory keys are present. *)
Definition wf_entry (kv : string * entry) : bool :=
  match risk_level (snd kv), risk_factors (snd kv), overall_risk (snd kv) with
  | Some level, Some _, Some _ =>
      match lookup level RISK_LEVELS with Some _ => true | None => false end
  | _, _, _ => false
  end.

Definition wf_database (db : database) : bool := forallb wf_entry db.

Lemma lookup_find (name : string) (db : database) :
  lookup name db = option_map snd (find (key_is name) db)
  /\ forall kv, find (key_is name) db = Some kv -> fst kv = name.
Proof.
  induction db as [|[k e] db [IH1 IH2]]; simpl; [split; [reflexivity|discriminate]|].
  unfold key_is at 1 3. simpl. rewrite (String.eqb_sym name k).
  destruct (String.eqb k name) eqn:E.
  - split; [reflexivity|]. intros kv [= <-]. now apply String.eqb_eq.
  - split; assumption.
Qed.

Lemma by_scientific_name_find (name : string) (db : database) :
  by_scientific_name name db = find (scientific_is name) db.
Proof.
  induction db as [|[k e] db IH]; simpl; [reflexivity|].
  unfold scientific_is at 1. simpl.
  destruct (scientific_name e) as [sci|]; [|exact IH].
  destruct (String.eqb sci name); [reflexivity | exact IH].
Qed.

Lemma by_containment_find (name : string) (db : database) :
  by_containment name db = find (scientific_overlaps name) db.
Proof.
  induction db as [|[k e] db IH]; simpl; [reflexivity|].
  unfold scientific_overlaps at 1. simpl.
  destruct (_ || _); [reflexivity | exact IH].
Qed.

Lemma assess_risk_spec_match (db : database) (name : string) :
  assess_risk db name =
  match spec_match db name with
  | Some (k, e) => let* r := _format_risk_result k e in Ok (Some r)
  | None => Ok None
  end.
Proof.
  unfold assess_risk, spec_match.
  destruct (lookup_find name db) as [Hl Hk]. rewrite Hl.
  rewrite by_scientific_name_find, by_containment_find.
  destruct (find (key_is name) db) as [[k e]|] eqn:E1; simpl.
  - now rewrite <- (Hk _ eq_refl).
  - destruct (find (scientific_is name) db) as [[k e]|]; [reflexivity|].
    destruct (find (scientific_overlaps name) db) as [[k e]|]; reflexivity.
Qed.

Lemma wf_entry_format (k : string) (e : entry) :
  wf_entry (k, e) = true -> exists r, _format_risk_result k e = Ok r.
Proof.
  unfold wf_entry, _format_risk_result, _generate_warnings,
    _generate_response_guide. cbn [fst snd].
  destruct (risk_level e) as [level|]; [|discriminate].
  destruct (risk_factors e) as [rf|]; [|discriminate].
  destruct (overall_risk e) as [o|]; [|discriminate].
  cbn [item bind].
  destruct (lookup level RISK_LEVELS) as [info|]; [|discriminate].
  intros _. cbn [item bind]. eexists. reflexivity.
Qed.

Lemma spec_match_In (db : database) (name : string) (kv : string * entry) :
  spec_match db name = Some kv -> In kv db.
Proof.
  unfold spec_match. intros H.
  destruct (find (key_is name) db) eqn:E1;
    [inversion H; subst; eapply find_some, E1|].
  destruct (find (scientific_is name) db) eqn:E2;
    [inversion H; subst; eapply find_some, E2|].
  eapply find_some, H.
Qed.

Lemma assess_risk_total (db : database) (name : string) :
  wf_database db = true ->
  exists o, assess_risk db name = Ok o
            /\ (o = None <-> spec_match db name = None).
Proof.
  intros Hwf. rewrite assess_risk_spec_match.
  destruct (spec_match db name) as [[k e]|] eqn:E.
  - apply spec_match_In in E.
    unfold wf_database in Hwf. rewrite forallb_forall in Hwf.
    destruct (wf_entry_format k e (Hwf _ E)) as [r ->]. simpl.
    eexists. split; [reflexivity|]. split; discriminate.
  - exists None. split; [reflexivity | tauto].
Qed.

(** C3: for every database and every name the answer is the one of the
    matching order (exact Korean name, then exact scientific name, then
    containment in either direction against the scientific name); on the
    built-in database of nine species no name raises, and the answer is the
    no-match signal exactly when no entry matches; "장수말벌" is critical
    with overall risk 5.0 and warnings for aggression and allergy;
    "장수풍뎅이" is safe with overall risk 0.0; an unknown name gets the
    no-match signal. *)
Theorem assess_risk_matching_order :
  (forall db name,
     assess_risk db name =
     match spec_match db name with
     | Some (k, e) => let* r := _format_risk_result k e in Ok (Some r)
     | None => Ok None
     end)
  /\ (forall name,
       exists o, assess_risk _get_default_database name = Ok o
                 /\ (o = None <-> spec_match _get_default_database name = None))
  /\ (exists r, assess_risk _get_default_database "장수말벌" = Ok (Some r)
                /\ r_risk_level r = "critical"
                /\ r_overall_risk r = 5.0%Q
                /\ In "🔴 높은 공격성" (r_warnings r)
                /\ In "🔴 아나필락시스 위험" (r_warnings r))
  /\ (exists r, assess_risk _get_default_database "장수풍뎅이" = Ok (Some r)
                /\ r_risk_level r = "safe"
                /\ r_overall_risk r = 0.0%Q)
  /\ assess_risk _get_default_database "NoSuchSpecies" = Ok None.
Proof.
  split; [exact assess_risk_spec_match|].
  split; [intros name; apply assess_risk_total; reflexivity|].
  split; [|split].
  - eexists. split; [vm_compute; reflexivity|].
    simpl. repeat split; auto 10.
  - eexists. split; [vm_compute; reflexivity|]. simpl. split; reflexivity.
  - vm_compute. reflexivity.
Qed.

End RiskAssessor.

(** ** Enhanced blacklist: the malicious-request heuristics
    (src/ip_blacklist_enhanced.py) *)

Module Blacklist.
Import PyStr.

Definition malicious_paths : list string :=
  [ "/wp-admin"; "/wp-login"; "/phpmyadmin"; "/admin/config";
    "/.env"; "/shell"; "/cmd"; "/eval"; "/system";
    "/etc/passwd"; "/proc/version"; "/boot.ini";
    "/cgi-bin"; "/scripts"; "/HNAP1"; "/GponForm";
    "/api/v1/auth"; "/solr/admin"; "/jenkins";
    "/actuator"; "/debug"; "/console"; "/manager";
    "/invoker"; "/axis2"; "/struts"; "/drupal";
    "/security.txt"; "/robots.txt"; "/sitemap.xml" ].

Definition malicious_methods : list string := [ "CONNECT"; "TRACE"; "TRACK" ].

Definition malicious_agents : list string :=
  [ "bot"; "crawler"; "spider"; "scan"; "hack"; "exploit";
    "nmap"; "sqlmap"; "nikto"; "dirb"; "gobuster";
    "masscan"; "zmap"; "nuclei"; "burp"; "owasp";
    "python-requests"; "curl"; "wget" ].

Definition malicious_urls : list string :=
  [ "api.ipify.org"; "shadowserver.org"; "httpbin.org";
    "webhook.site"; "ngrok.io"; "requestbin.com" ].

Definition double_quote : string := String "034"%char EmptyString.

Definition sql_patterns : list string :=
  [ "union"; "select"; "drop"; "insert"; "update"; "delete"; "'";
    double_quote; ";--" ].

Definition xss_patterns : list string :=
  [ "<script"; "javascript:"; "onerror="; "onload="; "alert(" ].

Definition traversal_patterns : list string :=
  [ "../"; "..\"; "%2e%2e"; "%252e" ].

Definition cmd_patterns : list string := [ "|"; "&&"; "||"; ";"; "`"; "$(" ].

Definition proxy_header_words : list string := [ "proxy"; "tunnel"; "forward" ].

Definition suspicious_prefixes : list string :=
  [ "MGLNDD"; "CONNECT_"; "TUNNEL_"; "PROXY_" ].

(** [for pattern in patterns: if pattern in text: return pattern]. *)
Definition first_in (patterns : list string) (text : string) : option string :=
  find (fun pattern => contains pattern text) patterns.

(** [x in list_of_str]. *)
Definition mem (x : string) (l : list string) : bool :=
  existsb (String.eqb x) l.

(** [ord(c) < 32 and c not in ['\t', '\n', '\r']]. *)
Definition is_binary_char (c : ascii) : bool :=
  let n := nat_of_ascii c in
  (n <? 32)%nat
  && negb ((n =? 9)%nat || (n =? 10)%nat || (n =? 13)%nat).

Fixpoint any_char (p : ascii -> bool) (s : string) : bool :=
  match s with
  | EmptyString => false
  | String c rest => p c || any_char p rest
  end.

(** The regular expression [\b(?:[0-9]{1,3}\.){3}[0-9]{1,3}\b] under
    [re.search].  On ASCII text the word characters are those of [re]:
    letters, digits and the underscore.  Outside ASCII [re] goes by the
    category of the code point; every byte of such a code point is taken
    for a word character here, which is right for letters (Korean text
    among them) and not for punctuation such as U+2013. *)
Definition is_digit (c : ascii) : bool :=
  let n := nat_of_ascii c in (48 <=? n)%nat && (n <=? 57)%nat.

Definition is_word (c : ascii) : bool :=
  let n := nat_of_ascii c in
  is_digit c
  || ((65 <=? n)%nat && (n <=? 90)%nat)
  || ((97 <=? n)%nat && (n <=? 122)%nat)
  || (n =? 95)%nat
  || (128 <=? n)%nat.

(** [[0-9]{1,3}]: what is left of [s] after one, two or three leading
    digits, one remainder per way of matching. *)
Definition digit_runs (s : string) : list string :=
  match s with
  | String a r1 =>
      if is_digit a then
        r1 :: match r1 with
              | String b r2 =>
                  if is_digit b then
                    r2 :: match r2 with
                          | String c r3 => if is_digit c then [r3] else []
                          | EmptyString => []
                          end
                  else []
              | EmptyString => []
              end
      else []
  | EmptyString => []
  end.

Definition after_dot (s : string) : list string :=
  match s with
  | String "."%char rest => [rest]
  | _ => []
  end.

Definition at_word_end (s : string) : bool :=
  match s with
  | EmptyString => true
  | String c _ => negb (is_word c)
  end.

(** Does the expression, without its leading [\b], match a prefix of [s]? *)
Definition quad_here (s : string) : bool :=
  let group rs := flat_map after_dot (flat_map digit_runs rs) in
  existsb at_word_end (flat_map digit_runs (group (group (group [s])))).

(** [re.search]: [prev_word] tells whether the character before [s] is a
    word character (false at the start of the text). *)
Fixpoint quad_search (prev_word : bool) (s : string) : bool :=
  (negb prev_word && quad_here s)
  || match s with
     | EmptyString => false
     | String c rest => quad_search (is_word c) rest
     end.

Definition has_ip_pattern (path : string) : bool := quad_search false path.

(** [str.startswith]. *)
Definition startswith (s pre : string) : bool := String.prefix pre s.

Definition is_malicious_pattern (ip method path : string)
  (user_agent : option string) (headers : list (string * string))
  : option string :=
  let path_lower := lower path in
  let user_agent_lower :=
    match user_agent with
    | Some ua => if truthy ua then lower ua else EmptyString
    | None => EmptyString
    end in
  match first_in malicious_paths path_lower with
  | Some pattern => Some ("악성경로: " +:+ pattern)
  | None =>
  if mem method malicious_methods then Some ("악성메소드: " +:+ method) else
  match first_in malicious_agents user_agent_lower with
  | Some pattern => Some ("악성Agent: " +:+ pattern)
  | None =>
  match first_in malicious_urls (lower path) with
  | Some pattern => Some ("악성URL: " +:+ pattern)
  | None =>
  match first_in sql_patterns path_lower with
  | Some pattern => Some ("SQL인젝션: " +:+ pattern)
  | None =>
  match first_in xss_patterns path_lower with
  | Some pattern => Some ("XSS시도: " +:+ pattern)
  | None =>
  match first_in traversal_patterns path_lower with
  | Some pattern => Some ("디렉토리순회: " +:+ pattern)
  | None =>
  match first_in cmd_patterns path_lower with
  | Some pattern => Some ("명령어인젝션: " +:+ pattern)
  | None =>
  match find (fun h => existsb (fun p => contains p (lower (fst h)))
                               proxy_header_words) headers with
  | Some (header_name, _) => Some ("프록시헤더: " +:+ header_name)
  | None =>
  if (1000 <? len path)%nat then Some "비정상경로길이" else
  if match user_agent with
     | Some ua => truthy ua && (500 <? len ua)%nat
     | None => false
     end
  then Some "비정상Agent길이" else
  if any_char is_binary_char path then Some "바이너리데이터" else
  match find (fun prefix => contains prefix path || contains prefix method)
             suspicious_prefixes with
  | Some prefix => Some ("비정상요청: " +:+ prefix)
  | None =>
  if has_ip_pattern path && negb (startswith path "/api/storage-image/")
  then Some "IP포함경로"
  else None
  end end end end end end end end end.

Example ip_pattern_found : has_ip_pattern "/img/10.0.0.1/x" = true.
Proof. reflexivity. Qed.

Example ip_pattern_needs_boundary : has_ip_pattern "/v1.2.3.4567" = false.
Proof. reflexivity. Qed.

Example ip_pattern_inside_word : has_ip_pattern "/a1.2.3.4" = false.
Proof. reflexivity. Qed.

Example traversal_alone :
  is_malicious_pattern "203.0.113.9" "GET" "/static/../secret" None []
  = Some "디렉토리순회: ../".
Proof. reflexivity. Qed.

Lemma first_in_some (patterns : list string) (text p : string) :
  In p patterns -> contains p text = true ->
  exists q, first_in patterns text = Some q /\ In q patterns.
Proof.
  intros Hin Hp. unfold first_in.
  destruct (find _ patterns) as [q|] eqn:E.
  - exists q. split; [reflexivity|]. now apply find_some in E.
  - pose proof (find_none _ _ E p Hin) as Hf. simpl in Hf. congruence.
Qed.

(** An ordinary request context: a method that is neither blocked nor
    carries a suspicious prefix, a user-agent with none of the scanner
    tokens and at most 500 characters, and no header named after a proxy, a
    tunnel or forwarding. *)
Definition normal_request (method user_agent : string)
  (headers : list (string * string)) : bool :=
  negb (mem method malicious_methods)
  && negb (existsb (fun prefix => contains prefix method) suspicious_prefixes)
  && negb (existsb (fun p => contains p (lower user_agent)) malicious_agents)
  && (len user_agent <=? 500)%nat
  && forallb (fun h => negb (existsb (fun p => contains p (lower (fst h)))
                                     proxy_header_words)) headers.

Definition browser_user_agent : string :=
  "Mozilla/5.0 (Windows NT 10.0; Win64; x64) AppleWebKit/537.36 (KHTML, like Gecko) Chrome/120.0.0.0 Safari/537.36".

Definition browser_headers : list (string * string) :=
  [ ("Host", "nest.example.org"); ("User-Agent", browser_user_agent);
    ("Accept", "text/html"); ("Accept-Language", "ko-KR") ].

(** The reasons the path-traversal check can return. *)
Definition traversal_reasons : list string :=
  map (fun pattern => "디렉토리순회: " +:+ pattern) traversal_patterns.

Lemma find_existsb_false {A} (f : A -> bool) (l : list A) :
  existsb f l = false -> find f l = None.
Proof.
  induction l as [|x l IH]; simpl; [reflexivity|].
  destruct (f x); simpl; [discriminate | exact IH].
Qed.

Lemma find_forallb_negb {A} (f : A -> bool) (l : list A) :
  forallb (fun x => negb (f x)) l = true -> find f l = None.
Proof.
  induction l as [|x l IH]; simpl; [reflexivity|].
  destruct (f x); simpl; [discriminate | exact IH].
Qed.

(** C4, as stated, fails on its second part: a path with
    "../../etc/passwd" is flagged, but by the sensitive-path list, which is
    scanned first and holds "/etc/passwd"; the reason is not one of the
    path-traversal check.  And a request for "/" from a normal browser is
    flagged all the same when it arrives through a proxy that adds a
    forwarding header. *)
Lemma traversal_label_counterexample :
  contains "../../etc/passwd" "/download/../../etc/passwd" = true
  /\ is_malicious_pattern "203.0.113.9" "GET" "/download/../../etc/passwd"
       (Some browser_user_agent) browser_headers
     = Some "악성경로: /etc/passwd"
  /\ mem "악성경로: /etc/passwd" traversal_reasons = false
  /\ is_malicious_pattern "203.0.113.9" "GET" "/" (Some browser_user_agent)
       (("X-Forwarded-For", "203.0.113.9") :: browser_headers)
     = Some "프록시헤더: X-Forwarded-For".
Proof. repeat split; reflexivity. Qed.

(** C4 (amended): every request whose path contains "/wp-admin" is
    flagged, whatever the method, with the reason "악성경로: /wp-admin";
    every request whose path contains "../../etc/passwd" is flagged with a
    non-empty reason, which is a sensitive-path reason ("악성경로: " and a
    listed path) because that list is scanned before the traversal
    patterns; a request for "/" in a normal context (see
    [normal_request]) gets the no-match signal. *)
Theorem is_malicious_pattern_flags :
  (forall ip method path user_agent headers,
     contains "/wp-admin" path = true ->
     is_malicious_pattern ip method path user_agent headers
     = Some "악성경로: /wp-admin")
  /\ (forall ip method path user_agent headers,
       contains "../../etc/passwd" path = true ->
       exists pattern,
         In pattern malicious_paths
         /\ is_malicious_pattern ip method path user_agent headers
            = Some ("악성경로: " +:+ pattern)
         /\ truthy ("악성경로: " +:+ pattern) = true
         /\ mem ("악성경로: " +:+ pattern) traversal_reasons = false)
  /\ (forall ip method user_agent headers,
       normal_request method user_agent headers = true ->
       is_malicious_pattern ip method "/" (Some user_agent) headers = None).
Proof.
  split; [|split].
  - intros ip method path ua headers H.
    apply contains_lower in H; [|reflexivity].
    unfold is_malicious_pattern, first_in, malicious_paths.
    cbn [find]. rewrite H. reflexivity.
  - intros ip method path ua headers H.
    apply (contains_suffix "../.." "/etc/passwd") in H.
    apply contains_lower in H; [|reflexivity].
    destruct (first_in_some malicious_paths (lower path) "/etc/passwd")
      as (q & Hq & Hin); [simpl; tauto | exact H |].
    exists q. split; [exact Hin|].
    unfold is_malicious_pattern. rewrite Hq.
    split; [reflexivity|]. split; [reflexivity|].
    unfold mem, traversal_reasons, traversal_patterns. simpl.
    reflexivity.
  - intros ip method ua headers H.
    unfold normal_request in H.
    repeat (apply andb_true_iff in H as [H ?]).
    apply negb_true_iff in H.
    repeat match goal with
           | X : negb _ = true |- _ => apply negb_true_iff in X
           end.
    unfold is_malicious_pattern.
    change (first_in malicious_paths (lower "/")) with (@None string).
    rewrite H.
    change (first_in malicious_urls (lower "/")) with (@None string).
    change (first_in sql_patterns (lower "/")) with (@None string).
    change (first_in xss_patterns (lower "/")) with (@None string).
    change (first_in traversal_patterns (lower "/")) with (@None string).
    change (first_in cmd_patterns (lower "/")) with (@None string).
    assert (Hua : first_in malicious_agents
                    (if truthy ua then lower ua else EmptyString) = None).
    { destruct ua as [|c ua]; [reflexivity|].
      cbn [truthy]. unfold first_in. now apply find_existsb_false. }
    rewrite Hua.
    rewrite find_forallb_negb by assumption.
    change (1000 <? len "/")%nat with false. cbv iota.
    assert (Hlen : (500 <? len ua)%nat = false).
    { apply Nat.ltb_ge. now apply Nat.leb_le. }
    rewrite Hlen, andb_false_r.
    change (any_char is_binary_char "/") with false. cbv iota.
    rewrite find_existsb_false; [reflexivity|].
    match goal with
    | X : existsb _ suspicious_prefixes = false |- _ =>
        rewrite <- X
    end.
    reflexivity.
Qed.

Lemma is_malicious_pattern_flags_witness :
  is_malicious_pattern "203.0.113.9" "DELETE" "/blog/wp-admin/setup.php"
    None [] = Some "악성경로: /wp-admin"
  /\ (exists pattern,
        In pattern malicious_paths
        /\ is_malicious_pattern "203.0.113.9" "GET"
             "/download/../../etc/passwd" (Some browser_user_agent)
             browser_headers
           = Some ("악성경로: " +:+ pattern)
        /\ truthy ("악성경로: " +:+ pattern) = true
        /\ mem ("악성경로: " +:+ pattern) traversal_reasons = false)
  /\ is_malicious_pattern "203.0.113.9" "GET" "/" (Some browser_user_agent)
       browser_headers = None.
Proof.
  destruct is_malicious_pattern_flags as (Hwp & Hpasswd & Hroot).
  split; [|split].
  - apply Hwp. reflexivity.
  - apply Hpasswd. reflexivity.
  - apply Hroot. reflexivity.
Defined.

End Blacklist.

(** ** IP whitelist guard (src/ip_whitelist.py) *)

Module Whitelist.
Import PyStr Py.
Open Scope py_scope.

(** A value read by [json.load]. *)
#[local] Unset Elimination Schemes.
Inductive json :=
| JNull
| JBool (b : bool)
| JNum (n : Z)
| JStr (s : string)
| JList (items : list json)
| JDict (members : list (string * json)).
#[local] Set Elimination Schemes.

(** whitelist.json on disk. *)
Inductive whitelist_file :=
| Missing                      (* [whitelist_file.exists()] is false *)
| Unreadable                   (* [open] or [json.load] raises *)
| Loaded (whitelist_data : json).

Definition default_ips : list json :=
  map JStr [ "127.0.0.1"; "::1"; "192.168.0.0/16"; "10.0.0.0/8";
             "172.16.0.0/12"; "124.61.16.167"; "175.193.255.236" ].

(** [for item in whitelist_data]: the items of a list, the keys of an
    object, the characters of a string; other values are not iterable. *)
Fixpoint chars (s : string) : list json :=
  match s with
  | EmptyString => []
  | String c rest => JStr (String c EmptyString) :: chars rest
  end.

Definition iterate (v : json) : result (list json) :=
  match v with
  | JList items => Ok items
  | JDict members => Ok (map (fun kv => JStr (fst kv)) members)
  | JStr s => Ok (chars s)
  | _ => Raise TypeError
  end.

Fixpoint dict_get (key : string) (members : list (string * json))
  : option json :=
  match members with
  | [] => None
  | (k, v) :: rest => if String.eqb key k then Some v else dict_get key rest
  end.

(** [item['ip_address']]. *)
Definition ip_address_of (item : json) : result json :=
  match item with
  | JDict members =>
      match dict_get "ip_address" members with
      | Some v => Ok v
      | None => Raise KeyError
      end
  | _ => Raise TypeError
  end.

Fixpoint comprehension (items : list json) : result (list json) :=
  match items with
  | [] => Ok []
  | item :: rest =>
      let* v := ip_address_of item in
      let* vs := comprehension rest in
      Ok (v :: vs)
  end.

(** The [try] block of [load_whitelist_ips]: [Ok None] when the file
    does not exist, an exception when it cannot be opened or parsed or when
    the comprehension raises. *)
Definition read_whitelist (file : whitelist_file)
  : result (option (list json)) :=
  match file with
  | Missing => Ok None
  | Unreadable => Raise OSError
  | Loaded whitelist_data =>
      let* items := iterate whitelist_data in
      let* ips := comprehension items in
      Ok (Some ips)
  end.

(** [load_whitelist_ips]: any exception while reading is caught here and
    falls through to the built-in list. *)
Definition load_whitelist_ips (file : whitelist_file) : list json :=
  match read_whitelist file with
  | Ok (Some ips) => ips
  | Ok None => default_ips
  | Raise _ => default_ips
  end.

(** ['/' in allowed] for whatever the list holds. *)
Definition slash_in (allowed : json) : result bool :=
  match allowed with
  | JStr s => Ok (contains "/" s)
  | JList items =>
      Ok (existsb (fun x => match x with
                            | JStr s => String.eqb s "/"
                            | _ => false
                            end) items)
  | JDict members => Ok (existsb (fun kv => String.eqb (fst kv) "/") members)
  | _ => Raise TypeError
  end.

Section IpAddressLibrary.

(** The standard [ipaddress] module, as used here. *)
Variable Addr : Type.
Variable Net : Type.
(** [ipaddress.ip_address(s)]; [None] is [ValueError]. *)
Variable ip_address : string -> option Addr.
(** [ipaddress.ip_network(s, strict=False)]; [None] is [ValueError]. *)
Variable ip_network : string -> option Net.
(** [addr in net]. *)
Variable net_contains : Net -> Addr -> bool.
(** [str(addr)]. *)
Variable addr_str : Addr -> string.

(** [ip_network(allowed, strict=False)]: a list or an object is turned
    into its [str], which starts with a bracket and is no network. *)
Definition ip_network_of (allowed : json) : result Net :=
  match allowed with
  | JStr s =>
      match ip_network s with
      | Some n => Ok n
      | None => Raise ValueError
      end
  | _ => Raise ValueError
  end.

(** One turn of the loop: [Ok true] is [return True], [Ok false] goes on
    to the next entry. *)
Definition entry_allows (client_ip : Addr) (allowed : json) : result bool :=
  let* cidr := slash_in allowed in
  if cidr then
    let* net := ip_network_of allowed in
    Ok (net_contains net client_ip)
  else
    Ok match allowed with
       | JStr s => String.eqb (addr_str client_ip) s
       | _ => false
       end.

Fixpoint scan (client_ip : Addr) (current_allowed_ips : list json)
  : result bool :=
  match current_allowed_ips with
  | [] => Ok false
  | allowed :: rest =>
      let* hit := entry_allows client_ip allowed in
      if hit then Ok true else scan client_ip rest
  end.

(** The body of the [try]. *)
Definition is_ip_allowed_try (file : whitelist_file) (ip : string)
  : result bool :=
  let current_allowed_ips := load_whitelist_ips file in
  match ip_address ip with
  | None => Raise ValueError
  | Some client_ip => scan client_ip current_allowed_ips
  end.

(** [is_ip_allowed]: the bare [except] answers [False]. *)
Definition is_ip_allowed (file : whitelist_file) (ip : string) : bool :=
  match is_ip_allowed_try file ip with
  | Ok b => b
  | Raise _ => false
  end.

(** An entry that lets the address in. *)
Definition matches (client_ip : Addr) (allowed : json) : Prop :=
  entry_allows client_ip allowed = Ok true.

Lemma scan_true (client_ip : Addr) (ips : list json) :
  scan client_ip ips = Ok true ->
  exists pre allowed post,
    ips = pre ++ allowed :: post
    /\ matches client_ip allowed
    /\ Forall (fun x => entry_allows client_ip x = Ok false) pre.
Proof.
  induction ips as [|x ips IH]; simpl; [discriminate|].
  destruct (entry_allows client_ip x) as [[|]|e] eqn:E; simpl;
    [| |discriminate].
  - intros _. exists [], x, ips. repeat split; [exact E | constructor].
  - intros H. destruct (IH H) as (pre & a & post & -> & Hm & Hpre).
    exists (x :: pre), a, post. repeat split; [exact Hm|].
    constructor; assumption.
Qed.

Lemma scan_stops_at_raise (client_ip : Addr) (pre post : list json)
  (bad : json) (e : error) :
  Forall (fun x => entry_allows client_ip x = Ok false) pre ->
  entry_allows client_ip bad = Raise e ->
  scan client_ip (pre ++ bad :: post) = Raise e.
Proof.
  induction 1 as [|x pre Hx _ IH]; intros Hbad; simpl.
  - now rewrite Hbad.
  - rewrite Hx. simpl. now apply IH.
Qed.

Lemma malformed_cidr_raises (client_ip : Addr) (s : string) :
  contains "/" s = true -> ip_network s = None ->
  entry_allows client_ip (JStr s) = Raise ValueError.
Proof.
  intros Hs Hn. unfold entry_allows. simpl. rewrite Hs. simpl.
  now rewrite Hn.
Qed.

Lemma matches_inv (client_ip : Addr) (allowed : json) :
  matches client_ip allowed ->
  exists s, allowed = JStr s
    /\ ((contains "/" s = true
         /\ exists net, ip_network s = Some net
                        /\ net_contains net client_ip = true)
        \/ (contains "/" s = false /\ addr_str client_ip = s)).
Proof.
  unfold matches, entry_allows.
  destruct allowed as [| b | n | s | items | members]; simpl;
    try discriminate.
  - intros H. exists s. split; [reflexivity|].
    destruct (contains "/" s); simpl in H.
    + left. split; [reflexivity|].
      destruct (ip_network s) as [net|]; simpl in H; [|discriminate].
      exists net. split; [reflexivity | congruence].
    + right. split; [reflexivity|]. apply String.eqb_eq. congruence.
  - destruct (existsb _ items); simpl; discriminate.
  - destruct (existsb _ members); simpl; discriminate.
Qed.

(** C10 (amended): [is_ip_allowed] always answers a boolean.  It answers
    [False] whenever the input is not an IP address and whenever anything
    raises inside its [try], which is where the matching happens (in
    particular at a malformed CIDR entry reached before any matching entry,
    whatever follows it in the list).  An exception while loading the file
    never reaches that [try]: [load_whitelist_ips] absorbs it and the
    built-in list is the list in effect.  The answer is [True] only when the
    input parses and an entry of the list in effect matches it, by network
    membership for an entry with a slash and by equality with the canonical
    text otherwise. *)
Theorem is_ip_allowed_fail_closed (file : whitelist_file) (ip : string) :
  (ip_address ip = None -> is_ip_allowed file ip = false)
  /\ (forall e, is_ip_allowed_try file ip = Raise e ->
                is_ip_allowed file ip = false)
  /\ (forall client_ip pre bad post,
        ip_address ip = Some client_ip ->
        load_whitelist_ips file = pre ++ JStr bad :: post ->
        Forall (fun x => entry_allows client_ip x = Ok false) pre ->
        contains "/" bad = true -> ip_network bad = None ->
        is_ip_allowed file ip = false)
  /\ (forall e, read_whitelist file = Raise e ->
                load_whitelist_ips file = default_ips)
  /\ (is_ip_allowed file ip = true ->
      exists client_ip s,
        ip_address ip = Some client_ip
        /\ In (JStr s) (load_whitelist_ips file)
        /\ ((contains "/" s = true
             /\ exists net, ip_network s = Some net
                            /\ net_contains net client_ip = true)
            \/ (contains "/" s = false /\ addr_str client_ip = s))).
Proof.
  unfold is_ip_allowed, is_ip_allowed_try.
  split; [|split; [|split; [|split]]].
  - intros ->. reflexivity.
  - intros e ->. reflexivity.
  - intros client_ip pre bad post -> -> Hpre Hs Hn.
    rewrite (scan_stops_at_raise client_ip pre post (JStr bad) ValueError);
      [reflexivity | exact Hpre | now apply malformed_cidr_raises].
  - intros e He. unfold load_whitelist_ips. now rewrite He.
  - destruct (ip_address ip) as [client_ip|]; [|discriminate].
    destruct (scan client_ip (load_whitelist_ips file)) as [b|e] eqn:E;
      [|discriminate].
    intros ->.
    destruct (scan_true _ _ E) as (pre & allowed & post & Hl & Hm & _).
    destruct (matches_inv _ _ Hm) as (s & -> & Hs).
    exists client_ip, s. split; [reflexivity|]. split; [|exact Hs].
    rewrite Hl. apply in_or_app. right. left. reflexivity.
Qed.

End IpAddressLibrary.

(** An IPv4-only reading of the [ipaddress] functions, enough to run the
    built-in list: dotted quads without leading zeros, and networks written
    with a prefix length. *)
Module IPv4.

Record addr := { text : string; value : Z }.

Fixpoint split_on (sep : ascii) (s : string) : list string :=
  match s with
  | EmptyString => [EmptyString]
  | String c rest =>
      if Ascii.eqb c sep then EmptyString :: split_on sep rest
      else match split_on sep rest with
           | [] => [String c EmptyString]
           | piece :: pieces => String c piece :: pieces
           end
  end.

Definition digit_value (c : ascii) : option Z :=
  let n := nat_of_ascii c in
  if (48 <=? n)%nat && (n <=? 57)%nat then Some (Z.of_nat (n - 48)) else None.

Fixpoint decimal (acc : Z) (s : string) : option Z :=
  match s with
  | EmptyString => Some acc
  | String c rest =>
      match digit_value c with
      | Some d => decimal (10 * acc + d) rest
      | None => None
      end
  end.

Definition octet (s : string) : option Z :=
  match s with
  | EmptyString => None
  | String "0"%char (String _ _) => None
  | _ =>
      if (String.length s <=? 3)%nat then
        match decimal 0 s with
        | Some v => if (v <=? 255)%Z then Some v else None
        | None => None
        end
      else None
  end.

Definition quad (s : string) : option Z :=
  match map octet (split_on "."%char s) with
  | [Some a; Some b; Some c; Some d] =>
      Some (((a * 256 + b) * 256 + c) * 256 + d)%Z
  | _ => None
  end.

Definition ip_address (s : string) : option addr :=
  match quad s with
  | Some v => Some {| text := s; value := v |}
  | None => None
  end.

Record net := { base : Z; prefixlen : Z }.

Definition ip_network (s : string) : option net :=
  match split_on "/"%char s with
  | [a; p] =>
      match quad a, p with
      | Some v, String _ _ =>
          match decimal 0 p with
          | Some len =>
              if (len <=? 32)%Z then
                let size := (2 ^ (32 - len))%Z in
                Some {| base := (v / size * size)%Z; prefixlen := len |}
              else None
          | None => None
          end
      | _, _ => None
      end
  | _ => None
  end.

Definition net_contains (n : net) (a : addr) : bool :=
  let size := (2 ^ (32 - prefixlen n))%Z in
  (value a / size =? base n / size)%Z.

Definition allowed (file : whitelist_file) (ip : string) : bool :=
  is_ip_allowed addr net ip_address ip_network net_contains text file ip.

Example private_range_allowed : allowed Missing "192.168.37.5" = true.
Proof. vm_compute. reflexivity. Qed.

Example public_dns_rejected : allowed Missing "8.8.8.8" = false.
Proof. vm_compute. reflexivity. Qed.

Example not_an_address_rejected : allowed Missing "localhost" = false.
Proof. vm_compute. reflexivity. Qed.

(** A malformed CIDR entry ahead of a good one closes the door. *)
Example malformed_entry_rejects :
  allowed (Loaded (JList [ JDict [("ip_address", JStr "10.0.0.0/99")];
                           JDict [("ip_address", JStr "10.0.0.0/8")] ]))
          "10.1.2.3" = false.
Proof. vm_compute. reflexivity. Qed.

Example custom_list_allows :
  allowed (Loaded (JList [ JDict [("ip_address", JStr "10.0.0.0/8")] ]))
          "10.1.2.3" = true.
Proof. vm_compute. reflexivity. Qed.

End IPv4.

(** C10, as stated, fails: an exception while loading the whitelist does
    not make the check answer [False].  With an unreadable file, or a file
    whose entries lack the ['ip_address'] key, the built-in list is used and
    a loopback or private address is let in. *)
Lemma load_failure_counterexample :
  read_whitelist Unreadable = Raise OSError
  /\ IPv4.allowed Unreadable "127.0.0.1" = true
  /\ read_whitelist (Loaded (JList [ JDict [("address", JStr "10.0.0.0/8")] ]))
     = Raise KeyError
  /\ IPv4.allowed (Loaded (JList [ JDict [("address", JStr "10.0.0.0/8")] ]))
       "192.168.37.5" = true.
Proof. vm_compute. repeat split; reflexivity. Qed.

Lemma is_ip_allowed_fail_closed_witness :
  let file := Loaded (JList [ JDict [("ip_address", JStr "203.0.113.7")];
                              JDict [("ip_address", JStr "10.0.0.0/99")];
                              JDict [("ip_address", JStr "10.0.0.0/8")] ]) in
  IPv4.allowed file "not-an-ip" = false
  /\ IPv4.allowed file "10.1.2.3" = false
  /\ load_whitelist_ips Unreadable = default_ips
  /\ exists client_ip s,
       IPv4.ip_address "192.168.37.5" = Some client_ip
       /\ In (JStr s) (load_whitelist_ips Missing)
       /\ ((contains "/" s = true
            /\ exists net, IPv4.ip_network s = Some net
                           /\ IPv4.net_contains net client_ip = true)
           \/ (contains "/" s = false /\ IPv4.text client_ip = s)).
Proof.
  pose proof (is_ip_allowed_fail_closed IPv4.addr IPv4.net IPv4.ip_address
                IPv4.ip_network IPv4.net_contains IPv4.text) as H.
  split; [|split; [|split]].
  - apply (H _ "not-an-ip"). reflexivity.
  - apply (proj1 (proj2 (proj2 (H _ "10.1.2.3")))
             {| IPv4.text := "10.1.2.3"; IPv4.value := 167838211 |}
             [JStr "203.0.113.7"] "10.0.0.0/99" [JStr "10.0.0.0/8"]);
      try reflexivity.
    repeat constructor.
  - apply (proj1 (proj2 (proj2 (proj2 (H Unreadable "127.0.0.1")))) OSError).
    reflexivity.
  - apply (proj2 (proj2 (proj2 (proj2 (H Missing "192.168.37.5"))))).
    vm_compute. reflexivity.
Defined.

End Whitelist.

(** ** More string helpers: [replace] and [strip] *)

Module PyStr2.
Import PyStr.

(** [s.replace(old, new)] for a non-empty [old]: occurrences are replaced
    from the left, without overlap.  [skip] counts the characters of a
    matched occurrence still to be dropped. *)
Fixpoint replace_from (old new : string) (skip : nat) (s : string) : string :=
  match s with
  | EmptyString => EmptyString
  | String c rest =>
      match skip with
      | S k => replace_from old new k rest
      | O =>
          if String.prefix old s
          then new +:+ replace_from old new (String.length old - 1) rest
          else String c (replace_from old new 0 rest)
      end
  end.

Definition replace (old new s : string) : string := replace_from old new 0 s.

(** [str.strip()]: the characters [str.isspace] accepts, in UTF-8.  They
    are the ASCII controls 9-13 and 28-31, the space, U+0085, U+00A0,
    U+1680, U+2000 to U+200A, U+2028, U+2029, U+202F, U+205F and U+3000. *)
Definition is_space (c : ascii) : bool :=
  let n := nat_of_ascii c in
  ((9 <=? n)%nat && (n <=? 13)%nat)
  || ((28 <=? n)%nat && (n <=? 32)%nat).

(** The number of bytes of the white-space character [s] starts with, 0
    when it starts with none. *)
Definition space_width (s : string) : nat :=
  match s with
  | EmptyString => 0
  | String a rest =>
      if is_space a then 1 else
      let a := nat_of_ascii a in
      match rest with
      | String b rest' =>
          let b := nat_of_ascii b in
          if (a =? 194)%nat then
            if (b =? 133)%nat || (b =? 160)%nat then 2 else 0
          else
            match rest' with
            | String c _ =>
                let c := nat_of_ascii c in
                if (a =? 225)%nat && (b =? 154)%nat && (c =? 128)%nat
                then 3
                else if (a =? 226)%nat && (b =? 128)%nat
                        && (((128 <=? c)%nat && (c <=? 138)%nat)
                            || (c =? 168)%nat || (c =? 169)%nat
                            || (c =? 175)%nat)
                then 3
                else if (a =? 226)%nat && (b =? 129)%nat && (c =? 159)%nat
                then 3
                else if (a =? 227)%nat && (b =? 128)%nat && (c =? 128)%nat
                then 3
                else 0
            | EmptyString => 0
            end
      | EmptyString => 0
      end
  end.

(** [skip] counts the bytes of a white-space character still to be
    dropped. *)
Fixpoint lstrip_from (skip : nat) (s : string) : string :=
  match s with
  | EmptyString => EmptyString
  | String c rest =>
      match skip with
      | S k => lstrip_from k rest
      | O =>
          match space_width s with
          | O => s
          | S k => lstrip_from k rest
          end
      end
  end.

Definition lstrip (s : string) : string := lstrip_from 0 s.

(** What is left of [s] when nothing but white space follows is dropped. *)
Fixpoint rstrip (s : string) : string :=
  match s with
  | EmptyString => EmptyString
  | String c rest =>
      match lstrip s with
      | EmptyString => EmptyString
      | _ => String c (rstrip rest)
      end
  end.

Definition strip (s : string) : string := rstrip (lstrip s).

Example replace_suffix : replace "과" EmptyString "말벌과" = "말벌".
Proof. reflexivity. Qed.

Example replace_all : replace "ab" "x" "abcabab" = "xcxx".
Proof. reflexivity. Qed.

Example strip_both : strip "  vespa mandarinia " = "vespa mandarinia".
Proof. reflexivity. Qed.

(** A no-break space (U+00A0) and an ideographic space (U+3000) are
    stripped as well; a dagger (U+2020), whose encoding shares two bytes
    with the white space of the same block, is not. *)
Example strip_unicode :
  strip (String "194" (String "160" "10.0.0.1")
         +:+ String "227" (String "128" (String "128" EmptyString)))
  = "10.0.0.1"
  /\ strip (String "226" (String "128" (String "160" " a ")))
     = String "226" (String "128" (String "160" " a")).
Proof. split; reflexivity. Qed.

End PyStr2.

(** ** Hierarchical classifier (utils/hierarchical_classifier.py) *)

Module Hierarchical.
Import PyStr PyStr2 Py.

Definition mem_string (x : string) (l : list string) : bool :=
  existsb (String.eqb x) l.

Record prediction := { name : string; confidence : Q }.

Record confidence_scores := {
  cs_family : option Q;
  cs_genus : option Q;
  cs_species : option Q
}.

(** The dictionary [classify_hierarchical] returns; ['species_candidates']
    is a key that is only set by the species stage. *)
Record hierarchical_result := {
  order : string;
  family : option string;
  genus : option string;
  species : option string;
  scores : confidence_scores;
  species_candidates : option (list prediction)
}.

Section Models.

Variable Image : Type.
Variable Model : Type.
(** The models directory: whether [models_dir / level] exists, the stems
    of the files [best_*_classifier.pth] in it in the order [glob] yields
    them, and whether a class file of a given name is there. *)
Variable level_dir_exists : string -> bool.
Variable glob_stems : string -> list string.
Variable json_exists : string -> string -> bool.
(** [_load_single_classifier] for a level and a stem; [None] when loading
    raised. *)
Variable _load_single_classifier : string -> string -> option Model.
(** The body of the [try] in [_classify_single]: transform, forward pass,
    softmax and top-k. *)
Variable forward : Model -> Image -> nat -> result (list prediction).

(** The object's mutable part: the loaded classifiers, a [dict] in
    insertion order, and the stages announced on the console
    ("과/속/종 분류 시도": level and key). *)
Record state := {
  classifiers : list (string * option Model);
  attempts : list (string * string)
}.

Fixpoint dict_set (key : string) (v : option Model)
  (d : list (string * option Model)) : list (string * option Model) :=
  match d with
  | [] => [(key, v)]
  | (k, w) :: rest =>
      if String.eqb key k then (k, v) :: rest else (k, w) :: dict_set key v rest
  end.

Fixpoint dict_del (key : string) (d : list (string * option Model))
  : list (string * option Model) :=
  match d with
  | [] => []
  | (k, w) :: rest =>
      if String.eqb key k then rest else (k, w) :: dict_del key rest
  end.

Fixpoint dict_find (key : string) (d : list (string * option Model))
  : option (option Model) :=
  match d with
  | [] => None
  | (k, w) :: rest => if String.eqb key k then Some w else dict_find key rest
  end.

Definition _find_classifier (key level : string) (st : state)
  : option string * state :=
  match find (fun kv => contains key (lower (fst kv)) && contains level (fst kv))
             (classifiers st) with
  | Some (classifier_name, _) => (Some classifier_name, st)
  | None =>
      if negb (level_dir_exists level) then (None, st) else
      let pattern := "best_" +:+ key +:+ "_" +:+ level +:+ "_classifier" in
      match find (fun stem =>
                    contains pattern stem
                    && json_exists level
                         (replace "_classifier" EmptyString
                            (replace "best_" EmptyString stem)
                          +:+ "_classes.json"))
                 (glob_stems level) with
      | Some stem =>
          (Some stem,
           {| classifiers :=
                dict_set stem (_load_single_classifier level stem)
                         (classifiers st);
              attempts := attempts st |})
      | None => (None, st)
      end
  end.

Definition _unload_classifier (classifier_key : string) (st : state) : state :=
  {| classifiers := dict_del classifier_key (classifiers st);
     attempts := attempts st |}.

Definition _classify_single (image : Image) (classifier_key : string)
  (top_k : nat) (st : state) : option (list prediction) :=
  match dict_find classifier_key (classifiers st) with
  | None => None
  | Some None => None
  | Some (Some classifier) =>
      match forward classifier image top_k with
      | Ok results => Some results
      | Raise _ => None
      end
  end.

Definition announce (level key : string) (st : state) : state :=
  {| classifiers := classifiers st;
     attempts := attempts st ++ [(level, key)] |}.

(** One stage: announce it, look for the classifier, run it, evict it.
    The answer is the top prediction list when it is non-empty. *)
Definition stage (image : Image) (level key : string) (top_k : nat)
  (st : state) : option (prediction * list prediction) * state :=
  let st := announce level key st in
  match _find_classifier key level st with
  | (Some classifier, st) =>
      if truthy classifier then
        let found := _classify_single image classifier top_k st in
        let st := _unload_classifier classifier st in
        match found with
        | Some (top :: others) => (Some (top, top :: others), st)
        | Some [] | None => (None, st)
        end
      else (None, st)
  | (None, st) => (None, st)
  end.

Definition family_key (family_name : string) : string :=
  lower (replace "과" EmptyString family_name).

Definition genus_key (genus_name : string) : string :=
  strip (replace "속" EmptyString (lower genus_name)).

Definition order_key (order_name : string) : string :=
  lower (replace "목" EmptyString order_name).

Definition classify_hierarchical (image : Image) (order_name : string)
  (top_k : nat) (st : state) : hierarchical_result * state :=
  let none_scores :=
    {| cs_family := None; cs_genus := None; cs_species := None |} in
  match stage image "family" (order_key order_name) top_k st with
  | (None, st) =>
      ({| order := order_name; family := None; genus := None;
          species := None; scores := none_scores;
          species_candidates := None |}, st)
  | (Some (f, _), st) =>
      match stage image "genus" (family_key (name f)) top_k st with
      | (None, st) =>
          ({| order := order_name; family := Some (name f); genus := None;
              species := None;
              scores := {| cs_family := Some (confidence f);
                           cs_genus := None; cs_species := None |};
              species_candidates := None |}, st)
      | (Some (g, _), st) =>
          match stage image "species" (genus_key (name g)) top_k st with
          | (None, st) =>
              ({| order := order_name; family := Some (name f);
                  genus := Some (name g); species := None;
                  scores := {| cs_family := Some (confidence f);
                               cs_genus := Some (confidence g);
                               cs_species := None |};
                  species_candidates := None |}, st)
          | (Some (s, candidates), st) =>
              ({| order := order_name; family := Some (name f);
                  genus := Some (name g); species := Some (name s);
                  scores := {| cs_family := Some (confidence f);
                               cs_genus := Some (confidence g);
                               cs_species := Some (confidence s) |};
                  species_candidates := Some candidates |}, st)
          end
      end
  end.

Lemma _find_classifier_attempts (key level : string) (st : state) :
  attempts (snd (_find_classifier key level st)) = attempts st.
Proof.
  unfold _find_classifier.
  destruct (find _ (classifiers st)) as [[c m]|]; [reflexivity|].
  destruct (negb (level_dir_exists level)); [reflexivity|].
  destruct (find _ (glob_stems level)); reflexivity.
Qed.

Lemma stage_attempts (image : Image) (level key : string) (top_k : nat)
  (st : state) :
  attempts (snd (stage image level key top_k st))
  = attempts st ++ [(level, key)].
Proof.
  unfold stage.
  pose proof (_find_classifier_attempts key level (announce level key st)) as H.
  destruct (_find_classifier key level (announce level key st)) as [[c|] st1];
    simpl in H; [|exact H].
  destruct (truthy c); [|exact H].
  destruct (_classify_single image c top_k st1) as [[|top others]|];
    simpl; exact H.
Qed.

(** No stage answer without a located classifier. *)
Lemma stage_needs_classifier (image : Image) (level key : string)
  (top_k : nat) (st : state) :
  fst (_find_classifier key level (announce level key st)) = None ->
  fst (stage image level key top_k st) = None.
Proof.
  unfold stage.
  destruct (_find_classifier key level (announce level key st)) as [[c|] st1];
    simpl; [discriminate | reflexivity].
Qed.

(** The classifier for a level and a key answers [results] and leaves the
    state [st']: after the stage is announced a classifier is located, it
    is loaded and yields a list that is not empty, and it is evicted. *)
Definition answers (image : Image) (top_k : nat) (level key : string)
  (st : state) (results : list prediction) (st' : state) : Prop :=
  exists classifier st1,
    _find_classifier key level (announce level key st) = (Some classifier, st1)
    /\ truthy classifier = true
    /\ _classify_single image classifier top_k st1 = Some results
    /\ results <> []
    /\ st' = _unload_classifier classifier st1.

(** The stage yields nothing: no classifier can be located, or the one
    located is not loaded, raises, or yields the empty list. *)
Definition yields_nothing (image : Image) (top_k : nat) (level key : string)
  (st st' : state) : Prop :=
  (_find_classifier key level (announce level key st) = (None, st'))
  \/ exists classifier st1,
       _find_classifier key level (announce level key st)
       = (Some classifier, st1)
       /\ ((truthy classifier = false /\ st' = st1)
           \/ (truthy classifier = true
               /\ st' = _unload_classifier classifier st1
               /\ (_classify_single image classifier top_k st1 = None
                   \/ _classify_single image classifier top_k st1 = Some []))).

Lemma stage_cases (image : Image) (level key : string) (top_k : nat)
  (st : state) :
  (exists top others st',
     stage image level key top_k st = (Some (top, top :: others), st')
     /\ answers image top_k level key st (top :: others) st')
  \/ (exists st',
        stage image level key top_k st = (None, st')
        /\ yields_nothing image top_k level key st st').
Proof.
  unfold stage, answers, yields_nothing.
  destruct (_find_classifier key level (announce level key st))
    as [[classifier|] st1] eqn:F.
  - destruct (truthy classifier) eqn:T.
    + destruct (_classify_single image classifier top_k st1)
        as [[|top others]|] eqn:C.
      * right. eexists. split; [reflexivity|]. right.
        exists classifier, st1. split; [reflexivity|]. right. tauto.
      * left. exists top, others, (_unload_classifier classifier st1).
        split; [reflexivity|]. exists classifier, st1.
        repeat split; try assumption. discriminate.
      * right. eexists. split; [reflexivity|]. right.
        exists classifier, st1. split; [reflexivity|]. right. tauto.
    + right. eexists. split; [reflexivity|]. right.
      exists classifier, st1. split; [reflexivity|]. left. tauto.
  - right. exists st1. split; [reflexivity|]. now left.
Qed.

(** The record with the ranks resolved so far. *)
Definition resolved (order_name : string) (f g s : option prediction)
  (candidates : option (list prediction)) : hierarchical_result :=
  {| order := order_name;
     family := name <$> f;
     genus := name <$> g;
     species := name <$> s;
     scores := {| cs_family := confidence <$> f;
                  cs_genus := confidence <$> g;
                  cs_species := confidence <$> s |};
     species_candidates := candidates |}.

(** C6: the record is filled top-down, each rank from the answer of its
    own classifier.  The family is the top answer of the classifier found
    for the order; the genus is the top answer of the classifier found for
    that family, looked for only then; the species is the top answer of the
    classifier found for that genus, looked for only then, with the whole
    answer kept as the candidate list.  The first stage whose classifier
    cannot be located or yields nothing ends the descent: the record keeps
    the ranks resolved before it and nothing below.  So a species is only
    reported with a genus and a genus only with a family; the stages
    announced are exactly those reached; and a confidence (and the candidate
    list) is recorded for exactly the resolved ranks. *)
Theorem classify_hierarchical_top_down (image : Image) (order_name : string)
  (top_k : nat) (st : state) :
  let r := fst (classify_hierarchical image order_name top_k st) in
  let st' := snd (classify_hierarchical image order_name top_k st) in
  order r = order_name
  /\ (species r <> None -> genus r <> None)
  /\ (genus r <> None -> family r <> None)
  /\ attempts st' =
     attempts st ++ [("family", order_key order_name)]
     ++ match family r with
        | Some f =>
            [("genus", family_key f)]
            ++ match genus r with
               | Some g => [("species", genus_key g)]
               | None => []
               end
        | None => []
        end
  /\ (cs_family (scores r) <> None <-> family r <> None)
  /\ (cs_genus (scores r) <> None <-> genus r <> None)
  /\ (cs_species (scores r) <> None <-> species r <> None)
  /\ (species_candidates r <> None <-> species r <> None)
  /\ (fst (_find_classifier (order_key order_name) "family"
             (announce "family" (order_key order_name) st)) = None ->
      family r = None /\ genus r = None /\ species r = None)
  /\ ((yields_nothing image top_k "family" (order_key order_name) st st'
       /\ r = resolved order_name None None None None)
      \/ exists f fl st1,
           answers image top_k "family" (order_key order_name) st (f :: fl) st1
           /\ ((yields_nothing image top_k "genus" (family_key (name f)) st1 st'
                /\ r = resolved order_name (Some f) None None None)
               \/ exists g gl st2,
                    answers image top_k "genus" (family_key (name f)) st1
                      (g :: gl) st2
                    /\ ((yields_nothing image top_k "species"
                           (genus_key (name g)) st2 st'
                         /\ r = resolved order_name (Some f) (Some g) None None)
                        \/ exists s sl,
                             answers image top_k "species"
                               (genus_key (name g)) st2 (s :: sl) st'
                             /\ r = resolved order_name (Some f) (Some g)
                                      (Some s) (Some (s :: sl))))).
Proof.
  unfold classify_hierarchical.
  pose proof (stage_attempts image "family" (order_key order_name) top_k st)
    as H1.
  pose proof (stage_needs_classifier image "family" (order_key order_name)
                top_k st) as N1.
  destruct (stage_cases image "family" (order_key order_name) top_k st)
    as [(f & fl & st1 & E1 & A1)|(st1 & E1 & Y1)];
    rewrite E1 in *; simpl in H1, N1; cycle 1.
  { simpl. rewrite H1. repeat split; try easy. left. now split. }
  pose proof (stage_attempts image "genus" (family_key (name f)) top_k st1)
    as H2.
  destruct (stage_cases image "genus" (family_key (name f)) top_k st1)
    as [(g & gl & st2 & E2 & A2)|(st2 & E2 & Y2)];
    rewrite E2 in *; simpl in H2; cycle 1.
  { simpl. rewrite H2, H1, <- app_assoc.
    repeat split; try easy; 
      try (match goal with X : fst _ = None |- _ => now specialize (N1 X) end).
    right. exists f, fl, st1. split; [exact A1|]. left. now split. }
  pose proof (stage_attempts image "species" (genus_key (name g)) top_k st2)
    as H3.
  destruct (stage_cases image "species" (genus_key (name g)) top_k st2)
    as [(s & sl & st3 & E3 & A3)|(st3 & E3 & Y3)];
    rewrite E3 in *; simpl in H3; simpl;
    rewrite H3, H2, H1, <- !app_assoc.
  - repeat split; try easy; 
      try (match goal with X : fst _ = None |- _ => now specialize (N1 X) end).
    right. exists f, fl, st1. split; [exact A1|].
    right. exists g, gl, st2. split; [exact A2|].
    right. exists s, sl. now split.
  - repeat split; try easy; 
      try (match goal with X : fst _ = None |- _ => now specialize (N1 X) end).
    right. exists f, fl, st1. split; [exact A1|].
    right. exists g, gl, st2. split; [exact A2|].
    left. now split.
Qed.

End Models.

Arguments attempts {Model} _.
Arguments classifiers {Model} _.
Arguments announce {Model} _ _ _.
Arguments Build_state {Model} _ _.

(** A small models directory to run the chain on: a family classifier for
    the order 벌목, a genus classifier for the family 말벌과, and no species
    classifier at all.  A model is the list of predictions it answers. *)
Module Sample.

Definition level_dir_exists (level : string) : bool := true.

Definition glob_stems (level : string) : list string :=
  if String.eqb level "family"
  then ["best_대벌레_family_classifier"; "best_벌_family_classifier"]
  else if String.eqb level "genus" then ["best_말벌_genus_classifier"]
  else [].

Definition json_exists (level json_name : string) : bool :=
  mem_string json_name
    ["대벌레_family_classes.json"; "벌_family_classes.json";
     "말벌_genus_classes.json"].

Definition _load_single_classifier (level stem : string)
  : option (list prediction) :=
  if String.eqb stem "best_벌_family_classifier"
  then Some [ {| name := "말벌과"; confidence := 0.9 |};
              {| name := "꿀벌과"; confidence := 0.1 |} ]
  else if String.eqb stem "best_말벌_genus_classifier"
  then Some [ {| name := "말벌속"; confidence := 0.8 |} ]
  else None.

Definition forward (model : list prediction) (image : unit) (top_k : nat)
  : result (list prediction) := Ok (firstn top_k model).

Definition run (order_name : string) :=
  classify_hierarchical unit (list prediction) level_dir_exists glob_stems
    json_exists _load_single_classifier forward tt order_name 3
    {| classifiers := []; attempts := [] |}.

Example stops_at_genus :
  fst (run "벌목")
  = {| order := "벌목"; family := Some "말벌과"; genus := Some "말벌속";
       species := None;
       scores := {| cs_family := Some 0.9%Q; cs_genus := Some 0.8%Q;
                    cs_species := None |};
       species_candidates := None |}
  /\ attempts (snd (run "벌목"))
     = [("family", "벌"); ("genus", "말벌"); ("species", "말벌")]
  /\ classifiers (snd (run "벌목")) = [].
Proof. vm_compute. repeat split; reflexivity. Qed.

Example unknown_order_stops_at_order :
  family (fst (run "Unknown")) = None
  /\ attempts (snd (run "Unknown")) = [("family", "unknown")].
Proof. vm_compute. split; reflexivity. Qed.

End Sample.

Lemma classify_hierarchical_top_down_witness :
  let r := fst (Sample.run "벌목") in
  let st' := snd (Sample.run "벌목") in
  let st := {| classifiers := []; attempts := [] |} in
  let answers :=
    answers unit (list prediction) Sample.level_dir_exists Sample.glob_stems
      Sample.json_exists Sample._load_single_classifier Sample.forward tt 3 in
  let yields_nothing :=
    yields_nothing unit (list prediction) Sample.level_dir_exists
      Sample.glob_stems Sample.json_exists Sample._load_single_classifier
      Sample.forward tt 3 in
  order r = "벌목"
  /\ (species r <> None -> genus r <> None)
  /\ (genus r <> None -> family r <> None)
  /\ attempts st' =
     [] ++ [("family", order_key "벌목")]
     ++ match family r with
        | Some f =>
            [("genus", family_key f)]
            ++ match genus r with
               | Some g => [("species", genus_key g)]
               | None => []
               end
        | None => []
        end
  /\ (cs_family (scores r) <> None <-> family r <> None)
  /\ (cs_genus (scores r) <> None <-> genus r <> None)
  /\ (cs_species (scores r) <> None <-> species r <> None)
  /\ (species_candidates r <> None <-> species r <> None)
  /\ (fst (_find_classifier _ Sample.level_dir_exists Sample.glob_stems
             Sample.json_exists Sample._load_single_classifier
             (order_key "벌목") "family"
             (announce "family" (order_key "벌목") st)) = None ->
      family r = None /\ genus r = None /\ species r = None)
  /\ ((yields_nothing "family" (order_key "벌목") st st'
       /\ r = resolved "벌목" None None None None)
      \/ exists f fl st1,
           answers "family" (order_key "벌목") st (f :: fl) st1
           /\ ((yields_nothing "genus" (family_key (name f)) st1 st'
                /\ r = resolved "벌목" (Some f) None None None)
               \/ exists g gl st2,
                    answers "genus" (family_key (name f)) st1 (g :: gl) st2
                    /\ ((yields_nothing "species" (genus_key (name g)) st2 st'
                         /\ r = resolved "벌목" (Some f) (Some g) None None)
                        \/ exists s sl,
                             answers "species" (genus_key (name g)) st2
                               (s :: sl) st'
                             /\ r = resolved "벌목" (Some f) (Some g)
                                      (Some s) (Some (s :: sl))))).
Proof.
  exact (classify_hierarchical_top_down unit (list prediction)
           Sample.level_dir_exists Sample.glob_stems Sample.json_exists
           Sample._load_single_classifier Sample.forward tt "벌목" 3
           {| classifiers := []; attempts := [] |}).
Defined.

End Hierarchical.

(** ** Order classifiers: test-time augmentation
    (src/order_classifier.py and utils/classifier.py) *)

Module OrderClassifier.
Import Py.
Open Scope py_scope.

(** The steps of an [albumentations] pipeline.  [Normalize] always carries
    the ImageNet mean and deviation. *)
Inductive augmentation :=
| Resize (height width : nat)
| Normalize
| ToTensorV2
| HorizontalFlip
| Rotate (limit : nat)
| RandomScale (scale_limit : Q).

Definition pipeline := list augmentation.

Definition base_transform : pipeline := [Resize 224 224; Normalize; ToTensorV2].

Record prediction := { order : string; confidence : Q }.

(** [np.mean(all_predictions, axis=0)] on probability vectors, taken over
    the rationals: entry [i] is the sum of the entries [i] divided by the
    number of vectors.  Vectors of different lengths do not stack. *)
Definition column (i : nat) (vectors : list (list Q)) : list Q :=
  List.map (fun v => nth i v 0%Q) vectors.

Definition qsum (l : list Q) : Q := fold_right Qplus 0%Q l.

Definition np_mean (vectors : list (list Q)) : result (list Q) :=
  match vectors with
  | [] => Raise ValueError
  | v :: rest =>
      if forallb (fun w => (length w =? length v)%nat) rest then
        Ok (List.map (fun i => (qsum (column i vectors)
                                / inject_Z (Z.of_nat (length vectors)))%Q)
                     (seq 0 (length v)))
      else Raise ValueError
  end.

(** The passes that ran: the vectors of the transforms whose [try] did not
    raise, in order. *)
Fixpoint successes (outcomes : list (result (list Q))) : list (list Q) :=
  match outcomes with
  | [] => []
  | Ok v :: rest => v :: successes rest
  | Raise _ :: rest => successes rest
  end.

(** [sorted(predictions, key=confidence, reverse=True)]: stable. *)
Fixpoint insert_desc (p : prediction) (l : list prediction) : list prediction :=
  match l with
  | [] => [p]
  | q :: rest =>
      if Qle_bool (confidence q) (confidence p) then p :: l
      else q :: insert_desc p rest
  end.

Definition sorted_desc (l : list prediction) : list prediction :=
  fold_right insert_desc [] l.

Record classification := {
  top_order : string;
  top_confidence : Q;
  top_k_list : list prediction
}.

Definition unknown_classification : classification :=
  {| top_order := "Unknown"; top_confidence := 0.0; top_k_list := [] |}.

Fixpoint dict_get (idx : nat) (d : list (nat * string)) : option string :=
  match d with
  | [] => None
  | (k, v) :: rest => if (idx =? k)%nat then Some v else dict_get idx rest
  end.

Fixpoint enumerate_from {A} (start : nat) (l : list A) : list (nat * A) :=
  match l with
  | [] => []
  | x :: rest => (start, x) :: enumerate_from (S start) rest
  end.

Fixpoint sequence {A} (l : list (result A)) : result (list A) :=
  match l with
  | [] => Ok []
  | r :: rest =>
      let* x := r in
      let* xs := sequence rest in
      Ok (x :: xs)
  end.

Section Inference.

Variable Image : Type.
(** One forward pass: the pipeline applied to the image, the network and
    the softmax.  [Raise] when any of it raises. *)
Variable infer : pipeline -> Image -> result (list Q).
Variable idx_to_order : list (nat * string).

(** *** The review application's classifier (src/order_classifier.py) *)

Definition review_label (entry : nat * Q) : result prediction :=
  match dict_get (fst entry) idx_to_order with
  | Some order_name => Ok {| order := order_name; confidence := snd entry |}
  | None => Raise KeyError
  end.

Definition review_classify_single (image : Image) : result (list prediction) :=
  let* probabilities := infer base_transform image in
  sequence (List.map review_label (enumerate_from 0 probabilities)).

Definition review_tta_transforms : list pipeline :=
  [ [Resize 224 224; Normalize; ToTensorV2];
    [HorizontalFlip; Resize 224 224; Normalize; ToTensorV2];
    [Rotate 15; Resize 224 224; Normalize; ToTensorV2];
    [RandomScale 0.1; Resize 224 224; Normalize; ToTensorV2] ].

Definition review_classify_with_tta (image : Image)
  : result (list prediction) :=
  let all_predictions :=
    successes (List.map (fun t => infer t image) review_tta_transforms) in
  match all_predictions with
  | [] => review_classify_single image
  | _ =>
      let* avg_predictions := np_mean all_predictions in
      sequence (List.map review_label (enumerate_from 0 avg_predictions))
  end.

Definition review_classify (image : Image) (top_k : nat) (use_tta : bool)
  : classification :=
  match (if use_tta then review_classify_with_tta image
         else review_classify_single image) with
  | Ok predictions =>
      match firstn top_k (sorted_desc predictions) with
      | best :: others =>
          {| top_order := order best; top_confidence := confidence best;
             top_k_list := best :: others |}
      | [] => unknown_classification
      end
  | Raise _ => unknown_classification
  end.

(** *** The demo application's classifier (utils/classifier.py) *)

Definition demo_label (entry : nat * Q) : prediction :=
  {| order := default ("Class_" +:+ pretty (fst entry))
                      (dict_get (fst entry) idx_to_order);
     confidence := snd entry |}.

Definition demo_classify_single (image : Image) : result (list prediction) :=
  let* probabilities := infer base_transform image in
  Ok (List.map demo_label (enumerate_from 0 probabilities)).

Definition demo_tta_transforms : list pipeline :=
  [ [Resize 224 224; Normalize; ToTensorV2];
    [HorizontalFlip; Resize 224 224; Normalize; ToTensorV2];
    [Rotate 15; Resize 224 224; Normalize; ToTensorV2] ].

Definition demo_classify_with_tta (image : Image) : result (list prediction) :=
  let all_predictions :=
    successes (List.map (fun t => infer t image) demo_tta_transforms) in
  match all_predictions with
  | [] => demo_classify_single image
  | _ =>
      let* avg_predictions := np_mean all_predictions in
      Ok (List.map demo_label (enumerate_from 0 avg_predictions))
  end.

Definition demo_classify (image : Image) (top_k : nat) (use_tta : bool)
  : classification :=
  match (if use_tta then demo_classify_with_tta image
         else demo_classify_single image) with
  | Ok predictions =>
      let predictions := firstn top_k (sorted_desc predictions) in
      {| top_order := match predictions with
                      | best :: _ => order best
                      | [] => "Unknown"
                      end;
         top_confidence := match predictions with
                           | best :: _ => confidence best
                           | [] => 0.0
                           end;
         top_k_list := predictions |}
  | Raise _ => unknown_classification
  end.

(** The vectors of the augmented passes that ran. *)
Definition review_runs (image : Image) : list (list Q) :=
  successes (List.map (fun t => infer t image) review_tta_transforms).

Definition demo_runs (image : Image) : list (list Q) :=
  successes (List.map (fun t => infer t image) demo_tta_transforms).

(** The elementwise average of the vectors [v :: vs] of one length. *)
Definition elementwise_mean (v : list Q) (vs : list (list Q)) : list Q :=
  List.map (fun i => (qsum (column i (v :: vs))
                      / inject_Z (Z.of_nat (S (length vs))))%Q)
           (seq 0 (length v)).

Lemma np_mean_same_length (v : list Q) (vs : list (list Q)) :
  Forall (fun w => length w = length v) vs ->
  np_mean (v :: vs) = Ok (elementwise_mean v vs).
Proof.
  intros H. unfold np_mean.
  assert (Hb : forallb (fun w => (length w =? length v)%nat) vs = true).
  { apply forallb_forall. intros w Hw. apply Nat.eqb_eq.
    rewrite Forall_forall in H. apply H.
    now apply list_elem_of_In. }
  rewrite Hb. reflexivity.
Qed.

(** C5 (amended): with TTA enabled the review application's classifier
    runs four augmented passes (identity, horizontal flip, rotation within
    15 degrees, random scale within 10 percent) and the demo variant runs
    the first three of them, without the random-scale pass.  Each averages
    the vectors of the passes that ran, entry by entry, labels the averages
    and only then ranks them; each falls back to the single pass when every
    augmented pass raised. *)
Theorem tta_average_and_fallback (image : Image) (top_k : nat) :
  review_tta_transforms =
    [ base_transform;
      HorizontalFlip :: base_transform;
      Rotate 15 :: base_transform;
      RandomScale 0.1 :: base_transform ]
  /\ demo_tta_transforms =
      [ base_transform;
        HorizontalFlip :: base_transform;
        Rotate 15 :: base_transform ]
  /\ (review_runs image = [] ->
      review_classify_with_tta image = review_classify_single image)
  /\ (demo_runs image = [] ->
      demo_classify_with_tta image = demo_classify_single image)
  /\ (forall v vs,
        review_runs image = v :: vs ->
        Forall (fun w => length w = length v) vs ->
        review_classify_with_tta image
        = sequence (List.map review_label
                      (enumerate_from 0 (elementwise_mean v vs))))
  /\ (forall v vs,
        demo_runs image = v :: vs ->
        Forall (fun w => length w = length v) vs ->
        demo_classify_with_tta image
        = Ok (List.map demo_label
                (enumerate_from 0 (elementwise_mean v vs))))
  /\ (forall predictions,
        review_classify_with_tta image = Ok predictions ->
        top_k_list (review_classify image top_k true)
        = firstn top_k (sorted_desc predictions))
  /\ (forall predictions,
        demo_classify_with_tta image = Ok predictions ->
        top_k_list (demo_classify image top_k true)
        = firstn top_k (sorted_desc predictions)).
Proof.
  repeat split.
  - unfold review_classify_with_tta, review_runs. now intros ->.
  - unfold demo_classify_with_tta, demo_runs. now intros ->.
  - intros v vs Hruns Hlen.
    unfold review_classify_with_tta. unfold review_runs in Hruns.
    rewrite Hruns, (np_mean_same_length v vs Hlen). reflexivity.
  - intros v vs Hruns Hlen.
    unfold demo_classify_with_tta. unfold demo_runs in Hruns.
    rewrite Hruns, (np_mean_same_length v vs Hlen). reflexivity.
  - intros predictions H. unfold review_classify. rewrite H.
    destruct (firstn top_k (sorted_desc predictions)); reflexivity.
  - intros predictions H. unfold demo_classify. rewrite H. reflexivity.
Qed.

End Inference.

(** A two-class network whose answer depends on whether the image was
    rescaled, to tell the two sets of passes apart. *)
Module Sample.

Definition is_random_scale (a : augmentation) : bool :=
  match a with RandomScale _ => true | _ => false end.

Definition infer (p : pipeline) (image : unit) : result (list Q) :=
  if existsb is_random_scale p then Ok [1%Q; 0%Q] else Ok [0%Q; 1%Q].

(** A network on which every pass raises. *)
Definition broken (p : pipeline) (image : unit) : result (list Q) :=
  Raise ValueError.

Definition idx_to_order : list (nat * string) :=
  [(0, "Hymenoptera"); (1, "Coleoptera")]%nat.

End Sample.

(** C5, as stated, fails for the demo variant: it runs three augmented
    passes, none of them with a random scale, so the rescaled view never
    enters its average, while the review classifier's fourth pass does. *)
Lemma demo_tta_counterexample :
  length demo_tta_transforms = 3%nat
  /\ existsb Sample.is_random_scale (concat demo_tta_transforms) = false
  /\ length (demo_runs unit Sample.infer tt) = 3%nat
  /\ demo_classify_with_tta unit Sample.infer Sample.idx_to_order tt
     = Ok [ {| order := "Hymenoptera"; confidence := 0 # 3 |};
            {| order := "Coleoptera"; confidence := 3 # 3 |} ]
  /\ review_classify_with_tta unit Sample.infer Sample.idx_to_order tt
     = Ok [ {| order := "Hymenoptera"; confidence := 1 # 4 |};
            {| order := "Coleoptera"; confidence := 3 # 4 |} ].
Proof. vm_compute. repeat split; reflexivity. Qed.

Lemma tta_average_and_fallback_witness :
  review_classify_with_tta unit Sample.broken Sample.idx_to_order tt
  = review_classify_single unit Sample.broken Sample.idx_to_order tt
  /\ demo_classify_with_tta unit Sample.broken Sample.idx_to_order tt
     = demo_classify_single unit Sample.broken Sample.idx_to_order tt
  /\ review_classify_with_tta unit Sample.infer Sample.idx_to_order tt
     = sequence (List.map (review_label Sample.idx_to_order)
                   (enumerate_from 0
                      (elementwise_mean [0; 1]%Q
                         [[0; 1]; [0; 1]; [1; 0]]%Q)))
  /\ demo_classify_with_tta unit Sample.infer Sample.idx_to_order tt
     = Ok (List.map (demo_label Sample.idx_to_order)
             (enumerate_from 0
                (elementwise_mean [0; 1]%Q [[0; 1]; [0; 1]]%Q)))
  /\ top_k_list (demo_classify unit Sample.infer Sample.idx_to_order tt 1 true)
     = firstn 1 (sorted_desc
                   [ {| order := "Hymenoptera"; confidence := 0 # 3 |};
                     {| order := "Coleoptera"; confidence := 3 # 3 |} ]).
Proof.
  pose proof (tta_average_and_fallback unit Sample.broken Sample.idx_to_order
                tt 1) as (_ & _ & Hr0 & Hd0 & _).
  pose proof (tta_average_and_fallback unit Sample.infer Sample.idx_to_order
                tt 1) as (_ & _ & _ & _ & Hr & Hd & _ & Hk).
  split; [apply Hr0; reflexivity|].
  split; [apply Hd0; reflexivity|].
  split; [apply Hr; [reflexivity | repeat constructor]|].
  split; [apply Hd; [reflexivity | repeat constructor]|].
  apply Hk. vm_compute. reflexivity.
Defined.

End OrderClassifier.

(** ** File-name helpers ([os.path.splitext], [str.rsplit]) *)

Module PyPath.
Import PyStr.

(** [s.rfind(c)]: the index of the last [c]; [i] is the index of the head
    of [s]. *)
Fixpoint rfind_from (c : ascii) (s : string) (i : nat) : option nat :=
  match s with
  | EmptyString => None
  | String a rest =>
      match rfind_from c rest (S i) with
      | Some j => Some j
      | None => if Ascii.eqb a c then Some i else None
      end
  end.

Definition rfind (c : ascii) (s : string) : option nat := rfind_from c s 0.

Definition slice_from (i : nat) (s : string) : string :=
  String.substring i (String.length s - i) s.

Definition slice_to (i : nat) (s : string) : string := String.substring 0 i s.

Fixpoint all_dots (s : string) : bool :=
  match s with
  | EmptyString => true
  | String c rest => Ascii.eqb c "."%char && all_dots rest
  end.

(** [os.path.splitext] (posixpath): the extension starts at the last dot
    of the last path component, unless only dots come before it there. *)
Definition splitext (p : string) : string * string :=
  let filename_index :=
    match rfind "/"%char p with Some i => S i | None => 0 end in
  match rfind "."%char p with
  | Some dot_index =>
      if (filename_index <=? dot_index)%nat
         && negb (all_dots (String.substring filename_index
                              (dot_index - filename_index) p))
      then (slice_to dot_index p, slice_from dot_index p)
      else (p, EmptyString)
  | None => (p, EmptyString)
  end.

(** [s.lstrip(".")]. *)
Fixpoint lstrip_dots (s : string) : string :=
  match s with
  | String "."%char rest => lstrip_dots rest
  | _ => s
  end.

(** [filename.rsplit(".", 1)[1]] when ["." in filename]. *)
Definition after_last_dot (filename : string) : option string :=
  match rfind "."%char filename with
  | Some i => Some (slice_from (S i) filename)
  | None => None
  end.

Example splitext_plain : splitext "photo_1a2b3c4d.jpg" = ("photo_1a2b3c4d", ".jpg").
Proof. reflexivity. Qed.

Example splitext_hidden : splitext ".bashrc" = (".bashrc", EmptyString).
Proof. reflexivity. Qed.

Example splitext_two_dots : splitext "a.tar.gz" = ("a.tar", ".gz").
Proof. reflexivity. Qed.

Example splitext_dir_dot : splitext "up.loads/readme" = ("up.loads/readme", EmptyString).
Proof. reflexivity. Qed.

Example after_last_dot_upper : after_last_dot "Photo.final.PNG" = Some "PNG".
Proof. reflexivity. Qed.

End PyPath.

(** ** Demo application server (app.py) *)

Module Demo.
Import PyStr PyPath Py.
Open Scope py_scope.

Definition ALLOWED_EXTENSIONS : list string :=
  ["png"; "jpg"; "jpeg"; "gif"; "webp"].

Definition in_allowed (ext : string) : bool :=
  existsb (String.eqb ext) ALLOWED_EXTENSIONS.

Definition allowed_file (filename : string) : bool :=
  match after_last_dot filename with
  | Some ext => in_allowed (lower ext)
  | None => false
  end.

(** The answer of a redirecting handler: where it sends the browser and
    the messages it flashed. *)
Inductive target := ToIndexShowResult | ToRequestUrl.

Record redirect := { location : target; flashed : list string }.

Section Server.

(** The shapes of the JSON values the session carries. *)
Variable BBox : Type.
Variable CResult : Type.
Variable Risk : Type.
Variable Info : Type.

(** [session['last_detection']]. *)
Record detection := {
  original_image : string;
  detected_image : string;
  count : nat;
  detections : list BBox;
  classifications : option (list (option CResult));
  risk_assessment : option (list (option Risk));
  species_info : option (list (option Info));
  detailed_info : option (list (option Info))
}.

(** The session cookie: a key may be absent, and ['last_detection'] may be
    present with the value [None]. *)
Record session := {
  last_request_id : option string;
  last_detection : option (option detection)
}.

(** The upload folder (file name to bytes) and the session. *)
Record app_state := {
  uploads : gmap string string;
  sess : session
}.

(** *** Upload *)

(** [werkzeug.utils.secure_filename]. *)
Variable secure_filename : string -> string.
(** [Image.open(path).format] on the bytes of a file: [None] when Pillow
    raises, [Some name] for the format it recognises. *)
Variable pil_format : string -> option string.
(** [detector.detect(save_path, save_path=result_path)] on a stored file:
    the count and the boxes, or an exception. *)
Variable detect : string -> string -> result (nat * list BBox).

Record upload_request := {
  request_id : option string;            (* [request.form.get('request_id')] *)
  photo : option (string * string);      (* file name and bytes of "photo" *)
  uuid_name : string;                    (* [str(uuid.uuid4())] *)
  uuid_hex8 : string                     (* [uuid.uuid4().hex[:8]] *)
}.

Definition ensure_unique_filename (original_filename uuid_name uuid_hex8 : string)
  : string :=
  let safe := secure_filename original_filename in
  let '(name, ext) := splitext safe in
  let ext := lower ext in
  let name := if truthy name then name else uuid_name in
  let ext := if truthy ext then ext else ".jpg" in
  name +:+ "_" +:+ uuid_hex8 +:+ ext.

(** [detect_image_ext] applied to the bytes found at the path; a missing
    file makes [Image.open] raise. *)
Definition ext_of_bytes (bytes : string) : option string :=
  match pil_format bytes with
  | Some format =>
      let fmt := lower format in
      if String.eqb fmt "jpeg" then Some "jpg"
      else if in_allowed fmt then Some fmt else None
  | None => None
  end.

Definition detect_image_ext (files : gmap string string) (path : string)
  : option string :=
  match files !! path with
  | Some bytes => ext_of_bytes bytes
  | None => None
  end.

(** [os.replace(src, dst)]. *)
Definition os_replace (src dst : string) (files : gmap string string)
  : gmap string string :=
  match files !! src with
  | Some bytes => <[dst := bytes]> (delete src files)
  | None => files
  end.

Definition duplicate_request (req : upload_request) (st : app_state) : bool :=
  match request_id req with
  | Some id =>
      truthy id
      && match last_request_id (sess st) with
         | Some seen => String.eqb seen id
         | None => false
         end
  | None => false
  end.

Definition with_request_id (id : option string) (s : session) : session :=
  {| last_request_id := id; last_detection := last_detection s |}.

Definition with_detection (d : option detection) (s : session) : session :=
  {| last_request_id := last_request_id s; last_detection := Some d |}.

(** The handler from the point where the upload has been written to
    [filename]: validation, renaming, detection. *)
Definition after_save (filename : string) (st : app_state)
  : redirect * app_state :=
  match detect_image_ext (uploads st) filename with
  | None =>
      ({| location := ToRequestUrl;
          flashed := ["이미지 파일이 아니거나 손상된 파일입니다."] |},
       {| uploads := delete filename (uploads st); sess := sess st |})
  | Some real_ext =>
      let current_ext := lower (lstrip_dots (snd (splitext filename))) in
      let '(filename, files) :=
        if String.eqb current_ext real_ext then (filename, uploads st)
        else
          let new_filename := fst (splitext filename) +:+ "." +:+ real_ext in
          (new_filename, os_replace filename new_filename (uploads st)) in
      let result_filename := "detected_" +:+ filename in
      match (match files !! filename with
             | Some bytes => detect filename bytes
             | None => Raise OSError
             end) with
      | Ok (n, boxes) =>
          ({| location := ToIndexShowResult;
              flashed :=
                [ if (0 <? n)%nat
                  then "업로드 완료! " +:+ pretty n
                       +:+ "개의 곤충이 탐지되었습니다. 바운딩 박스를 조정한 후 확인 버튼을 눌러주세요."
                  else "업로드 완료! 곤충이 탐지되지 않았습니다." ] |},
           {| uploads := files;
              sess := with_detection
                        (Some {| original_image := filename;
                                 detected_image := result_filename;
                                 count := n;
                                 detections := boxes;
                                 classifications := None;
                                 risk_assessment := None;
                                 species_info := None;
                                 detailed_info := None |})
                        (sess st) |})
      | Raise _ =>
          ({| location := ToIndexShowResult;
              flashed := ["업로드 완료! (탐지 중 오류가 발생했습니다.)"] |},
           {| uploads := files; sess := with_detection None (sess st) |})
      end
  end.

(** [index] for a POST. *)
Definition index_post (req : upload_request) (st : app_state)
  : redirect * app_state :=
  if duplicate_request req st then
    ({| location := ToIndexShowResult; flashed := [] |}, st)
  else
    let st := {| uploads := uploads st;
                 sess := with_request_id (request_id req) (sess st) |} in
    match photo req with
    | None =>
        ({| location := ToRequestUrl;
            flashed := ["파일이 전송되지 않았어요."] |}, st)
    | Some (file_name, bytes) =>
        if negb (truthy file_name) then
          ({| location := ToRequestUrl;
              flashed := ["파일을 선택해 주세요."] |}, st)
        else if negb (allowed_file file_name) then
          ({| location := ToRequestUrl;
              flashed := ["허용되지 않는 파일 형식입니다."] |}, st)
        else
          let filename :=
            ensure_unique_filename file_name (uuid_name req) (uuid_hex8 req) in
          (* file.save(save_path): the bytes as they came *)
          after_save filename
            {| uploads := <[filename := bytes]> (uploads st); sess := sess st |}
    end.

Definition with_photo (file_name bytes : string) (req : upload_request)
  : upload_request :=
  {| request_id := request_id req; photo := Some (file_name, bytes);
     uuid_name := uuid_name req; uuid_hex8 := uuid_hex8 req |}.

(** The name the file ends up under when its bytes sniff as [real_ext]. *)
Definition stored_name (filename real_ext : string) : string :=
  if String.eqb (lower (lstrip_dots (snd (splitext filename)))) real_ext
  then filename
  else fst (splitext filename) +:+ "." +:+ real_ext.

Lemma allowed_file_truthy (file_name : string) :
  allowed_file file_name = true -> truthy file_name = true.
Proof. destruct file_name; [discriminate | reflexivity]. Qed.

Lemma index_post_accepted (req : upload_request) (st : app_state)
  (file_name bytes : string) :
  photo req = Some (file_name, bytes) ->
  allowed_file file_name = true ->
  duplicate_request req st = false ->
  index_post req st =
  after_save
    (ensure_unique_filename file_name (uuid_name req) (uuid_hex8 req))
    {| uploads :=
         <[ensure_unique_filename file_name (uuid_name req) (uuid_hex8 req)
           := bytes]> (uploads st);
       sess := with_request_id (request_id req) (sess st) |}.
Proof.
  intros Hphoto Hallowed Hdup. unfold index_post.
  rewrite Hdup, Hphoto, Hallowed, (allowed_file_truthy _ Hallowed).
  reflexivity.
Qed.

Lemma after_save_rejected (filename bytes : string)
  (files : gmap string string) (s : session) :
  ext_of_bytes bytes = None ->
  after_save filename {| uploads := <[filename := bytes]> files; sess := s |}
  = ({| location := ToRequestUrl;
        flashed := ["이미지 파일이 아니거나 손상된 파일입니다."] |},
     {| uploads := delete filename files; sess := s |}).
Proof.
  intros H. unfold after_save, detect_image_ext. cbn [uploads sess].
  rewrite lookup_insert_eq, H, delete_insert_eq. reflexivity.
Qed.

Lemma after_save_accepted (filename bytes real_ext : string)
  (files : gmap string string) (s : session) :
  ext_of_bytes bytes = Some real_ext ->
  let stored := stored_name filename real_ext in
  let files' := <[stored := bytes]> (delete filename files) in
  exists resp d,
    after_save filename {| uploads := <[filename := bytes]> files; sess := s |}
    = (resp, {| uploads := files'; sess := with_detection d s |})
    /\ match d with
       | Some d => original_image d = stored
       | None => True
       end.
Proof.
  intros H stored files'. unfold after_save, detect_image_ext.
  cbn [uploads sess]. rewrite lookup_insert_eq, H.
  subst stored files'. unfold stored_name.
  destruct (String.eqb _ real_ext).
  - rewrite lookup_insert_eq, <- insert_delete_eq.
    destruct (detect filename bytes) as [[n boxes]|e];
      eexists _, _; (split; [reflexivity|]); simpl; auto.
  - unfold os_replace. rewrite lookup_insert_eq, delete_insert_eq.
    rewrite lookup_insert_eq.
    destruct (detect _ bytes) as [[n boxes]|e];
      eexists _, _; (split; [reflexivity|]); simpl; auto.
Qed.

(** C1 (amended): for every file POSTed with an allowed extension in a
    request that the duplicate-submission guard lets through, the bytes are
    written as uploaded under the generated name and the format is sniffed
    from these bytes; when they are not a readable image of an accepted
    format the file is removed again and the session's detection is left as
    it was; otherwise the file ends up, with the uploaded bytes, under the
    generated name when its extension is the sniffed one and under the same
    stem with the sniffed extension when it is not (the old name is then
    gone), no other file is touched, and a detection session that is
    created names the stored file. *)
Theorem upload_keeps_bytes (req : upload_request) (st : app_state)
  (file_name bytes : string) :
  photo req = Some (file_name, bytes) ->
  allowed_file file_name = true ->
  duplicate_request req st = false ->
  let filename :=
    ensure_unique_filename file_name (uuid_name req) (uuid_hex8 req) in
  let saved := <[filename := bytes]> (uploads st) in
  let st' := snd (index_post req st) in
  saved !! filename = Some bytes
  /\ detect_image_ext saved filename = ext_of_bytes bytes
  /\ (ext_of_bytes bytes = None ->
      uploads st' !! filename = None
      /\ last_detection (sess st') = last_detection (sess st))
  /\ (forall real_ext,
        ext_of_bytes bytes = Some real_ext ->
        let stored := stored_name filename real_ext in
        uploads st' !! stored = Some bytes
        /\ (stored <> filename ->
            stored = fst (splitext filename) +:+ "." +:+ real_ext
            /\ uploads st' !! filename = None)
        /\ (forall other, other <> filename -> other <> stored ->
                          uploads st' !! other = uploads st !! other)
        /\ (forall d, last_detection (sess st') = Some (Some d) ->
                      original_image d = stored)).
Proof.
  intros Hphoto Hallowed Hdup filename saved st'.
  subst st'. rewrite (index_post_accepted _ _ _ _ Hphoto Hallowed Hdup).
  fold filename. cbn [uploads].
  split; [apply lookup_insert_eq|].
  split; [unfold detect_image_ext, saved; now rewrite lookup_insert_eq|].
  split.
  - intros Hnone. rewrite (after_save_rejected _ _ _ _ Hnone). cbn.
    split; [apply lookup_delete_eq | reflexivity].
  - intros real_ext Hsome.
    destruct (after_save_accepted filename bytes real_ext (uploads st)
                (with_request_id (request_id req) (sess st)) Hsome)
      as (resp & d & -> & Hd).
    set (stored := stored_name filename real_ext) in *.
    cbn [snd uploads sess with_detection last_detection].
    split; [apply lookup_insert_eq|].
    split; [|split].
    + intros Hne. split.
      * subst stored. unfold stored_name in Hne |- *.
        destruct (String.eqb _ real_ext); [now elim Hne | reflexivity].
      * rewrite lookup_insert_ne by exact Hne. apply lookup_delete_eq.
    + intros other H1 H2.
      rewrite lookup_insert_ne by congruence.
      now rewrite lookup_delete_ne by congruence.
    + intros d' [= ->]. exact Hd.
Qed.

(** C9: a saved upload whose bytes Pillow reads as an image of a format
    outside the accepted set is handled exactly like bytes it cannot read:
    [detect_image_ext] answers [None], the saved file is removed, the
    session's detection is left as it was, and the answer and the state are
    those of the same request carrying unreadable bytes. *)
Theorem unsupported_format_rejected (req : upload_request) (st : app_state)
  (file_name bytes format : string) :
  photo req = Some (file_name, bytes) ->
  allowed_file file_name = true ->
  duplicate_request req st = false ->
  pil_format bytes = Some format ->
  String.eqb (lower format) "jpeg" = false ->
  in_allowed (lower format) = false ->
  let filename :=
    ensure_unique_filename file_name (uuid_name req) (uuid_hex8 req) in
  detect_image_ext (<[filename := bytes]> (uploads st)) filename = None
  /\ uploads (snd (index_post req st)) !! filename = None
  /\ last_detection (sess (snd (index_post req st)))
     = last_detection (sess st)
  /\ fst (index_post req st)
     = {| location := ToRequestUrl;
          flashed := ["이미지 파일이 아니거나 손상된 파일입니다."] |}
  /\ (forall junk, pil_format junk = None ->
        index_post (with_photo file_name junk req) st = index_post req st).
Proof.
  intros Hphoto Hallowed Hdup Hfmt Hjpeg Hnot filename.
  assert (Hnone : ext_of_bytes bytes = None).
  { unfold ext_of_bytes. now rewrite Hfmt, Hjpeg, Hnot. }
  rewrite (index_post_accepted _ _ _ _ Hphoto Hallowed Hdup).
  fold filename. rewrite (after_save_rejected _ _ _ _ Hnone).
  cbn [fst snd uploads sess with_request_id last_detection].
  split; [unfold detect_image_ext; now rewrite lookup_insert_eq|].
  split; [apply lookup_delete_eq|].
  split; [reflexivity|]. split; [reflexivity|].
  intros junk Hjunk.
  assert (Hnone' : ext_of_bytes junk = None).
  { unfold ext_of_bytes. now rewrite Hjunk. }
  rewrite (index_post_accepted (with_photo file_name junk req) st
             file_name junk eq_refl Hallowed Hdup).
  cbn [uuid_name uuid_hex8 request_id with_photo]. fold filename.
  now rewrite (after_save_rejected _ _ _ _ Hnone').
Qed.

End Server.

Arguments Build_detection {BBox CResult Risk Info} _ _ _ _ _ _ _ _.
Arguments Build_app_state {BBox CResult Risk Info} _ _.
Arguments Build_session {BBox CResult Risk Info} _ _.
Arguments uploads {BBox CResult Risk Info} _.
Arguments sess {BBox CResult Risk Info} _.
Arguments last_detection {BBox CResult Risk Info} _.
Arguments last_request_id {BBox CResult Risk Info} _.
Arguments original_image {BBox CResult Risk Info} _.
Arguments detected_image {BBox CResult Risk Info} _.
Arguments count {BBox CResult Risk Info} _.
Arguments detections {BBox CResult Risk Info} _.
Arguments classifications {BBox CResult Risk Info} _.
Arguments risk_assessment {BBox CResult Risk Info} _.
Arguments species_info {BBox CResult Risk Info} _.
Arguments detailed_info {BBox CResult Risk Info} _.
Arguments with_detection {BBox CResult Risk Info} _ _.

(** *** Classify *)

(** One entry of a result's ['classification'] list; the order
    classifier's entries carry no ['level']. *)
Record class_entry := {
  class_name : string;
  level : option string;
  entry_confidence : Q
}.

(** What a classification stage returns for a box. *)
Record cresult := {
  classification : option (list class_entry);
  hierarchical_result : option Hierarchical.hierarchical_result
}.

(** An entry of the risk list: the assessor's answer, or the placeholder
    for a species it does not know (threat level "미분류", colour #9E9E9E,
    a fixed description, warning and response guide). *)
Inductive risk :=
| Assessed (r : RiskAssessor.risk_result)
| Unregistered (species_name : string).

(** [s.split(sep)[0]] for a non-empty separator. *)
Fixpoint before (sep s : string) : string :=
  match s with
  | EmptyString => EmptyString
  | String c rest =>
      if String.prefix sep s then EmptyString else String c (before sep rest)
  end.

Definition first_truthy (candidates : list (option string)) : option string :=
  match List.filter truthy (omap id candidates) with
  | s :: _ => Some s
  | [] => None
  end.

(** The deepest rank the hierarchical result names. *)
Definition hierarchical_name (h : Hierarchical.hierarchical_result)
  : option string :=
  first_truthy [ Hierarchical.species h; Hierarchical.genus h;
                 Hierarchical.family h; Some (Hierarchical.order h) ].

Definition rank_levels : list string := ["species"; "genus"; "family"; "order"].

(** [for cls in reversed(result['classification'])]: the last entry with a
    rank level and a non-empty name. *)
Definition classification_name (entries : list class_entry) : option string :=
  match List.filter
          (fun cls => match level cls with
                      | Some l => existsb (String.eqb l) rank_levels
                      | None => false
                      end && truthy (class_name cls))
          (rev entries) with
  | cls :: _ => Some (class_name cls)
  | [] => None
  end.

(** The name looked up by the risk stage: the classification list is only
    consulted when the result has no hierarchical part. *)
Definition risk_species_name (result : cresult) : option string :=
  match hierarchical_result result with
  | Some h => hierarchical_name h
  | None =>
      match classification result with
      | Some entries => classification_name entries
      | None => None
      end
  end.

(** The name looked up by the information stage: the classification list
    is also consulted when the hierarchical part names nothing. *)
Definition info_species_name (result : cresult) : option string :=
  match (match hierarchical_result result with
         | Some h => hierarchical_name h
         | None => None
         end) with
  | Some name => Some name
  | None =>
      match classification result with
      | Some entries => classification_name entries
      | None => None
      end
  end.

Definition strip_candidate (species_name : string) : string :=
  PyStr2.strip (before " (후보" species_name).


(** A format sniffer that goes by the leading magic bytes, a file-name
    sanitiser that leaves plain ASCII names alone and a detector that finds
    nothing: enough to run the upload handler. *)
Module Sample.

Definition png_magic : string := String "137"%char "PNG".
Definition jpeg_magic : string :=
  String "255"%char (String "216"%char (String "255"%char EmptyString)).

Definition pil_format (bytes : string) : option string :=
  if String.prefix png_magic bytes then Some "PNG"
  else if String.prefix jpeg_magic bytes then Some "JPEG"
  else if String.prefix "GIF8" bytes then Some "GIF"
  else if String.prefix "BM" bytes then Some "BMP"
  else if String.prefix "II*" bytes then Some "TIFF"
  else None.

Definition secure_filename (name : string) : string := name.

Definition detect (filename bytes : string) : result (nat * list unit) :=
  Ok (0, [])%nat.

Definition png_bytes : string := png_magic +:+ " ...image data...".
Definition bmp_bytes : string := "BM ...bitmap data...".

Definition state0 : app_state unit unit unit unit :=
  {| uploads := ∅;
     sess := {| last_request_id := Some "req-1"; last_detection := None |} |}.

Definition post (id file_name bytes : string) : upload_request :=
  {| request_id := Some id; photo := Some (file_name, bytes);
     uuid_name := "6f1d3c1e-0d7b-4c55-9a53-3d2f1c0b7a11";
     uuid_hex8 := "1a2b3c4d" |}.

Definition index_post :=
  index_post unit unit unit unit secure_filename pil_format detect.

(** The spec's example: a genuine PNG named photo.jpg is stored under a
    name ending in .png with the bytes it came with. *)
Example png_named_jpg :
  uploads (snd (index_post (post "req-2" "photo.jpg" png_bytes) state0))
    !! "photo_1a2b3c4d.png" = Some png_bytes
  /\ uploads (snd (index_post (post "req-2" "photo.jpg" png_bytes) state0))
       !! "photo_1a2b3c4d.jpg" = None.
Proof. vm_compute. split; reflexivity. Qed.

End Sample.

(** *** The classify handler *)

Module Classify.

(** A JSON value: what [request.get_json()] returns, and what the session
    holds under ['detections'].  A number is an [int] or a [float]; the
    parser also reads [Infinity], [-Infinity] and [NaN].  The members of an
    object are listed in insertion order, each key once, as a [dict] holds
    them. *)
Inductive float_value :=
| Finite (q : Q)
| PlusInfinity
| MinusInfinity
| NaN.

#[local] Unset Elimination Schemes.
Inductive value :=
| VNone
| VBool (b : bool)
| VInt (n : Z)
| VFloat (f : float_value)
| VStr (s : string)
| VList (items : list value)
| VDict (members : list (string * value)).
#[local] Set Elimination Schemes.

(** [bool(v)]. *)
Definition truthy_value (v : value) : bool :=
  match v with
  | VNone => false
  | VBool b => b
  | VInt n => negb (n =? 0)%Z
  | VFloat (Finite q) => negb (Qeq_bool q 0)
  | VFloat _ => true
  | VStr s => truthy s
  | VList items => match items with [] => false | _ :: _ => true end
  | VDict members => match members with [] => false | _ :: _ => true end
  end.

(** The code points of a text. *)
Fixpoint code_points (s : string) : list string :=
  match s with
  | EmptyString => []
  | String c rest =>
      let l := code_points rest in
      match rest with
      | String d _ =>
          if is_continuation d then
            match l with
            | first :: more => String c first :: more
            | [] => [String c EmptyString]
            end
          else String c EmptyString :: l
      | EmptyString => String c EmptyString :: l
      end
  end.

(** [len(v)]. *)
Definition py_len (v : value) : result nat :=
  match v with
  | VList items => Ok (length items)
  | VStr s => Ok (length (code_points s))
  | VDict members => Ok (length members)
  | _ => Raise TypeError
  end.

(** [v < n] and [v >= n] for an [int] [n]: numbers and booleans compare,
    anything else raises. *)
Definition py_lt (v : value) (n : nat) : result bool :=
  match v with
  | VInt i => Ok (i <? Z.of_nat n)%Z
  | VBool b => Ok (Z.b2z b <? Z.of_nat n)%Z
  | VFloat (Finite q) =>
      Ok (negb (Qle_bool (inject_Z (Z.of_nat n)) q))
  | VFloat MinusInfinity => Ok true
  | VFloat _ => Ok false
  | _ => Raise TypeError
  end.

Definition py_ge (v : value) (n : nat) : result bool :=
  match v with
  | VInt i => Ok (Z.of_nat n <=? i)%Z
  | VBool b => Ok (Z.of_nat n <=? Z.b2z b)%Z
  | VFloat (Finite q) => Ok (Qle_bool (inject_Z (Z.of_nat n)) q)
  | VFloat PlusInfinity => Ok true
  | VFloat _ => Ok false
  | _ => Raise TypeError
  end.

(** A value used as a list index: an [int] or a [bool]. *)
Definition as_index (v : value) : result Z :=
  match v with
  | VInt i => Ok i
  | VBool b => Ok (Z.b2z b)
  | _ => Raise TypeError
  end.

(** The position [l[i]] denotes in a sequence of [n] items, with Python's
    negative indices. *)
Definition py_position (n : nat) (i : Z) : result nat :=
  let j := if (i <? 0)%Z then (i + Z.of_nat n)%Z else i in
  if (0 <=? j)%Z && (j <? Z.of_nat n)%Z then Ok (Z.to_nat j)
  else Raise IndexError.

Definition py_getitem {A} (l : list A) (i : Z) : result A :=
  let* j := py_position (length l) i in
  match nth_error l j with
  | Some x => Ok x
  | None => Raise IndexError
  end.

Definition py_setitem {A} (l : list A) (index : value) (x : A)
  : result (list A) :=
  let* i := as_index index in
  let* j := py_position (length l) i in
  Ok (<[j := x]> l).

Fixpoint dict_get (key : string) (members : list (string * value))
  : option value :=
  match members with
  | [] => None
  | (k, v) :: rest => if String.eqb key k then Some v else dict_get key rest
  end.

(** [container[index]]. *)
Definition value_getitem (container index : value) : result value :=
  match container with
  | VList items =>
      let* i := as_index index in
      py_getitem items i
  | VStr s =>
      let* i := as_index index in
      let* c := py_getitem (code_points s) i in
      Ok (VStr c)
  | VDict members =>
      match index with
      | VStr key =>
          match dict_get key members with
          | Some v => Ok v
          | None => Raise KeyError
          end
      | VList _ | VDict _ => Raise TypeError
      | _ => Raise KeyError
      end
  | _ => Raise TypeError
  end.

Section Stages.

(** The information provider's record. *)
Variable SpeciesInfo : Type.

(** An entry of the information list: the provider's record, or the
    placeholder for a species it does not know. *)
Inductive info :=
| Found (record : SpeciesInfo)
| NotRegistered (species_name : string).

(** [session['last_detection']] as this handler finds it.  The upload
    stores a list of boxes under ['detections']; [classify] and
    [update_bboxes] overwrite it with whatever the request body carried. *)
Record detection := {
  original_image : string;
  detected_image : string;
  count : nat;
  detections : value;
  classifications : option (list (option cresult));
  risk_assessment : option (list (option risk));
  species_info : option (list (option info));
  detailed_info : option (list (option info))
}.

(** The session cookie: ['last_detection'] may be absent, and may be
    present with the value [None]. *)
Record session := {
  last_request_id : option string;
  last_detection : option (option detection)
}.

(** The upload folder (file name to bytes) and the session. *)
Record app_state := {
  uploads : gmap string string;
  sess : session
}.

Definition with_detection (d : option detection) (s : session) : session :=
  {| last_request_id := last_request_id s; last_detection := Some d |}.

(** The two classifier stages, each the body of its own [try]: order
    classification of the selected box (with its console report), and
    hierarchical classification seeded by it. *)
Variable order_stage : string -> value -> result (list cresult).
Variable hier_stage : string -> value -> list cresult -> result (list cresult).
(** [get_risk_assessor_instance()]: the database the assessor was built
    with, or the exception of its constructor. *)
Variable risk_database : result RiskAssessor.database.
(** [get_info_provider_instance().get_info(name)]. *)
Variable get_info : string -> result (option SpeciesInfo).

(** Stage 3, risk assessment: one entry per classification result. *)
Fixpoint risk_loop (db : RiskAssessor.database) (results : list cresult)
  : result (list (option risk)) :=
  match results with
  | [] => Ok []
  | result :: rest =>
      let* entry :=
        match risk_species_name result with
        | Some species_name =>
            let clean_name := strip_candidate species_name in
            let* risk_result := RiskAssessor.assess_risk db clean_name in
            Ok (Some match risk_result with
                     | Some r => Assessed r
                     | None => Unregistered clean_name
                     end)
        | None => Ok None
        end in
      let* entries := risk_loop db rest in
      Ok (entry :: entries)
  end.

Definition risk_stage (results : list cresult) : result (list (option risk)) :=
  let* db := risk_database in
  risk_loop db results.

(** Stage 4, species information. *)
Fixpoint info_stage (results : list cresult) : result (list (option info)) :=
  match results with
  | [] => Ok []
  | result :: rest =>
      let* entry :=
        match info_species_name result with
        | Some species_name =>
            let clean_name :=
              PyStr2.replace "_" " " (strip_candidate species_name) in
            let* info_result := get_info clean_name in
            Ok (Some match info_result with
                     | Some record => Found record
                     | None => NotRegistered clean_name
                     end)
        | None => Ok None
        end in
      let* entries := info_stage rest in
      Ok (entry :: entries)
  end.

(** The stages in the order they run; the write to the classification
    store that follows them sits in a [try] of its own whose outcome
    nothing reads, and is recorded as [SaveStage]. *)
Inductive stage_name :=
| OrderStage | HierStage | RiskStage | InfoStage | SaveStage.

(** [jsonify(...)] with its status: the success envelope, or an error
    envelope whose text is a fixed message or the [str] of the exception
    caught. *)
Inductive failure_text :=
| Message (text : string)
| OfException (e : error).

Inductive response :=
| Success (redirect_to : target)
| Failure (status : nat) (error : failure_text).

(** [data = request.get_json() or {}], with the empty object also when
    [get_json] raises; [body] is what [get_json] returns, [None] when it
    raises. *)
Definition data_of (body : option value) : value :=
  match body with
  | Some v => if truthy_value v then v else VDict []
  | None => VDict []
  end.

(** [data.get(key, default)]: only an object has [get]. *)
Definition data_get (data : value) (key : string) (default : value)
  : result value :=
  match data with
  | VDict members => Ok (from_option id default (dict_get key members))
  | _ => Raise AttributeError
  end.

(** Truthiness of a stored list: absent, [None] and the empty list are
    falsy. *)
Definition or_nones {A} (stored : option (list (option A))) (total : nat)
  : list (option A) :=
  match stored with
  | Some (x :: l) => x :: l
  | Some [] | None => repeat None total
  end.

(** Lines 265-268: the boxes the handler works on are those of the body,
    else those of the session when it has any. *)
Definition effective_bboxes (bboxes : value) (s : session) : result value :=
  if negb (truthy_value bboxes) then
    match last_detection s with
    | Some (Some d) =>
        Ok (if truthy_value (detections d) then detections d else bboxes)
    | Some None => Raise AttributeError
    | None => Ok bboxes
    end
  else Ok bboxes.

Record stage_results := {
  classification_results : option (list cresult);
  risk_results : option (list (option risk));
  info_results : option (list (option info));
  ran : list stage_name
}.

Definition no_results (ran : list stage_name) : stage_results :=
  {| classification_results := None; risk_results := None;
     info_results := None; ran := ran |}.

(** The guarded block that classifies the selected box.  Every exception
    in it is caught: by the stage's own handler, or by the outer one, which
    drops all three results. *)
Definition run_stages (save_path : string) (bboxes selected_index : value)
  : stage_results :=
  match value_getitem bboxes selected_index with
  | Raise _ => no_results []
  | Ok selected_bbox =>
      match order_stage save_path selected_bbox with
      | Raise _ => no_results [OrderStage]
      | Ok order_results =>
          let results :=
            match hier_stage save_path selected_bbox order_results with
            | Ok r => r
            | Raise _ => order_results
            end in
          {| classification_results := Some results;
             risk_results := match risk_stage results with
                             | Ok r => Some r
                             | Raise _ => None
                             end;
             info_results := match info_stage results with
                             | Ok r => Some r
                             | Raise _ => None
                             end;
             ran := [OrderStage; HierStage; RiskStage; InfoStage] |}
      end
  end.

(** Line 290: [len(bboxes) > 0 and selected_index < len(bboxes)]. *)
Definition guard (total : nat) (selected_index : value) : result bool :=
  if (0 <? total)%nat then py_lt selected_index total else Ok false.

(** [if xs and len(xs) > 0: target[selected_index] = xs[0]]. *)
Definition store_first {A B} (xs : option (list A)) (wrap : A -> B)
  (stored : list B) (selected_index : value) : result (list B) :=
  match xs with
  | Some (x :: _) => py_setitem stored selected_index (wrap x)
  | Some [] | None => Ok stored
  end.

(** Lines 507-625: the results go into the slot of the selected box, and
    the record goes back into the session. *)
Definition store_results (d : detection) (st : app_state) (bboxes : value)
  (total : nat) (selected_index : value) (out : stage_results)
  : list stage_name * result (response * app_state) :=
  let cls := or_nones (classifications d) total in
  let rsk := or_nones (risk_assessment d) total in
  let inf := or_nones (detailed_info d) total in
  match py_ge selected_index total with
  | Raise e => (ran out, Raise e)
  | Ok reset =>
  let selected_index := if reset then VInt 0 else selected_index in
  match store_first (classification_results out) Some cls selected_index with
  | Raise e => (ran out, Raise e)
  | Ok cls =>
  match store_first (risk_results out) id rsk selected_index with
  | Raise e => (ran out, Raise e)
  | Ok rsk =>
  match store_first (info_results out) id inf selected_index with
  | Raise e => (ran out, Raise e)
  | Ok inf =>
      let saved :=
        match classification_results out with
        | Some (r :: l) => [SaveStage]
        | Some [] | None => []
        end in
      let d' := {| original_image := original_image d;
                   detected_image := detected_image d;
                   count := total;
                   detections := bboxes;
                   classifications := Some cls;
                   risk_assessment := Some rsk;
                   species_info := species_info d;
                   detailed_info := Some inf |} in
      (ran out ++ saved,
       Ok (Success ToIndexShowResult,
           {| uploads := uploads st;
              sess := with_detection (Some d') (sess st) |}))
  end end end end.

(** Lines 280-625, with the record in hand and the image on disk. *)
Definition classify_selected (d : detection) (st : app_state)
  (bboxes selected_index : value)
  : list stage_name * result (response * app_state) :=
  match py_len bboxes with
  | Raise e => ([], Raise e)
  | Ok total =>
      match guard total selected_index with
      | Raise e => ([], Raise e)
      | Ok go =>
          store_results d st bboxes total selected_index
            (if go then run_stages (original_image d) bboxes selected_index
             else no_results [])
      end
  end.

(** The body of the handler's outer [try]: the stages that ran, and the
    answer with the state after it, or the exception that leaves the
    [try]. *)
Definition classify_try (body : option value) (st : app_state)
  : list stage_name * result (response * app_state) :=
  let data := data_of body in
  match data_get data "bboxes" (VList []) with
  | Raise e => ([], Raise e)
  | Ok bboxes =>
  match data_get data "selected_index" (VInt 0) with
  | Raise e => ([], Raise e)
  | Ok selected_index =>
  match effective_bboxes bboxes (sess st) with
  | Raise e => ([], Raise e)
  | Ok bboxes =>
  match last_detection (sess st) with
  | None => ([], Ok (Failure 400 (Message "탐지 결과가 없습니다."), st))
  | Some None => ([], Raise TypeError)
  | Some (Some d) =>
  match uploads st !! original_image d with
  | None => ([], Ok (Failure 400 (Message "원본 이미지를 찾을 수 없습니다."), st))
  | Some _ => classify_selected d st bboxes selected_index
  end end end end end.

(** [classify]: the stages that ran, the answer and the state after it.
    An exception that reaches the outer handler is answered with a 500; the
    session is then as it was, since nothing has marked it as modified. *)
Definition classify (body : option value) (st : app_state)
  : list stage_name * response * app_state :=
  match classify_try body st with
  | (ran, Ok (resp, st')) => (ran, resp, st')
  | (ran, Raise e) => (ran, Failure 500 (OfException e), st)
  end.

(** *** What the handler answers, and what it leaves in the session *)

(** A stored per-box list fits [total] boxes when it is absent or empty
    (it is then rebuilt) or has one slot per box. *)
Definition fits {A} (stored : option (list (option A))) (total : nat) : Prop :=
  match stored with
  | Some (x :: l) => length (x :: l) = total
  | Some [] | None => True
  end.

(** Values that compare with an [int]. *)
Definition is_number (v : value) : bool :=
  match v with
  | VInt _ | VBool _ | VFloat _ => true
  | _ => false
  end.

(** The box the stages work on and the slot their results go to: none when
    there are no boxes, when the index is not below their number, or when
    indexing raises. *)
Definition selected (bboxes selected_index : value) (total : nat)
  : option (nat * value) :=
  if (0 <? total)%nat then
    match py_lt selected_index total, value_getitem bboxes selected_index,
          as_index selected_index with
    | Ok true, Ok box, Ok i =>
        match py_position total i with
        | Ok j => Some (j, box)
        | Raise _ => None
        end
    | _, _, _ => None
    end
  else None.

(** [l[j] = x] when a stage has produced [x], [l] as it is otherwise. *)
Definition put {B} (j : nat) (first : option B) (l : list B) : list B :=
  match first with
  | Some x => <[j := x]> l
  | None => l
  end.

Lemma or_nones_length {A} (stored : option (list (option A))) (total : nat) :
  fits stored total -> length (or_nones stored total) = total.
Proof.
  destruct stored as [[|x l]|]; simpl; intros H;
    try apply repeat_length; exact H.
Qed.

Lemma py_lt_ge (v : value) (n : nat) :
  py_lt v n = Ok true -> py_ge v n = Ok false.
Proof.
  destruct v as [|b|i|[q| | |]|s|items|members]; simpl; try discriminate.
  - intros [= H]. f_equal. apply Z.leb_gt. now apply Z.ltb_lt.
  - intros [= H]. f_equal. apply Z.leb_gt. now apply Z.ltb_lt.
  - intros [= H]. f_equal. now apply negb_true_iff.
  - reflexivity.
Qed.

Lemma is_number_ge (v : value) (n : nat) :
  is_number v = true -> exists b, py_ge v n = Ok b.
Proof.
  destruct v as [|b|i|[q| | |]|s|items|members]; simpl; try discriminate;
    intros _; eexists; reflexivity.
Qed.

Lemma is_number_lt (v : value) (n : nat) :
  is_number v = true -> exists b, py_lt v n = Ok b.
Proof.
  destruct v as [|b|i|[q| | |]|s|items|members]; simpl; try discriminate;
    intros _; eexists; reflexivity.
Qed.

Lemma not_number_lt (v : value) (n : nat) :
  is_number v = false -> py_lt v n = Raise TypeError.
Proof.
  destruct v as [|b|i|[q| | |]|s|items|members]; simpl; try discriminate;
    reflexivity.
Qed.

Lemma not_number_ge (v : value) (n : nat) :
  is_number v = false -> py_ge v n = Raise TypeError.
Proof.
  destruct v as [|b|i|[q| | |]|s|items|members]; simpl; try discriminate;
    reflexivity.
Qed.

Lemma py_getitem_position {A} (l : list A) (i : Z) (x : A) :
  py_getitem l i = Ok x -> exists j, py_position (length l) i = Ok j.
Proof.
  unfold py_getitem. destruct (py_position (length l) i) as [j|e];
    [|discriminate].
  intros _. now exists j.
Qed.

(** Indexing that succeeds with a number goes by a position below the
    length. *)
Lemma value_getitem_position (bboxes index box : value) (total : nat) :
  is_number index = true ->
  py_len bboxes = Ok total ->
  value_getitem bboxes index = Ok box ->
  exists i j, as_index index = Ok i /\ py_position total i = Ok j.
Proof.
  intros Hn Hlen Hget.
  destruct bboxes as [|b|n|f|s|items|members]; try discriminate.
  - injection Hlen as <-. simpl in Hget.
    destruct (as_index index) as [i|e]; [|discriminate]. simpl in Hget.
    destruct (py_getitem (code_points s) i) as [c|e] eqn:E; [|discriminate].
    apply py_getitem_position in E as [j Hj]. now exists i, j.
  - injection Hlen as <-. simpl in Hget.
    destruct (as_index index) as [i|e]; [|discriminate]. simpl in Hget.
    apply py_getitem_position in Hget as [j Hj]. now exists i, j.
  - destruct index; discriminate.
Qed.

Lemma selected_some (bboxes index : value) (total : nat) (j : nat)
  (box : value) :
  selected bboxes index total = Some (j, box) ->
  guard total index = Ok true
  /\ value_getitem bboxes index = Ok box
  /\ py_ge index total = Ok false
  /\ forall B (l : list B) (x : B),
       length l = total -> py_setitem l index x = Ok (<[j := x]> l).
Proof.
  unfold selected, guard.
  destruct (0 <? total)%nat; [|discriminate].
  destruct (py_lt index total) as [[|]|] eqn:Hlt; try discriminate.
  destruct (value_getitem bboxes index) as [b|]; [|discriminate].
  destruct (as_index index) as [i|] eqn:Hi; [|discriminate].
  destruct (py_position total i) as [j'|] eqn:Hj; [|discriminate].
  intros [= <- <-]. split; [reflexivity|]. split; [reflexivity|].
  split; [now apply py_lt_ge|].
  intros B l x Hl. unfold py_setitem. rewrite Hi. simpl.
  rewrite Hl, Hj. reflexivity.
Qed.

Lemma selected_none (save_path : string) (bboxes index : value)
  (total : nat) :
  is_number index = true ->
  py_len bboxes = Ok total ->
  selected bboxes index total = None ->
  exists go,
    guard total index = Ok go
    /\ (if go then run_stages save_path bboxes index else no_results [])
       = no_results [].
Proof.
  intros Hn Hlen. unfold selected, guard.
  destruct (0 <? total)%nat; [|intros _; now exists false].
  destruct (is_number_lt index total Hn) as [[|] ->];
    [|intros _; now exists false].
  intros Hsel. exists true. split; [reflexivity|].
  unfold run_stages.
  destruct (value_getitem bboxes index) as [box|e] eqn:Hget; [|reflexivity].
  destruct (value_getitem_position _ _ _ _ Hn Hlen Hget) as (i & j & Hi & Hj).
  rewrite Hi, Hj in Hsel. discriminate Hsel.
Qed.

Lemma store_results_none (d : detection) (st : app_state) (bboxes : value)
  (total : nat) (index : value) (tr : list stage_name) :
  is_number index = true ->
  store_results d st bboxes total index (no_results tr)
  = (tr,
     Ok (Success ToIndexShowResult,
         {| uploads := uploads st;
            sess := with_detection
                      (Some {| original_image := original_image d;
                               detected_image := detected_image d;
                               count := total;
                               detections := bboxes;
                               classifications :=
                                 Some (or_nones (classifications d) total);
                               risk_assessment :=
                                 Some (or_nones (risk_assessment d) total);
                               species_info := species_info d;
                               detailed_info :=
                                 Some (or_nones (detailed_info d) total) |})
                      (sess st) |})).
Proof.
  intros Hn. unfold store_results.
  destruct (is_number_ge index total Hn) as [reset ->].
  cbn. now rewrite app_nil_r.
Qed.

(** The requested boxes and index, read off an object body. *)
Definition requested_bboxes (members : list (string * value)) : value :=
  from_option id (VList []) (dict_get "bboxes" members).

Definition requested_index (members : list (string * value)) : value :=
  from_option id (VInt 0) (dict_get "selected_index" members).

Lemma store_results_answer (d : detection) (st : app_state) (bboxes : value)
  (total : nat) (index : value) (out : stage_results)
  (tr : list stage_name) (resp : response) (st' : app_state) :
  store_results d st bboxes total index out = (tr, Ok (resp, st')) ->
  resp = Success ToIndexShowResult.
Proof.
  unfold store_results. intros H.
  repeat match type of H with
         | context [match ?x with _ => _ end] => destruct x
         end; congruence.
Qed.

Lemma classify_selected_answer (d : detection) (st : app_state)
  (bboxes index : value) (tr : list stage_name) (resp : response)
  (st' : app_state) :
  classify_selected d st bboxes index = (tr, Ok (resp, st')) ->
  resp = Success ToIndexShowResult.
Proof.
  unfold classify_selected.
  destruct (py_len bboxes) as [total|]; [|discriminate].
  destruct (guard total index) as [go|]; [|discriminate].
  apply store_results_answer.
Qed.

Lemma put_length {B} (j : nat) (first : option B) (l : list B) :
  length (put j first l) = length l.
Proof. destruct first; simpl; [apply length_insert | reflexivity]. Qed.

(** The record the handler puts back into the session. *)
Definition updated (d : detection) (bboxes : value) (total : nat)
  (cls : list (option cresult)) (rsk : list (option risk))
  (inf : list (option info)) : detection :=
  {| original_image := original_image d;
     detected_image := detected_image d;
     count := total;
     detections := bboxes;
     classifications := Some cls;
     risk_assessment := Some rsk;
     species_info := species_info d;
     detailed_info := Some inf |}.

(** What the stages leave in the three lists and which of them ran, for
    the box [selected] picks. *)
Definition produced (d : detection) (bboxes index : value) (total : nat)
  (tr : list stage_name) (cls : list (option cresult))
  (rsk : list (option risk)) (inf : list (option info)) : Prop :=
  match selected bboxes index total with
  | None =>
      tr = []
      /\ cls = or_nones (classifications d) total
      /\ rsk = or_nones (risk_assessment d) total
      /\ inf = or_nones (detailed_info d) total
  | Some (j, box) =>
      match order_stage (original_image d) box with
      | Raise _ =>
          tr = [OrderStage]
          /\ cls = or_nones (classifications d) total
          /\ rsk = or_nones (risk_assessment d) total
          /\ inf = or_nones (detailed_info d) total
      | Ok order_results =>
          let results :=
            match hier_stage (original_image d) box order_results with
            | Ok r => r
            | Raise _ => order_results
            end in
          tr = [OrderStage; HierStage; RiskStage; InfoStage]
               ++ match results with
                  | [] => []
                  | _ :: _ => [SaveStage]
                  end
          /\ cls = put j (Some <$> head results)
                     (or_nones (classifications d) total)
          /\ rsk = put j
                     (match risk_stage results with
                      | Ok r => head r
                      | Raise _ => None
                      end)
                     (or_nones (risk_assessment d) total)
          /\ inf = put j
                     (match info_stage results with
                      | Ok r => head r
                      | Raise _ => None
                      end)
                     (or_nones (detailed_info d) total)
      end
  end.

Lemma classify_selected_fits (d : detection) (st : app_state)
  (bboxes index : value) (total : nat) :
  py_len bboxes = Ok total ->
  is_number index = true ->
  fits (classifications d) total ->
  fits (risk_assessment d) total ->
  fits (detailed_info d) total ->
  exists tr cls rsk inf,
    classify_selected d st bboxes index
    = (tr, Ok (Success ToIndexShowResult,
               {| uploads := uploads st;
                  sess := with_detection
                            (Some (updated d bboxes total cls rsk inf))
                            (sess st) |}))
    /\ (total = 0 -> tr = [])
    /\ produced d bboxes index total tr cls rsk inf.
Proof.
  intros Hlen Hn Hc Hr Hi. unfold classify_selected, produced. rewrite Hlen.
  destruct (selected bboxes index total) as [[j box]|] eqn:Hsel.
  - destruct (selected_some _ _ _ _ _ Hsel) as (Hg & Hget & Hge & Hset).
    assert (Hpos : total <> 0).
    { intros ->. unfold selected in Hsel. discriminate Hsel. }
    rewrite Hg. unfold run_stages. rewrite Hget.
    destruct (order_stage (original_image d) box) as [order_results|e].
    + set (results := match hier_stage _ _ _ with Ok r => r | Raise _ => _ end).
      unfold store_results. cbn [classification_results risk_results
                                 info_results ran].
      rewrite Hge. cbv iota.
      assert (Hcls : store_first (Some results) Some
                       (or_nones (classifications d) total) index
                     = Ok (put j (Some <$> head results)
                             (or_nones (classifications d) total))).
      { destruct results as [|r l]; [reflexivity|]. cbn.
        apply Hset. now apply or_nones_length. }
      rewrite Hcls.
      assert (Hrsk : store_first
                       match risk_stage results with
                       | Ok r => Some r
                       | Raise _ => None
                       end id (or_nones (risk_assessment d) total) index
                     = Ok (put j match risk_stage results with
                                 | Ok r => head r
                                 | Raise _ => None
                                 end (or_nones (risk_assessment d) total))).
      { destruct (risk_stage results) as [[|x l]|]; try reflexivity. cbn.
        apply Hset. now apply or_nones_length. }
      rewrite Hrsk.
      assert (Hinf : store_first
                       match info_stage results with
                       | Ok r => Some r
                       | Raise _ => None
                       end id (or_nones (detailed_info d) total) index
                     = Ok (put j match info_stage results with
                                 | Ok r => head r
                                 | Raise _ => None
                                 end (or_nones (detailed_info d) total))).
      { destruct (info_stage results) as [[|x l]|]; try reflexivity. cbn.
        apply Hset. now apply or_nones_length. }
      rewrite Hinf.
      eexists _, _, _, _. split; [reflexivity|].
      split; [intros H0; now elim Hpos|].
      repeat split.
    + rewrite store_results_none by exact Hn.
      eexists _, _, _, _. split; [reflexivity|].
      split; [intros H0; now elim Hpos|]. repeat split.
  - destruct (selected_none (original_image d) _ _ _ Hn Hlen Hsel)
      as (go & -> & ->).
    rewrite store_results_none by exact Hn.
    eexists _, _, _, _. split; [reflexivity|]. repeat split.
Qed.

Lemma classify_selected_not_number (d : detection) (st : app_state)
  (bboxes index : value) (total : nat) :
  py_len bboxes = Ok total ->
  is_number index = false ->
  classify_selected d st bboxes index = ([], Raise TypeError).
Proof.
  intros Hlen Hn. unfold classify_selected, guard. rewrite Hlen.
  destruct (0 <? total)%nat.
  - now rewrite not_number_lt.
  - unfold store_results. now rewrite not_number_ge.
Qed.

(** C2 (amended).  The route answers 400 exactly when the body is usable
    as an object and either no detection session is stored or the stored
    session's original image is no longer in the upload folder; every
    failure leaves the state as it was, and a 400 comes before any stage.
    A body that is not an object is answered 500 before the session is
    looked at.  With a stored session whose image is on disk: boxes that
    have no length, or an index that is not a number, are answered 500
    before any stage; otherwise, when the per-box result lists of the
    session are absent, empty or as long as the box list, the answer is the
    success envelope whatever the stages do, raise included.  The session
    then holds the boxes worked on and their number, and the slot of the
    selected box holds what the stages produced: nothing new when no box is
    selected (in particular when there are no boxes, where no stage runs) or
    when the order stage raises; otherwise the first classification result,
    which is the order result when the hierarchical stage raises, and the
    first entry of the risk and of the information list, each only if its
    stage did not raise. *)
Theorem classify_envelope (body : option value) (st : app_state) :
  let '(ran, resp, st') := classify body st in
  ((exists text, resp = Failure 400 text) <->
   ((exists members, data_of body = VDict members)
    /\ (last_detection (sess st) = None
        \/ exists d, last_detection (sess st) = Some (Some d)
                     /\ uploads st !! original_image d = None)))
  /\ (forall status text, resp = Failure status text ->
        st' = st /\ (status = 400 -> ran = []))
  /\ ((forall members, data_of body <> VDict members) ->
      ran = [] /\ resp = Failure 500 (OfException AttributeError))
  /\ (forall d members bboxes,
        last_detection (sess st) = Some (Some d) ->
        uploads st !! original_image d <> None ->
        data_of body = VDict members ->
        effective_bboxes (requested_bboxes members) (sess st) = Ok bboxes ->
        (forall e, py_len bboxes = Raise e ->
           ran = [] /\ resp = Failure 500 (OfException e))
        /\ (forall total, py_len bboxes = Ok total ->
            (is_number (requested_index members) = false ->
             ran = [] /\ resp = Failure 500 (OfException TypeError))
            /\ (is_number (requested_index members) = true ->
                fits (classifications d) total ->
                fits (risk_assessment d) total ->
                fits (detailed_info d) total ->
                resp = Success ToIndexShowResult
                /\ (total = 0 -> ran = [])
                /\ exists cls rsk inf,
                     st' = {| uploads := uploads st;
                              sess := with_detection
                                        (Some (updated d bboxes total cls rsk inf))
                                        (sess st) |}
                     /\ length cls = total /\ length rsk = total
                     /\ length inf = total
                     /\ produced d bboxes (requested_index members) total
                          ran cls rsk inf))).
Proof.
  unfold classify, classify_try.
  destruct (data_of body) as [|b|n|f|s|items|members] eqn:Hdata;
    try (cbn [data_get];
         split; [split; [intros [? [=]] | intros [[? [=]] _]]|];
         split; [intros ? ? [= <- <-]; split; [reflexivity | discriminate]|];
         split; [intros _; split; reflexivity|];
         intros ? ? ? _ _ [=]).
  cbn [data_get].
  fold (requested_bboxes members). fold (requested_index members).
  set (index := requested_index members).
  destruct (last_detection (sess st)) as [[d|]|] eqn:Hs.
  - (* a record is stored *)
    destruct (effective_bboxes (requested_bboxes members) (sess st))
      as [bboxes|e] eqn:Heff.
    2: { unfold effective_bboxes in Heff. rewrite Hs in Heff.
         destruct (negb _) in Heff; discriminate. }
    destruct (uploads st !! original_image d) as [bytes|] eqn:Hf.
    2: { split; [split; [intros _; split; [now eexists|right; now exists d]
                        | intros _; now eexists]|].
         split; [intros ? ? [= <- <-]; now split|].
         split; [intros H; now elim (H members)|].
         intros d' ? ? [= <-] H. now elim H. }
    destruct (classify_selected d st bboxes index) as [tr [[resp st']|e]]
      eqn:Hc.
    + (* the handler returns *)
      pose proof (classify_selected_answer _ _ _ _ _ _ _ Hc) as ->.
      split; [split; [intros [? [=]]
                     | intros [_ [[=]|(d' & [= <-] & H)]]; congruence]|].
      split; [intros ? ? [=]|].
      split; [intros H; now elim (H members)|].
      intros d' members' bboxes' [= <-] _ [= <-] Hb.
      rewrite Heff in Hb. injection Hb as <-.
      split.
      * intros e He. unfold classify_selected in Hc. rewrite He in Hc.
        discriminate Hc.
      * intros total Hlen. split.
        -- intros Hn. fold index in Hn.
           rewrite (classify_selected_not_number _ _ _ _ _ Hlen Hn) in Hc.
           discriminate Hc.
        -- intros Hn Hfc Hfr Hfi. fold index in Hn.
           destruct (classify_selected_fits d st bboxes index total
                       Hlen Hn Hfc Hfr Hfi)
             as (tr' & cls & rsk & inf & Heq & Hzero & Hprod).
           rewrite Heq in Hc. injection Hc as <- <-.
           split; [reflexivity|]. split; [exact Hzero|].
           exists cls, rsk, inf. split; [reflexivity|].
           assert (Hlens : length cls = total /\ length rsk = total
                           /\ length inf = total).
           { unfold produced in Hprod.
             destruct (selected bboxes index total) as [[j box]|].
             - destruct (order_stage (original_image d) box).
               + destruct Hprod as (_ & -> & -> & ->).
                 rewrite !put_length. now rewrite !or_nones_length.
               + destruct Hprod as (_ & -> & -> & ->).
                 now rewrite !or_nones_length.
             - destruct Hprod as (_ & -> & -> & ->).
               now rewrite !or_nones_length. }
           destruct Hlens as (? & ? & ?). repeat split; assumption.
    + (* an exception reaches the outer handler *)
      split; [split; [intros [? [=]]
                     | intros [_ [[=]|(d' & [= <-] & H)]]; congruence]|].
      split; [intros ? ? [= <- <-]; split; [reflexivity | discriminate]|].
      split; [intros H; now elim (H members)|].
      intros d' members' bboxes' [= <-] _ [= <-] Hb.
      rewrite Heff in Hb. injection Hb as <-.
      split.
      * intros e' He. unfold classify_selected in Hc. rewrite He in Hc.
        injection Hc as <- <-. now split.
      * intros total Hlen. split.
        -- intros Hn. fold index in Hn.
           rewrite (classify_selected_not_number _ _ _ _ _ Hlen Hn) in Hc.
           injection Hc as <- <-. now split.
        -- intros Hn Hfc Hfr Hfi. fold index in Hn.
           destruct (classify_selected_fits d st bboxes index total
                       Hlen Hn Hfc Hfr Hfi)
             as (tr' & cls & rsk & inf & Heq & _).
           rewrite Heq in Hc. discriminate Hc.
  - (* the session holds None *)
    assert (Hout : exists e,
               match effective_bboxes (requested_bboxes members) (sess st) with
               | Ok bboxes => ([], @Raise (response * app_state) TypeError)
               | Raise e => ([], Raise e)
               end = (@nil stage_name, Raise e)).
    { destruct (effective_bboxes _ _); eauto. }
    destruct Hout as [e ->].
    split; [split; [intros [? [=]]
                   | intros [_ [[=]|(d' & [=] & _)]]]|].
    split; [intros ? ? [= <- <-]; split; [reflexivity | discriminate]|].
    split; [intros H; now elim (H members)|].
    intros d' ? ? [=].
  - (* no session *)
    assert (Heff : effective_bboxes (requested_bboxes members) (sess st)
                   = Ok (requested_bboxes members)).
    { unfold effective_bboxes. rewrite Hs. now destruct (negb _). }
    rewrite Heff.
    split; [split; [intros _; split; [now eexists | now left]
                   | intros _; now eexists]|].
    split; [intros ? ? [= <- <-]; now split|].
    split; [intros H; now elim (H members)|].
    intros d' ? ? [=].
Qed.

End Stages.

Arguments Found {SpeciesInfo} _.
Arguments NotRegistered {SpeciesInfo} _.
Arguments Build_detection {SpeciesInfo} _ _ _ _ _ _ _ _.
Arguments Build_session {SpeciesInfo} _ _.
Arguments Build_app_state {SpeciesInfo} _ _.
Arguments original_image {SpeciesInfo} _.
Arguments detected_image {SpeciesInfo} _.
Arguments count {SpeciesInfo} _.
Arguments detections {SpeciesInfo} _.
Arguments classifications {SpeciesInfo} _.
Arguments risk_assessment {SpeciesInfo} _.
Arguments species_info {SpeciesInfo} _.
Arguments detailed_info {SpeciesInfo} _.
Arguments last_request_id {SpeciesInfo} _.
Arguments last_detection {SpeciesInfo} _.
Arguments uploads {SpeciesInfo} _.
Arguments sess {SpeciesInfo} _.
Arguments with_detection {SpeciesInfo} _ _.
Arguments updated {SpeciesInfo} _ _ _ _ _ _.
Arguments effective_bboxes {SpeciesInfo} _ _.

(** The record the upload handler stores, as [classify] finds it in the
    next request: the boxes are a list, and ['detailed_info'] is a key the
    upload does not set. *)
Definition of_upload {SpeciesInfo}
  (d : Demo.detection value cresult risk (info SpeciesInfo))
  : detection SpeciesInfo :=
  {| original_image := Demo.original_image d;
     detected_image := Demo.detected_image d;
     count := Demo.count d;
     detections := VList (Demo.detections d);
     classifications := Demo.classifications d;
     risk_assessment := Demo.risk_assessment d;
     species_info := Demo.species_info d;
     detailed_info := Demo.detailed_info d |}.

(** After an upload that passed validation, the per-box lists of the
    record are absent: they fit any number of boxes. *)
Lemma upload_record_fits {SpeciesInfo}
  (pil_format : string -> option string)
  (detect : string -> string -> result (nat * list value))
  (filename real_ext : string)
  (st : Demo.app_state value cresult risk (info SpeciesInfo))
  (d : Demo.detection value cresult risk (info SpeciesInfo)) (total : nat) :
  detect_image_ext pil_format (Demo.uploads st) filename = Some real_ext ->
  Demo.last_detection
    (Demo.sess (snd (after_save value cresult risk (info SpeciesInfo)
                       pil_format detect filename st)))
  = Some (Some d) ->
  fits (classifications (of_upload d)) total
  /\ fits (risk_assessment (of_upload d)) total
  /\ fits (detailed_info (of_upload d)) total.
Proof.
  unfold after_save. intros ->.
  destruct (String.eqb _ real_ext);
    match goal with
    | |- context [match ?x with Ok _ => _ | Raise _ => _ end] => destruct x as [[n boxes]|e]
    end; cbn; intros [= <-]; cbn; auto.
Qed.

(** A session after an upload that found two insects; the classifiers
    name a hornet, the risk database is the built-in one and the information
    provider raises. *)
Module Sample.

Definition order_entry : class_entry :=
  {| class_name := "벌목"; level := None; entry_confidence := 0.9 |}.

Definition order_stage (save_path : string) (bbox : value)
  : result (list cresult) :=
  Ok [ {| classification := Some [order_entry];
          hierarchical_result := None |} ].

Definition hornet : Hierarchical.hierarchical_result :=
  {| Hierarchical.order := "벌목";
     Hierarchical.family := Some "말벌과";
     Hierarchical.genus := Some "말벌속";
     Hierarchical.species := Some "장수말벌";
     Hierarchical.scores :=
       {| Hierarchical.cs_family := Some 0.9%Q;
          Hierarchical.cs_genus := Some 0.8%Q;
          Hierarchical.cs_species := Some 0.7%Q |};
     Hierarchical.species_candidates :=
       Some [ {| Hierarchical.name := "장수말벌";
                 Hierarchical.confidence := 0.7 |} ] |}.

Definition hornet_result : cresult :=
  {| classification :=
       Some [ order_entry;
              {| class_name := "장수말벌"; level := Some "species";
                 entry_confidence := 0.7 |} ];
     hierarchical_result := Some hornet |}.

Definition hier_stage (save_path : string) (bbox : value)
  (order_results : list cresult) : result (list cresult) :=
  Ok [hornet_result].

Definition failing_stage (save_path : string) (bbox : value)
  (order_results : list cresult) : result (list cresult) := Raise ValueError.

Definition risk_database : result RiskAssessor.database :=
  Ok RiskAssessor._get_default_database.

Definition get_info (name : string) : result (option string) := Raise KeyError.

Definition box (x : Z) : value :=
  VList [VInt x; VInt x; VInt (x + 50); VInt (x + 50)].

Definition detected (boxes : list value) : detection string :=
  {| original_image := "wasp_1a2b3c4d.jpg";
     detected_image := "detected_wasp_1a2b3c4d.jpg";
     count := length boxes; detections := VList boxes;
     classifications := None; risk_assessment := None;
     species_info := None; detailed_info := None |}.

Definition on_disk : gmap string string :=
  {[ "wasp_1a2b3c4d.jpg" := "...jpeg bytes..." ]}.

Definition state_with (files : gmap string string)
  (d : option (option (detection string))) : app_state string :=
  {| uploads := files;
     sess := {| last_request_id := Some "req-1"; last_detection := d |} |}.

Definition classify :=
  classify string order_stage hier_stage risk_database get_info.

(** The body [{"selected_index": i}]. *)
Definition select (i : value) : option value :=
  Some (VDict [("selected_index", i)]).

Definition two_boxes : app_state string :=
  state_with on_disk (Some (Some (detected [box 7; box 9]))).

(** The second box is classified although the information stage raises,
    and the hornet is rated critical. *)
Example partial_results_success :
  fst (classify (select (VInt 1)) two_boxes)
  = ([OrderStage; HierStage; RiskStage; InfoStage; SaveStage],
     Success ToIndexShowResult)
  /\ match last_detection (sess (snd (classify (select (VInt 1)) two_boxes)))
     with
     | Some (Some d) =>
         classifications d = Some [None; Some hornet_result]
         /\ detailed_info d = Some [None; None]
         /\ match risk_assessment d with
            | Some [None; Some (Assessed r)] =>
                RiskAssessor.r_risk_level r = "critical"
            | _ => False
            end
     | _ => False
     end.
Proof. vm_compute. repeat split; reflexivity. Qed.

(** With a hierarchical stage that raises, the order result stands in. *)
Example hierarchical_failure_success :
  fst (Classify.classify string order_stage failing_stage risk_database
         get_info (select (VInt 0)) two_boxes)
  = ([OrderStage; HierStage; RiskStage; InfoStage; SaveStage],
     Success ToIndexShowResult).
Proof. vm_compute. reflexivity. Qed.

(** An index counted from the end selects the last box; a fractional
    index passes the guard, fails to index, and nothing is classified. *)
Example negative_and_fractional_index :
  fst (classify (select (VInt (-1))) two_boxes)
  = ([OrderStage; HierStage; RiskStage; InfoStage; SaveStage],
     Success ToIndexShowResult)
  /\ fst (classify (select (VFloat (Finite 0.5))) two_boxes)
     = ([], Success ToIndexShowResult).
Proof. vm_compute. split; reflexivity. Qed.

(** The session as the first classification of a single box leaves it. *)
Definition classified_one : detection string :=
  {| original_image := "wasp_1a2b3c4d.jpg";
     detected_image := "detected_wasp_1a2b3c4d.jpg";
     count := 1; detections := VList [box 7];
     classifications := Some [None];
     risk_assessment := Some [None];
     species_info := None; detailed_info := Some [None] |}.

End Sample.

(** C2, as stated, fails.  With a stored session that holds no detections
    the route runs no stage and answers with the success envelope, not with
    a 400.  It answers 400 for a session with detections whose image has
    left the upload folder.  And it answers 500: without any session, when
    the body is a JSON array; with a session, when the index is [null]; and,
    after the stages ran, when the session still carries the one-slot
    result lists of an earlier classification and a box added since is
    selected. *)
Lemma classify_precondition_counterexample :
  Sample.classify None (Sample.state_with Sample.on_disk
                          (Some (Some (Sample.detected []))))
  = ([], Success ToIndexShowResult,
     Sample.state_with Sample.on_disk
       (Some (Some
          {| original_image := "wasp_1a2b3c4d.jpg";
             detected_image := "detected_wasp_1a2b3c4d.jpg";
             count := 0; detections := VList [];
             classifications := Some []; risk_assessment := Some [];
             species_info := None; detailed_info := Some [] |})))
  /\ fst (Sample.classify (Sample.select (VInt 0))
            (Sample.state_with ∅
               (Some (Some (Sample.detected [Sample.box 7; Sample.box 9])))))
     = ([], Failure 400 (Message "원본 이미지를 찾을 수 없습니다."))
  /\ fst (Sample.classify (Some (VList [VInt 1]))
            (Sample.state_with Sample.on_disk None))
     = ([], Failure 500 (OfException AttributeError))
  /\ fst (Sample.classify (Sample.select VNone) Sample.two_boxes)
     = ([], Failure 500 (OfException TypeError))
  /\ fst (Sample.classify
            (Some (VDict [("bboxes", VList [Sample.box 7; Sample.box 9]);
                          ("selected_index", VInt 1)]))
            (Sample.state_with Sample.on_disk
               (Some (Some Sample.classified_one))))
     = ([OrderStage; HierStage; RiskStage; InfoStage],
        Failure 500 (OfException IndexError)).
Proof. vm_compute. repeat split; reflexivity. Qed.

Lemma classify_envelope_witness :
  let body := Sample.select (VInt 1) in
  let st := Sample.two_boxes in
  let d := Sample.detected [Sample.box 7; Sample.box 9] in
  let bboxes := VList [Sample.box 7; Sample.box 9] in
  let '(ran, resp, st') := Sample.classify body st in
  resp = Success ToIndexShowResult
  /\ (2 = 0 -> ran = [])
  /\ exists cls rsk inf,
       st' = {| uploads := uploads st;
                sess := with_detection
                          (Some (updated d bboxes 2 cls rsk inf)) (sess st) |}
       /\ length cls = 2 /\ length rsk = 2 /\ length inf = 2
       /\ produced string Sample.order_stage Sample.hier_stage
            Sample.risk_database Sample.get_info
            d bboxes (VInt 1) 2 ran cls rsk inf.
Proof.
  cbv zeta.
  pose proof (classify_envelope string Sample.order_stage Sample.hier_stage
                Sample.risk_database Sample.get_info
                (Sample.select (VInt 1)) Sample.two_boxes) as H.
  unfold Sample.classify.
  destruct (classify string Sample.order_stage Sample.hier_stage
              Sample.risk_database Sample.get_info
              (Sample.select (VInt 1)) Sample.two_boxes)
    as [[ran resp] st'].
  destruct H as (_ & _ & _ & H).
  destruct (H (Sample.detected [Sample.box 7; Sample.box 9])
              [("selected_index", VInt 1)]
              (VList [Sample.box 7; Sample.box 9])) as [_ H2];
    [reflexivity | discriminate | reflexivity | reflexivity |].
  destruct (H2 2 eq_refl) as [_ H3].
  exact (H3 eq_refl I I I).
Defined.

End Classify.

(** C1, as stated, fails: a POST whose [request_id] is the one the session
    saw last is answered by the duplicate-submission guard before anything
    is written, so the file it carries, allowed extension and genuine image
    or not, is not saved at all. *)
Lemma duplicate_upload_counterexample :
  allowed_file "photo.png" = true
  /\ Sample.pil_format Sample.png_bytes = Some "PNG"
  /\ Sample.index_post (Sample.post "req-1" "photo.png" Sample.png_bytes)
       Sample.state0
     = ({| location := ToIndexShowResult; flashed := [] |}, Sample.state0)
  /\ uploads Sample.state0 !! "photo_1a2b3c4d.png" = None.
Proof. repeat split; reflexivity. Qed.

Lemma upload_keeps_bytes_witness :
  let req := Sample.post "req-2" "photo.jpg" Sample.png_bytes in
  let filename := "photo_1a2b3c4d.jpg" in
  let saved := <[filename := Sample.png_bytes]> (uploads Sample.state0) in
  let st' := snd (Sample.index_post req Sample.state0) in
  saved !! filename = Some Sample.png_bytes
  /\ detect_image_ext Sample.pil_format saved filename
     = ext_of_bytes Sample.pil_format Sample.png_bytes
  /\ (ext_of_bytes Sample.pil_format Sample.png_bytes = None ->
      uploads st' !! filename = None
      /\ last_detection (sess st') = last_detection (sess Sample.state0))
  /\ (forall real_ext,
        ext_of_bytes Sample.pil_format Sample.png_bytes = Some real_ext ->
        let stored := stored_name filename real_ext in
        uploads st' !! stored = Some Sample.png_bytes
        /\ (stored <> filename ->
            stored = fst (splitext filename) +:+ "." +:+ real_ext
            /\ uploads st' !! filename = None)
        /\ (forall other, other <> filename -> other <> stored ->
                          uploads st' !! other
                          = uploads Sample.state0 !! other)
        /\ (forall d, last_detection (sess st') = Some (Some d) ->
                      original_image d = stored)).
Proof.
  exact (upload_keeps_bytes unit unit unit unit Sample.secure_filename
           Sample.pil_format Sample.detect
           (Sample.post "req-2" "photo.jpg" Sample.png_bytes) Sample.state0
           "photo.jpg" Sample.png_bytes eq_refl eq_refl eq_refl).
Defined.

Lemma unsupported_format_rejected_witness :
  let req := Sample.post "req-2" "photo.jpg" Sample.bmp_bytes in
  let filename := "photo_1a2b3c4d.jpg" in
  detect_image_ext Sample.pil_format
    (<[filename := Sample.bmp_bytes]> (uploads Sample.state0)) filename = None
  /\ uploads (snd (Sample.index_post req Sample.state0)) !! filename = None
  /\ last_detection (sess (snd (Sample.index_post req Sample.state0)))
     = last_detection (sess Sample.state0)
  /\ fst (Sample.index_post req Sample.state0)
     = {| location := ToRequestUrl;
          flashed := ["이미지 파일이 아니거나 손상된 파일입니다."] |}
  /\ (forall junk, Sample.pil_format junk = None ->
        Sample.index_post (with_photo "photo.jpg" junk req) Sample.state0
        = Sample.index_post req Sample.state0).
Proof.
  exact (unsupported_format_rejected unit unit unit unit
           Sample.secure_filename Sample.pil_format Sample.detect
           (Sample.post "req-2" "photo.jpg" Sample.bmp_bytes) Sample.state0
           "photo.jpg" Sample.bmp_bytes "BMP"
           eq_refl eq_refl eq_refl eq_refl eq_refl eq_refl).
Defined.

End Demo.

(** ** Social storage: comments, and how likes and comments coexist
    (utils/social_storage.py) *)

Module SocialComments.
Import PyStr SocialStorage.

(** [get_comments]. *)
Definition get_comments (st : storage) (filename : string) : list comment :=
  match _load_data st !! filename with
  | Some fd => default [] (comments fd)
  | None => []
  end.

(** [add_comment]; [now] is [datetime.now().isoformat()]. *)
Definition add_comment (st : storage) (filename comment_text : string)
  (user_id : option string) (now : string) : comment * storage :=
  let data := _load_data st in
  let data :=
    match data !! filename with
    | Some _ => data
    | None => <[filename := {| likes := Some []; comments := Some [] |}]> data
    end in
  let fd := default {| likes := Some []; comments := Some [] |}
                    (data !! filename) in
  let old := default [] (comments fd) in
  let new_comment :=
    {| c_id := length old + 1; c_user_id := or_anonymous user_id;
       c_text := comment_text; c_timestamp := now |} in
  let fd := {| likes := likes fd; comments := Some (old ++ [new_comment]) |} in
  (new_comment, _save_data st (<[filename := fd]> data)).

(** The dictionary [add_comment] hands to [_save_data]. *)
Definition commented (data : gmap string file_data) (filename : string)
  (c : comment) : gmap string file_data :=
  <[filename :=
      {| likes := match data !! filename with
                  | Some fd => likes fd
                  | None => Some []
                  end;
         comments := Some (match data !! filename with
                           | Some fd => default [] (comments fd)
                           | None => []
                           end ++ [c]) |}]> data.

Lemma add_comment_unfold (st : storage) (filename comment_text : string)
  (user_id : option string) (now : string) :
  add_comment st filename comment_text user_id now
  = let c := {| c_id := length (get_comments st filename) + 1;
                c_user_id := or_anonymous user_id;
                c_text := comment_text; c_timestamp := now |} in
    (c, _save_data st (commented (_load_data st) filename c)).
Proof.
  unfold add_comment, get_comments, commented.
  destruct (_load_data st !! filename) as [fd|] eqn:E.
  - rewrite E. reflexivity.
  - rewrite lookup_insert_eq. cbn [from_option id likes comments].
    rewrite insert_insert_eq. reflexivity.
Qed.

Lemma encodable_commented (data : gmap string file_data) (filename : string)
  (c : comment) :
  encodable_data data -> encodable filename = true ->
  encodable_comment c = true ->
  encodable_data (commented data filename c).
Proof.
  intros He Hf Hc. unfold commented.
  destruct (data !! filename) as [fd|] eqn:E.
  - destruct (encodable_data_lookup _ _ _ He E) as (_ & Hl & Hcs).
    apply encodable_data_insert; try assumption.
    cbn [comments from_option id]. rewrite forallb_app, Hcs. cbn.
    now rewrite Hc.
  - apply encodable_data_insert; try assumption; cbn; now rewrite ?Hc.
Qed.

(** The comment ids of a file count up from one. *)
Definition numbered (st : storage) (filename : string) : Prop :=
  List.map c_id (get_comments st filename)
  = seq 1 (length (get_comments st filename)).

(** [add_comment] answers a comment whose id is the number of comments
    the file had plus one, with the text and the identifier given
    ("anonymous" when there is none), whether or not it can be stored.  When
    the file can be written and every text, old and new, can be encoded, the
    comment is appended to the comments of the file; the comments of every
    other file and the likes of every file are as they were; and ids that
    count up from one keep doing so.  When the file cannot be written,
    nothing is stored. *)
Theorem add_comment_sequential (st : storage) (filename comment_text : string)
  (user_id : option string) (now : string) :
  let c := fst (add_comment st filename comment_text user_id now) in
  let st' := snd (add_comment st filename comment_text user_id now) in
  c_id c = length (get_comments st filename) + 1
  /\ c_text c = comment_text
  /\ c_user_id c = default "anonymous" user_id
  /\ (writable st = false -> st' = st)
  /\ (writable st = true ->
      encodable_data (_load_data st) ->
      encodable filename = true ->
      encodable comment_text = true ->
      encodable (default "anonymous" user_id) = true ->
      encodable now = true ->
      get_comments st' filename = get_comments st filename ++ [c]
      /\ (forall other, other <> filename ->
            get_comments st' other = get_comments st other)
      /\ (forall any,
            likes_of (_load_data st') any = likes_of (_load_data st) any)
      /\ (numbered st filename -> numbered st' filename)).
Proof.
  rewrite add_comment_unfold. cbn zeta. cbn [fst snd].
  set (c := {| c_id := length (get_comments st filename) + 1;
               c_user_id := or_anonymous user_id;
               c_text := comment_text; c_timestamp := now |}).
  split; [reflexivity|]. split; [reflexivity|]. split; [reflexivity|].
  split; [intros Hw; unfold _save_data; now rewrite Hw|].
  intros Hw He Hf Ht Hu Hn.
  assert (Hc : encodable_comment c = true).
  { unfold encodable_comment, c. cbn. unfold or_anonymous.
    now rewrite Hu, Ht, Hn. }
  rewrite (_save_data_ok _ _ Hw (encodable_commented _ _ _ He Hf Hc)).
  assert (Hget : get_comments
                   {| file := Some (commented (_load_data st) filename c);
                      writable := true |} filename
                 = get_comments st filename ++ [c]).
  { unfold get_comments at 1, commented. cbn [_load_data file from_option id].
    rewrite lookup_insert_eq. reflexivity. }
  split; [exact Hget|]. split; [|split].
  - intros other Hne. unfold get_comments, commented.
    cbn [_load_data file from_option id]. now rewrite lookup_insert_ne.
  - intros any. unfold likes_of, commented.
    cbn [_load_data file from_option id].
    destruct (decide (filename = any)) as [<-|Hne].
    + rewrite lookup_insert_eq. cbn [likes].
      now destruct (_ !! filename).
    + now rewrite lookup_insert_ne.
  - unfold numbered. rewrite Hget. intros Hnum.
    rewrite map_app, length_app, Hnum. cbn [List.map length c_id c].
    rewrite Nat.add_1_r, seq_S. reflexivity.
Qed.

Definition one_comment : storage :=
  {| file :=
       Some {[ "b.jpg" := {| likes := Some ["1.2.3.4"];
                             comments :=
                               Some [ {| c_id := 1; c_user_id := "5.6.7.8";
                                         c_text := "first";
                                         c_timestamp := "2025-06-01T10:00:00" |} ] |} ]};
     writable := true |}.

Lemma one_comment_encodable : encodable_data (_load_data one_comment).
Proof.
  intros filename fd Hl. cbn in Hl.
  apply lookup_singleton_Some in Hl as [<- <-]. reflexivity.
Qed.

Lemma add_comment_sequential_witness :
  let st := one_comment in
  let c := fst (add_comment st "a.jpg" "nice wasp" None "2025-06-01T10:05:00") in
  let st' := snd (add_comment st "a.jpg" "nice wasp" None "2025-06-01T10:05:00") in
  c_id c = length (get_comments st "a.jpg") + 1
  /\ c_text c = "nice wasp"
  /\ c_user_id c = default "anonymous" None
  /\ get_comments st' "a.jpg" = get_comments st "a.jpg" ++ [c]
  /\ (forall other, other <> "a.jpg" ->
        get_comments st' other = get_comments st other)
  /\ (forall any, likes_of (_load_data st') any = likes_of (_load_data st) any)
  /\ (numbered st "a.jpg" -> numbered st' "a.jpg").
Proof.
  destruct (add_comment_sequential one_comment "a.jpg" "nice wasp" None
              "2025-06-01T10:05:00") as (H1 & H2 & H3 & _ & H).
  split; [exact H1|]. split; [exact H2|]. split; [exact H3|].
  apply H; try reflexivity. exact one_comment_encodable.
Defined.

Example first_comment_of_second_image :
  c_id (fst (add_comment one_comment "a.jpg" "hello" (Some "1.2.3.4") "now"))
  = 1.
Proof. vm_compute. reflexivity. Qed.

(** A comment text with a lone surrogate (the JSON escape of U+D800) is
    answered like any other, but the file it was to be stored in is left
    truncated: the comments and likes of every image read as none. *)
Example unencodable_comment_empties_the_store :
  let odd := String "237" (String "160" (String "128" EmptyString)) in
  let st' := snd (add_comment one_comment "a.jpg" odd None "now") in
  c_id (fst (add_comment one_comment "a.jpg" odd None "now")) = 1
  /\ get_comments one_comment "b.jpg" <> []
  /\ get_comments st' "b.jpg" = []
  /\ get_comments st' "a.jpg" = []
  /\ likes_of (_load_data st') "b.jpg" = [].
Proof. vm_compute. repeat split; try reflexivity. discriminate. Qed.

Lemma remove_first_NoDup (x : string) (l : list string) :
  NoDup l -> NoDup (remove_first x l) /\ x ∉ remove_first x l.
Proof.
  induction 1 as [|y l Hy Hl IH]; simpl.
  - split; [constructor | apply not_elem_of_nil].
  - destruct (decide (x = y)) as [->|Hne].
    + split; assumption.
    + destruct IH as [IH1 IH2]. split.
      * constructor; [|exact IH1]. intros Hin. apply Hy.
        clear -Hin. induction l as [|z l IHl]; simpl in Hin.
        { now apply elem_of_nil in Hin. }
        destruct (decide (x = z)).
        { now right. }
        apply elem_of_cons in Hin as [->|Hin]; [left | right; auto].
      * intros Hin. apply elem_of_cons in Hin as [?|?]; auto.
Qed.

Lemma remove_first_length (x : string) (l : list string) :
  x ∈ l -> S (length (remove_first x l)) = length l.
Proof.
  induction l as [|y l IH]; simpl; intros Hin.
  - now apply elem_of_nil in Hin.
  - destruct (decide (x = y)); [reflexivity|].
    apply elem_of_cons in Hin as [?|Hin]; [contradiction|].
    simpl. now rewrite IH.
Qed.

(** The dictionary [toggle_like] hands to [_save_data]. *)
Definition toggled (data : gmap string file_data) (filename uid : string)
  : gmap string file_data :=
  let old := likes_of data filename in
  <[filename :=
      {| likes := Some (if bool_decide (uid ∈ old) then remove_first uid old
                        else old ++ [uid]);
         comments := match data !! filename with
                     | Some fd => comments fd
                     | None => Some []
                     end |}]> data.

Lemma toggle_like_unfold (st : storage) (filename : string)
  (user_id : option string) :
  toggle_like st filename user_id
  = let old := likes_of (_load_data st) filename in
    let uid := or_anonymous user_id in
    let new := if bool_decide (uid ∈ old) then remove_first uid old
               else old ++ [uid] in
    ({| liked := negb (bool_decide (uid ∈ old)); count := length new |},
     _save_data st (toggled (_load_data st) filename uid)).
Proof.
  unfold toggle_like, toggled, likes_of.
  destruct (_load_data st !! filename) as [fd|] eqn:E.
  - rewrite E. cbn [from_option id].
    destruct (bool_decide _); reflexivity.
  - rewrite lookup_insert_eq. cbn [from_option id likes comments].
    destruct (bool_decide _); cbn; rewrite insert_insert_eq; reflexivity.
Qed.

Lemma remove_first_forallb (f : string -> bool) (x : string) (l : list string) :
  forallb f l = true -> forallb f (remove_first x l) = true.
Proof.
  induction l as [|y l IH]; simpl; [trivial|].
  intros H. apply andb_true_iff in H as [Hy Hl].
  destruct (decide (x = y)); [exact Hl|].
  simpl. now rewrite Hy, IH.
Qed.

Lemma encodable_toggled (data : gmap string file_data)
  (filename uid : string) :
  encodable_data data -> encodable filename = true -> encodable uid = true ->
  encodable_data (toggled data filename uid).
Proof.
  intros He Hf Hu. unfold toggled, likes_of.
  destruct (data !! filename) as [fd|] eqn:E.
  - destruct (encodable_data_lookup _ _ _ He E) as (_ & Hl & Hc).
    apply encodable_data_insert; try assumption.
    cbn [likes from_option id].
    destruct (bool_decide _).
    + now apply remove_first_forallb.
    + rewrite forallb_app, Hl. cbn. now rewrite Hu.
  - apply encodable_data_insert; try assumption; [|reflexivity].
    cbn [likes from_option id].
    destruct (bool_decide _); cbn; now rewrite ?Hu.
Qed.

(** [toggle_like] answers the opposite of what [is_liked] reported, with a
    count one above or one below the count before when the file's likes
    hold no identifier twice, whether or not the change can be stored.
    When the file can be written and every text can be encoded, the likes
    still hold no identifier twice, [is_liked] and [get_likes] report what
    was answered, and neither any file's comments nor another file's likes
    are touched.  When the file cannot be written, nothing is stored, and
    [is_liked] and [get_likes] report what they did before. *)
Theorem toggle_like_consistent (st : storage) (filename : string)
  (user_id : option string) :
  NoDup (likes_of (_load_data st) filename) ->
  let r := fst (toggle_like st filename user_id) in
  let st' := snd (toggle_like st filename user_id) in
  liked r = negb (is_liked st filename user_id)
  /\ (if liked r then count r = S (get_likes st filename)
      else S (count r) = get_likes st filename)
  /\ (writable st = false -> st' = st)
  /\ (writable st = true ->
      encodable_data (_load_data st) ->
      encodable filename = true ->
      encodable (default "anonymous" user_id) = true ->
      NoDup (likes_of (_load_data st') filename)
      /\ is_liked st' filename user_id = liked r
      /\ get_likes st' filename = count r
      /\ (forall any, get_comments st' any = get_comments st any)
      /\ (forall other, other <> filename ->
            likes_of (_load_data st') other = likes_of (_load_data st) other)).
Proof.
  intros Hnd. rewrite toggle_like_unfold. cbn zeta. cbn [fst snd liked count].
  unfold is_liked, get_likes.
  set (old := likes_of (_load_data st) filename) in *.
  set (uid := or_anonymous user_id).
  set (new := if bool_decide (uid ∈ old) then remove_first uid old
              else old ++ [uid]).
  assert (Hnew : NoDup new
                 /\ bool_decide (uid ∈ new) = negb (bool_decide (uid ∈ old))
                 /\ (if negb (bool_decide (uid ∈ old))
                     then length new = S (length old)
                     else S (length new) = length old)).
  { subst new. destruct (bool_decide (uid ∈ old)) eqn:Hin; cbn [negb].
    - apply bool_decide_eq_true in Hin.
      destruct (remove_first_NoDup uid old Hnd) as [H1 H2].
      split; [exact H1|]. split; [now apply bool_decide_eq_false|].
      now apply remove_first_length.
    - apply bool_decide_eq_false in Hin. split; [|split].
      + apply NoDup_app. repeat split; [exact Hnd | | apply NoDup_singleton].
        intros x Hx Hx'. apply list_elem_of_singleton in Hx' as ->.
        contradiction.
      + apply bool_decide_eq_true. apply elem_of_app. right. left.
      + rewrite length_app. simpl. lia. }
  destruct Hnew as (H1 & H2 & H3).
  split; [reflexivity|]. split; [exact H3|].
  split; [intros Hw; unfold _save_data; now rewrite Hw|].
  intros Hw He Hf Hu.
  rewrite (_save_data_ok st (toggled (_load_data st) filename uid) Hw
             (encodable_toggled _ filename uid He Hf Hu)).
  assert (Hlikes : likes_of
            (_load_data {| file := Some (toggled (_load_data st) filename uid);
                           writable := true |}) filename = new).
  { unfold likes_of at 1, toggled. cbn [_load_data file from_option id].
    now rewrite lookup_insert_eq. }
  rewrite !Hlikes.
  repeat split; try assumption.
  - intros any. unfold get_comments, toggled.
    cbn [_load_data file from_option id].
    destruct (decide (filename = any)) as [<-|Hne].
    + rewrite lookup_insert_eq. cbn [comments].
      now destruct (_ !! filename).
    + now rewrite lookup_insert_ne.
  - intros other Hne. unfold likes_of at 1, toggled.
    cbn [_load_data file from_option id].
    now rewrite lookup_insert_ne by congruence.
Qed.

Definition two_likes : storage :=
  {| file := Some {[ "a.jpg" := {| likes := Some ["5.6.7.8"; "1.2.3.4"];
                                   comments := None |} ]};
     writable := true |}.

Lemma two_likes_encodable : encodable_data (_load_data two_likes).
Proof.
  intros filename fd Hl. cbn in Hl.
  apply lookup_singleton_Some in Hl as [<- <-]. reflexivity.
Qed.

Lemma toggle_like_consistent_witness :
  let st := two_likes in
  let r := fst (toggle_like st "a.jpg" (Some "1.2.3.4")) in
  let st' := snd (toggle_like st "a.jpg" (Some "1.2.3.4")) in
  liked r = negb (is_liked st "a.jpg" (Some "1.2.3.4"))
  /\ (if liked r then count r = S (get_likes st "a.jpg")
      else S (count r) = get_likes st "a.jpg")
  /\ NoDup (likes_of (_load_data st') "a.jpg")
  /\ is_liked st' "a.jpg" (Some "1.2.3.4") = liked r
  /\ get_likes st' "a.jpg" = count r
  /\ (forall any, get_comments st' any = get_comments st any)
  /\ (forall other, other <> "a.jpg" ->
        likes_of (_load_data st') other = likes_of (_load_data st) other).
Proof.
  destruct (toggle_like_consistent two_likes "a.jpg" (Some "1.2.3.4"))
    as (H1 & H2 & _ & H).
  { apply (bool_decide_unpack _). vm_compute. reflexivity. }
  split; [exact H1|]. split; [exact H2|].
  apply H; try reflexivity. exact two_likes_encodable.
Defined.

(** Without that, a like can survive its removal: [list.remove] drops one
    occurrence only. *)
Example duplicate_like_survives :
  let st : storage :=
    {| file := Some {[ "a.jpg" := {| likes := Some ["1.2.3.4"; "1.2.3.4"];
                                     comments := None |} ]};
       writable := true |} in
  fst (toggle_like st "a.jpg" (Some "1.2.3.4"))
  = {| liked := false; count := 1 |}
  /\ is_liked (snd (toggle_like st "a.jpg" (Some "1.2.3.4"))) "a.jpg"
       (Some "1.2.3.4") = true.
Proof. vm_compute. split; reflexivity. Qed.

End SocialComments.

(** ** Classification storage (utils/classification_storage.py) *)

Module ClassificationStorage.
Import PyStr Whitelist.

(** What [json.dump(..., ensure_ascii=False)] can write of a value: every
    text in it can be encoded. *)
Fixpoint json_encodable (v : json) : bool :=
  match v with
  | JStr s => encodable s
  | JList items => forallb json_encodable items
  | JDict members =>
      forallb (fun kv => encodable (fst kv) && json_encodable (snd kv)) members
  | _ => true
  end.

Definition encodable_record (record : gmap string json) : Prop :=
  map_Forall (fun key v => encodable key && json_encodable v = true) record.

Definition encodable_data (data : gmap string (gmap string json)) : Prop :=
  map_Forall (fun filename record =>
                encodable filename = true /\ encodable_record record) data.

(** classifications.json: its content, [None] when it cannot be opened or
    parsed ([_load_data] then answers the empty dictionary), and whether it
    can be opened for writing.  The dictionary goes from file name to
    record; a record is a dictionary of JSON values. *)
Record storage := {
  file : option (gmap string (gmap string json));
  writable : bool
}.

Definition _load_data (st : storage) : gmap string (gmap string json) :=
  default ∅ (file st).

(** [_save_data]: every error is caught and printed.  When the file cannot
    be opened it stays as it was; when [json.dump] raises, the file has
    been truncated by then and no longer parses. *)
Definition _save_data (st : storage) (data : gmap string (gmap string json))
  : storage :=
  if writable st then
    {| file := if decide (encodable_data data) then Some data else None;
       writable := true |}
  else st.

(** The record as [save_classification] stamps it, in place, in the
    caller's dictionary. *)
Definition stamped (filename : string) (classification_data : gmap string json)
  (now : string) : gmap string json :=
  <["filename" := JStr filename]>
    (<["timestamp" := JStr now]> classification_data).

(** [save_classification]; [now] is [datetime.now().isoformat()]. *)
Definition save_classification (st : storage) (filename : string)
  (classification_data : gmap string json) (now : string)
  : gmap string json * storage :=
  let data := _load_data st in
  let classification_data := stamped filename classification_data now in
  (classification_data,
   _save_data st (<[filename := classification_data]> data)).

Definition get_classification (st : storage) (filename : string)
  : option (gmap string json) :=
  _load_data st !! filename.

Definition get_all_classifications (st : storage)
  : gmap string (gmap string json) := _load_data st.

Definition delete_classification (st : storage) (filename : string) : storage :=
  let data := _load_data st in
  match data !! filename with
  | Some _ => _save_data st (delete filename data)
  | None => st
  end.

Definition clear_all (st : storage) : storage := _save_data st ∅.

Lemma _save_data_written (st : storage) (data : gmap string (gmap string json)) :
  writable st = true -> encodable_data data ->
  _save_data st data = {| file := Some data; writable := true |}.
Proof.
  intros Hw He. unfold _save_data. rewrite Hw.
  now rewrite decide_True by exact He.
Qed.

Lemma encodable_stamped (filename : string)
  (classification_data : gmap string json) (now : string) :
  encodable filename = true -> encodable now = true ->
  encodable_record classification_data ->
  encodable_record (stamped filename classification_data now).
Proof.
  intros Hf Hn Hr. unfold stamped.
  apply map_Forall_insert_2; [cbn; now rewrite Hf|].
  apply map_Forall_insert_2; [cbn; now rewrite Hn|]. exact Hr.
Qed.

Lemma encodable_delete (data : gmap string (gmap string json))
  (filename : string) :
  encodable_data data -> encodable_data (delete filename data).
Proof. apply map_Forall_delete. Qed.

(** What is read back after [save_classification] on a file that can be
    written, with texts that can be encoded: the data as given, except that
    ['timestamp'] is the time of the save and ['filename'] is the key it was
    saved under, whatever the caller had put there; the records under other
    keys are untouched, and nothing of a record saved earlier under the same
    key survives.  On a file that cannot be written the stamped record is
    still what the caller is left with, but nothing is stored. *)
Theorem save_then_get (st : storage) (filename : string)
  (classification_data : gmap string json) (now : string) :
  let record := fst (save_classification st filename classification_data now) in
  let st' := snd (save_classification st filename classification_data now) in
  record !! "filename" = Some (JStr filename)
  /\ record !! "timestamp" = Some (JStr now)
  /\ (forall key, key <> "filename" -> key <> "timestamp" ->
        record !! key = classification_data !! key)
  /\ (writable st = false -> st' = st)
  /\ (writable st = true ->
      encodable_data (_load_data st) ->
      encodable filename = true ->
      encodable now = true ->
      encodable_record classification_data ->
      get_classification st' filename = Some record
      /\ (forall other, other <> filename ->
            get_classification st' other = get_classification st other)
      /\ (forall later_data later,
            encodable later = true ->
            encodable_record later_data ->
            get_classification
              (snd (save_classification st' filename later_data later))
              filename
            = Some (stamped filename later_data later))).
Proof.
  unfold save_classification, get_classification. cbn zeta. cbn [fst snd].
  split; [apply lookup_insert_eq|].
  split; [unfold stamped; rewrite lookup_insert_ne by discriminate;
          apply lookup_insert_eq|].
  split; [intros key H1 H2; unfold stamped;
          now rewrite !lookup_insert_ne by congruence|].
  split; [intros Hw; unfold _save_data; now rewrite Hw|].
  intros Hw He Hf Hn Hr.
  assert (He1 : encodable_data
                  (<[filename := stamped filename classification_data now]>
                     (_load_data st))).
  { apply map_Forall_insert_2; [|exact He].
    split; [exact Hf | now apply encodable_stamped]. }
  rewrite (_save_data_written _ _ Hw He1). cbn [_load_data file from_option id].
  split; [apply lookup_insert_eq|].
  split; [intros other Hne; now rewrite lookup_insert_ne by congruence|].
  intros later_data later Hl Hlr.
  rewrite insert_insert_eq.
  rewrite (_save_data_written {| file := _; writable := true |} _ eq_refl).
  - cbn [_load_data file from_option id]. apply lookup_insert_eq.
  - apply map_Forall_insert_2; [|exact He].
    split; [exact Hf | now apply encodable_stamped].
Qed.

Definition empty_store : storage := {| file := Some ∅; writable := true |}.

Definition wasp_data : gmap string json :=
  {[ "filename" := JStr "wasp.jpg"; "species" := JStr "장수말벌" ]}.

Lemma wasp_data_encodable : encodable_record wasp_data.
Proof.
  intros key v Hl. unfold wasp_data in Hl.
  apply lookup_insert_Some in Hl as [[<- <-]|[_ Hl]]; [reflexivity|].
  apply lookup_singleton_Some in Hl as [<- <-]. reflexivity.
Qed.

Lemma save_then_get_witness :
  let record :=
    fst (save_classification empty_store "wasp_insect0.jpg" wasp_data
           "2025-06-01T10:00:00") in
  let st' :=
    snd (save_classification empty_store "wasp_insect0.jpg" wasp_data
           "2025-06-01T10:00:00") in
  record !! "filename" = Some (JStr "wasp_insect0.jpg")
  /\ record !! "timestamp" = Some (JStr "2025-06-01T10:00:00")
  /\ get_classification st' "wasp_insect0.jpg" = Some record
  /\ (forall other, other <> "wasp_insect0.jpg" ->
        get_classification st' other = get_classification empty_store other).
Proof.
  destruct (save_then_get empty_store "wasp_insect0.jpg" wasp_data
              "2025-06-01T10:00:00") as (H1 & H2 & _ & _ & H).
  split; [exact H1|]. split; [exact H2|].
  destruct H as (H3 & H4 & _); try reflexivity.
  - intros filename record Hl. discriminate Hl.
  - exact wasp_data_encodable.
  - split; [exact H3 | exact H4].
Defined.

(** The route stores the original file name in the data and saves it under
    the indexed key: the stored ['filename'] is the indexed key. *)
Example filename_field_is_the_key :
  get_classification
    (snd (save_classification empty_store "wasp_insect0.jpg" wasp_data
            "2025-06-01T10:00:00"))
    "wasp_insect0.jpg"
  = Some {[ "filename" := JStr "wasp_insect0.jpg";
            "species" := JStr "장수말벌";
            "timestamp" := JStr "2025-06-01T10:00:00" ]}.
Proof. vm_compute. reflexivity. Qed.

(** On a file that can be written, with texts that can be encoded: after
    [delete_classification] the key reads as absent and every other key as
    before; [clear_all] leaves nothing; and a record deleted after being
    saved under a new key is gone while the rest of the storage is as it was
    before the save.  Deleting an absent key does not write the file, and
    on a file that cannot be written neither [delete_classification] nor
    [clear_all] changes anything. *)
Theorem delete_then_get (st : storage) (filename : string) :
  (get_classification st filename = None ->
   delete_classification st filename = st)
  /\ (writable st = false ->
      delete_classification st filename = st /\ clear_all st = st)
  /\ (writable st = true ->
      encodable_data (_load_data st) ->
      get_classification (delete_classification st filename) filename = None
      /\ (forall other, other <> filename ->
            get_classification (delete_classification st filename) other
            = get_classification st other)
      /\ (forall any, get_classification (clear_all st) any = None)
      /\ (forall data now any,
            encodable filename = true ->
            encodable now = true ->
            encodable_record data ->
            get_classification st filename = None ->
            get_classification
              (delete_classification
                 (snd (save_classification st filename data now)) filename) any
            = get_classification st any)).
Proof.
  unfold delete_classification, get_classification, clear_all,
    save_classification.
  split; [now intros ->|]. split.
  - intros Hw. unfold _save_data. rewrite Hw.
    split; [now destruct (_load_data st !! filename) | reflexivity].
  - intros Hw He. split; [|split; [|split]].
    + destruct (_load_data st !! filename) eqn:E; [|exact E].
      rewrite (_save_data_written _ _ Hw (encodable_delete _ _ He)).
      cbn [_load_data file from_option id]. apply lookup_delete_eq.
    + intros other Hne. destruct (_load_data st !! filename); [|reflexivity].
      rewrite (_save_data_written _ _ Hw (encodable_delete _ _ He)).
      cbn [_load_data file from_option id].
      now rewrite lookup_delete_ne by congruence.
    + intros any. rewrite (_save_data_written _ _ Hw); [|apply map_Forall_empty].
      cbn [_load_data file from_option id]. apply lookup_empty.
    + intros data now any Hf Hn Hr Hnone. cbn [snd].
      assert (He1 : encodable_data
                      (<[filename := stamped filename data now]>
                         (_load_data st))).
      { apply map_Forall_insert_2; [|exact He].
        split; [exact Hf | now apply encodable_stamped]. }
      rewrite (_save_data_written _ _ Hw He1). cbn [_load_data file from_option id].
      rewrite lookup_insert_eq.
      rewrite (_save_data_written {| file := _; writable := true |} _ eq_refl
                 (encodable_delete _ _ He1)).
      cbn [_load_data file from_option id].
      rewrite delete_insert_eq.
      destruct (decide (filename = any)) as [<-|Hne].
      * now rewrite lookup_delete_eq.
      * now rewrite lookup_delete_ne.
Qed.

Definition bee_store : storage :=
  {| file := Some {[ "bee.jpg" := {[ "species" := JStr "꿀벌" ]} ]};
     writable := true |}.

Lemma bee_store_encodable : encodable_data (_load_data bee_store).
Proof.
  intros filename record Hl. cbn in Hl.
  apply lookup_singleton_Some in Hl as [<- <-].
  split; [reflexivity|]. intros key v Hk.
  apply lookup_singleton_Some in Hk as [<- <-]. reflexivity.
Qed.

Lemma delete_then_get_witness :
  get_classification (delete_classification bee_store "bee.jpg") "bee.jpg"
  = None
  /\ get_classification bee_store "bee.jpg" <> None
  /\ (forall other, other <> "bee.jpg" ->
        get_classification (delete_classification bee_store "bee.jpg") other
        = get_classification bee_store other)
  /\ (forall any, get_classification (clear_all bee_store) any = None).
Proof.
  destruct (delete_then_get bee_store "bee.jpg") as (_ & _ & H).
  destruct (H eq_refl bee_store_encodable) as (H1 & H2 & H3 & _).
  split; [exact H1|]. split; [discriminate|].
  split; [exact H2 | exact H3].
Defined.

(** A record whose text cannot be encoded (a lone surrogate, U+D800) is
    not stored, and takes the records of the other images with it: the file
    is left truncated and reads as empty. *)
Example unencodable_record_empties_the_store :
  let odd := String "237" (String "160" (String "128" EmptyString)) in
  let st' := snd (save_classification bee_store "wasp.jpg"
                    {[ "species" := JStr odd ]} "2025-06-01T10:00:00") in
  get_classification bee_store "bee.jpg" <> None
  /\ get_classification st' "wasp.jpg" = None
  /\ get_classification st' "bee.jpg" = None.
Proof. vm_compute. repeat split; try reflexivity. discriminate. Qed.

End ClassificationStorage.

(** ** Request screening: what the pattern lists can and cannot report
    (src/ip_blacklist_enhanced.py) *)

Module Screening.
Import PyStr Blacklist.

Lemma lower_ascii_idem (c : ascii) : lower_ascii (lower_ascii c) = lower_ascii c.
Proof. destruct c as [[] [] [] [] [] [] [] []]; reflexivity. Qed.

Lemma lower_idem (s : string) : lower (lower s) = lower s.
Proof.
  induction s as [|c s IH]; [reflexivity|].
  cbn [lower]. now rewrite lower_ascii_idem, IH.
Qed.

Lemma prefix_lowered (p t : string) :
  String.prefix p (lower t) = true -> lower p = p.
Proof.
  revert t. induction p as [|c p IH]; intros t H; [reflexivity|].
  destruct t as [|d t]; [discriminate|].
  cbn [lower String.prefix] in H.
  destruct (ascii_dec c (lower_ascii d)) as [->|]; [|discriminate].
  cbn [lower]. now rewrite lower_ascii_idem, (IH t H).
Qed.

(** Whatever is found in lowered text is itself in lower case. *)
Lemma contains_lowered (p t : string) :
  contains p (lower t) = true -> lower p = p.
Proof.
  induction t as [|d t IH]; intros H.
  - apply (prefix_lowered p EmptyString).
    change (String.prefix p EmptyString || false = true) in H.
    now rewrite orb_false_r in H.
  - change (String.prefix p (lower (String d t)) || contains p (lower t) = true)
      in H.
    apply orb_true_iff in H as [H|H]; [now apply prefix_lowered in H | auto].
Qed.

Lemma append_inv_head (a x y : string) : a +:+ x = a +:+ y -> x = y.
Proof.
  induction a as [|c a IH]; intros H; [exact H|].
  apply IH. now injection H.
Qed.

(** The path-only part of the screening: none of the checks that read the
    path alone fires. *)
Definition path_clean (path : string) : bool :=
  negb (existsb (fun p => contains p (lower path))
          (malicious_paths ++ malicious_urls ++ sql_patterns ++ xss_patterns
           ++ traversal_patterns ++ cmd_patterns))
  && (len path <=? 1000)%nat
  && negb (any_char is_binary_char path)
  && negb (existsb (fun p => contains p path) suspicious_prefixes)
  && negb (has_ip_pattern path && negb (startswith path "/api/storage-image/")).

Lemma find_existsb {A} (f : A -> bool) (l : list A) :
  existsb f l = match find f l with Some _ => true | None => false end.
Proof.
  induction l as [|x l IH]; simpl; [reflexivity|].
  destruct (f x); [reflexivity | exact IH].
Qed.

Lemma existsb_orb {A} (f g : A -> bool) (l : list A) :
  existsb (fun x => f x || g x) l = existsb f l || existsb g l.
Proof.
  induction l as [|x l IH]; simpl; [reflexivity|].
  rewrite IH. destruct (f x), (g x), (existsb f l), (existsb g l); reflexivity.
Qed.

Lemma forallb_negb_existsb {A} (f : A -> bool) (l : list A) :
  forallb (fun x => negb (f x)) l = negb (existsb f l).
Proof.
  induction l as [|x l IH]; simpl; [reflexivity|].
  rewrite IH. now destruct (f x).
Qed.

Local Ltac fires :=
  split; [discriminate|];
  rewrite ?andb_true_iff; cbn [negb orb];
  intros; destruct_and?; congruence.

Lemma none_iff_clean (ip method path user_agent : string)
  (headers : list (string * string)) :
  is_malicious_pattern ip method path (Some user_agent) headers = None
  <-> normal_request method user_agent headers && path_clean path = true.
Proof.
  unfold is_malicious_pattern, normal_request, path_clean, first_in.
  rewrite !existsb_app, forallb_negb_existsb.
  replace (if truthy user_agent then lower user_agent else EmptyString)
    with (lower user_agent) by now destruct user_agent.
  rewrite !(find_existsb (fun p => contains p (lower path))).
  rewrite (find_existsb (fun p => contains p (lower user_agent))).
  rewrite (find_existsb (fun p => contains p method)).
  rewrite (find_existsb (fun p => contains p path)).
  rewrite (find_existsb (fun h => existsb (fun p => contains p (lower (fst h)))
                                    proxy_header_words) headers).
  assert (Hsus : existsb (fun p => contains p path) suspicious_prefixes
                 || existsb (fun p => contains p method) suspicious_prefixes
                 = match find (fun prefix => contains prefix path
                                             || contains prefix method)
                              suspicious_prefixes with
                   | Some _ => true | None => false end).
  { rewrite <- existsb_orb. apply find_existsb. }
  rewrite (find_existsb (fun p => contains p path)) in Hsus.
  rewrite (find_existsb (fun p => contains p method)) in Hsus.
  destruct (find (fun p => contains p (lower path)) malicious_paths);
    [fires|].
  destruct (mem method malicious_methods); [fires|].
  destruct (find (fun p => contains p (lower user_agent)) malicious_agents);
    [fires|].
  destruct (find (fun p => contains p (lower path)) malicious_urls);
    [fires|].
  destruct (find (fun p => contains p (lower path)) sql_patterns);
    [fires|].
  destruct (find (fun p => contains p (lower path)) xss_patterns);
    [fires|].
  destruct (find (fun p => contains p (lower path)) traversal_patterns);
    [fires|].
  destruct (find (fun p => contains p (lower path)) cmd_patterns);
    [fires|].
  destruct (find _ headers) as [[header_name header_value]|];
    [fires|].
  rewrite (Nat.leb_antisym 1000).
  destruct (1000 <? len path)%nat; [fires|].
  rewrite (Nat.leb_antisym 500).
  replace (truthy user_agent && (500 <? len user_agent)%nat)
    with (500 <? len user_agent)%nat
    by (destruct user_agent; [reflexivity | reflexivity]).
  destruct (500 <? len user_agent)%nat; [fires|].
  destruct (any_char is_binary_char path); [fires|].
  destruct (find (fun prefix => contains prefix path || contains prefix method)
              suspicious_prefixes).
  - apply orb_true_iff in Hsus as [H|H].
    + destruct (find (fun p => contains p path) suspicious_prefixes);
        [|discriminate].
      fires.
    + destruct (find (fun p => contains p method) suspicious_prefixes);
        [|discriminate].
      fires.
  - apply orb_false_iff in Hsus as [H1 H2].
    destruct (find (fun p => contains p path) suspicious_prefixes);
      [discriminate|].
    destruct (find (fun p => contains p method) suspicious_prefixes);
      [discriminate|].
    cbn [negb andb orb].
    destruct (has_ip_pattern path && negb (startswith path "/api/storage-image/"));
      easy.
Qed.

(** Two entries of the sensitive-path list are written with capitals and
    are compared with the lowered path: a probe for them goes unnoticed. *)
Example router_probes_pass :
  In "/HNAP1" malicious_paths /\ In "/GponForm" malicious_paths
  /\ is_malicious_pattern "203.0.113.9" "POST" "/HNAP1/" (Some browser_user_agent)
       browser_headers = None
  /\ is_malicious_pattern "203.0.113.9" "POST" "/GponForm/diag_Form"
       (Some browser_user_agent) browser_headers = None.
Proof.
  split; [simpl; tauto|]. split; [simpl; tauto|].
  split; vm_compute; reflexivity.
Qed.

Local Ltac other_reason :=
  let H := fresh in intros [= H]; cbn in H; congruence.

(** A sensitive-path reason names a listed pattern that does occur in the
    lowered path; the pattern is therefore in lower case, and the two
    entries with capitals are never the one reported. *)
Theorem sensitive_path_reason_sound (ip method path : string)
  (user_agent : option string) (headers : list (string * string))
  (pattern : string) :
  is_malicious_pattern ip method path user_agent headers
  = Some ("악성경로: " +:+ pattern) ->
  In pattern malicious_paths
  /\ contains pattern (lower path) = true
  /\ lower pattern = pattern
  /\ pattern <> "/HNAP1" /\ pattern <> "/GponForm".
Proof.
  unfold is_malicious_pattern.
  destruct (first_in malicious_paths (lower path)) as [q|] eqn:E1.
  - intros [= H]. apply append_inv_head in H. subst q.
    apply find_some in E1 as [Hin Hc].
    pose proof (contains_lowered _ _ Hc) as Hl.
    repeat split; try assumption; intros ->; discriminate Hl.
  - destruct (mem method malicious_methods); [other_reason|].
    destruct (first_in malicious_agents _); [other_reason|].
    destruct (first_in malicious_urls _); [other_reason|].
    destruct (first_in sql_patterns _); [other_reason|].
    destruct (first_in xss_patterns _); [other_reason|].
    destruct (first_in traversal_patterns _); [other_reason|].
    destruct (first_in cmd_patterns _); [other_reason|].
    destruct (find _ headers) as [[header_name header_value]|];
      [other_reason|].
    destruct (1000 <? len path)%nat; [other_reason|].
    destruct (match user_agent with
              | Some ua => truthy ua && (500 <? len ua)%nat
              | None => false
              end); [other_reason|].
    destruct (any_char is_binary_char path); [other_reason|].
    destruct (find _ suspicious_prefixes); [other_reason|].
    destruct (has_ip_pattern path && negb (startswith path "/api/storage-image/"));
      [other_reason | discriminate].
Qed.

Lemma sensitive_path_reason_sound_witness :
  In "/wp-admin" malicious_paths
  /\ contains "/wp-admin" (lower "/Blog/WP-Admin/setup.php") = true
  /\ lower "/wp-admin" = "/wp-admin"
  /\ "/wp-admin" <> "/HNAP1" /\ "/wp-admin" <> "/GponForm".
Proof.
  apply (sensitive_path_reason_sound "203.0.113.9" "GET"
           "/Blog/WP-Admin/setup.php" None [] "/wp-admin").
  reflexivity.
Defined.

Local Ltac truthy_reason := intros [= <-]; reflexivity.

(** Every reason is a non-empty text: the caller's test [if
    malicious_reason:] holds whenever a reason is returned. *)
Lemma reason_truthy (ip method path : string) (user_agent : option string)
  (headers : list (string * string)) (reason : string) :
  is_malicious_pattern ip method path user_agent headers = Some reason ->
  truthy reason = true.
Proof.
  unfold is_malicious_pattern.
  destruct (first_in malicious_paths _); [truthy_reason|].
  destruct (mem method malicious_methods); [truthy_reason|].
  destruct (first_in malicious_agents _); [truthy_reason|].
  destruct (first_in malicious_urls _); [truthy_reason|].
  destruct (first_in sql_patterns _); [truthy_reason|].
  destruct (first_in xss_patterns _); [truthy_reason|].
  destruct (first_in traversal_patterns _); [truthy_reason|].
  destruct (first_in cmd_patterns _); [truthy_reason|].
  destruct (find _ headers) as [[header_name header_value]|];
    [truthy_reason|].
  destruct (1000 <? len path)%nat; [truthy_reason|].
  destruct (match user_agent with
            | Some ua => truthy ua && (500 <? len ua)%nat
            | None => false
            end); [truthy_reason|].
  destruct (any_char is_binary_char path); [truthy_reason|].
  destruct (find _ suspicious_prefixes); [truthy_reason|].
  destruct (has_ip_pattern path && negb (startswith path "/api/storage-image/"));
    [truthy_reason | discriminate].
Qed.

(** Text of ASCII characters only, and text of characters up to U+00FF
    only, which is what a header decoded as latin-1 holds.  On an ASCII path
    [lower] is [str.lower] and the word boundaries of [has_ip_pattern] are
    those of [re]; on latin-1 text [lower] and [str.lower] agree on where
    an ASCII pattern occurs. *)
Definition is_ascii (s : string) : bool :=
  negb (any_char (fun c => (128 <=? nat_of_ascii c)%nat) s).

Definition is_latin1 (s : string) : bool :=
  negb (any_char (fun c => (196 <=? nat_of_ascii c)%nat) s).

(** For a request with an ASCII path and latin-1 header text, the
    screening decision does not depend on the order of the checks: the
    no-match signal is returned exactly when the context is normal and the
    path is clean, and any other request gets a reason that is a non-empty
    text, so that the caller's test [if malicious_reason:] holds for it. *)
Theorem screening_decision (ip method path user_agent : string)
  (headers : list (string * string)) :
  is_ascii path = true ->
  is_latin1 user_agent = true ->
  forallb (fun h => is_latin1 (fst h)) headers = true ->
  (is_malicious_pattern ip method path (Some user_agent) headers = None
   <-> normal_request method user_agent headers && path_clean path = true)
  /\ (normal_request method user_agent headers && path_clean path = false ->
      exists reason,
        is_malicious_pattern ip method path (Some user_agent) headers
        = Some reason /\ truthy reason = true).
Proof.
  intros _ _ _.
  split; [apply none_iff_clean|].
  intros Hdirty.
  destruct (is_malicious_pattern ip method path (Some user_agent) headers)
    as [reason|] eqn:E.
  - exists reason. split; [reflexivity|]. exact (reason_truthy _ _ _ _ _ _ E).
  - apply none_iff_clean in E. congruence.
Qed.

Lemma screening_decision_witness :
  (is_malicious_pattern "203.0.113.9" "GET" "/gallery/12"
     (Some browser_user_agent) browser_headers = None
   <-> normal_request "GET" browser_user_agent browser_headers
       && path_clean "/gallery/12" = true)
  /\ exists reason,
       is_malicious_pattern "203.0.113.9" "GET" "/gallery/12;id"
         (Some browser_user_agent) browser_headers
       = Some reason /\ truthy reason = true.
Proof.
  split.
  - apply (screening_decision "203.0.113.9" "GET" "/gallery/12"
             browser_user_agent browser_headers); reflexivity.
  - apply (screening_decision "203.0.113.9" "GET" "/gallery/12;id"
             browser_user_agent browser_headers); reflexivity.
Defined.

End Screening.

(** ** The blacklist file and the two request hooks
    (src/ip_blacklist_enhanced.py, src/ip_whitelist.py, src/main.py) *)

Module Security.
Import PyStr PyStr2 Blacklist Screening Whitelist.

(** An entry of blacklist.json, with the keys [add_ip] writes; [e_last_url]
    and [e_last_method] appear on a repeated offence only, and entries
    written by the older manager have no ['blocked_by']. *)
Record entry := {
  e_first_blocked : string;
  e_last_attempt : string;
  e_reason : string;
  e_method : string;
  e_url : string;
  e_user_agent : string;
  e_attempts : Z;
  e_blocked_by : option string;
  e_last_url : option string;
  e_last_method : option string
}.

(** blacklist.json: its content when it can be opened and parsed, and
    whether it can be opened for writing.  The texts written to it are
    request data (the address, the method, the URL and the user-agent, which
    the server decodes from latin-1 or with replacement) and reasons built
    from them: they hold no lone surrogate, so that encoding them does not
    fail. *)
Record disk := {
  blacklist_json : option (gmap string entry);
  writable : bool
}.

(** [load_blacklist]: the empty dictionary when reading fails. *)
Definition load_blacklist (d : disk) : gmap string entry :=
  default ∅ (blacklist_json d).

(** [save_blacklist]: a failure to write is printed and swallowed. *)
Definition save_blacklist (d : disk) (blacklist : gmap string entry) : disk :=
  if writable d then {| blacklist_json := Some blacklist; writable := true |}
  else d.

(** [s[:n]], counting code points. *)
Fixpoint slice_to (n : nat) (s : string) : string :=
  match s with
  | EmptyString => EmptyString
  | String c rest =>
      if is_continuation c then String c (slice_to n rest)
      else match n with
           | O => EmptyString
           | S k => String c (slice_to k rest)
           end
  end.

Definition first_offence (current_time reason method url user_agent : string)
  : entry :=
  {| e_first_blocked := current_time;
     e_last_attempt := current_time;
     e_reason := reason;
     e_method := method;
     e_url := url;
     e_user_agent :=
       if truthy user_agent then slice_to 200 user_agent else EmptyString;
     e_attempts := 1;
     e_blocked_by := Some "auto_detection";
     e_last_url := None;
     e_last_method := None |}.

Definition repeated_offence (e : entry) (current_time method url : string)
  : entry :=
  {| e_first_blocked := e_first_blocked e;
     e_last_attempt := current_time;
     e_reason := e_reason e;
     e_method := e_method e;
     e_url := e_url e;
     e_user_agent := e_user_agent e;
     e_attempts := e_attempts e + 1;
     e_blocked_by := e_blocked_by e;
     e_last_url := if truthy url then Some url else e_last_url e;
     e_last_method := if truthy method then Some method else e_last_method e |}.

(** [add_ip]; [current_time] is [datetime.now().isoformat()].  The key is a
    text, or [None] when the caller has no address to give: [None] is no key
    of a loaded file, and [json.dump] writes it as ["null"]. *)
Definition add_ip (d : disk) (ip : option string)
  (reason method url user_agent current_time : string) : disk :=
  let blacklist := load_blacklist d in
  match ip with
  | Some ip =>
      match blacklist !! ip with
      | Some e =>
          save_blacklist d
            (<[ip := repeated_offence e current_time method url]> blacklist)
      | None =>
          save_blacklist d
            (<[ip := first_offence current_time reason method url user_agent]>
               blacklist)
      end
  | None =>
      save_blacklist d
        (<["null" := first_offence current_time reason method url user_agent]>
           blacklist)
  end.

Definition is_blacklisted (d : disk) (ip : string) : bool :=
  bool_decide (is_Some (load_blacklist d !! ip)).

Definition remove_ip (d : disk) (ip : string) : bool * disk :=
  let blacklist := load_blacklist d in
  match blacklist !! ip with
  | Some _ => (true, save_blacklist d (delete ip blacklist))
  | None => (false, d)
  end.

Lemma len_slice_to (n : nat) (s : string) :
  len (slice_to n s) = Nat.min n (len s).
Proof.
  revert n. induction s as [|c s IH]; intros n; cbn [slice_to len].
  - now rewrite Nat.min_0_r.
  - destruct (is_continuation c) eqn:E; cbn [len]; rewrite ?E.
    + now rewrite IH.
    + destruct n as [|k]; [reflexivity|].
      cbn [len]. rewrite E, IH. reflexivity.
Qed.

Lemma slice_to_short (n : nat) (s : string) :
  (len s <= n)%nat -> slice_to n s = s.
Proof.
  revert n. induction s as [|c s IH]; intros n; cbn [slice_to len];
    [reflexivity|].
  destruct (is_continuation c); intros H.
  - now rewrite IH.
  - destruct n as [|k]; [lia|]. rewrite IH by lia. reflexivity.
Qed.

Lemma load_save (d : disk) (blacklist : gmap string entry) :
  writable d = true ->
  load_blacklist (save_blacklist d blacklist) = blacklist
  /\ writable (save_blacklist d blacklist) = true.
Proof. unfold save_blacklist. intros ->. split; reflexivity. Qed.

Lemma add_ip_writable (d : disk) (ip : option string)
  (reason method url user_agent current_time : string) :
  writable (add_ip d ip reason method url user_agent current_time) = writable d.
Proof.
  unfold add_ip, save_blacklist.
  destruct ip as [ip|]; [destruct (load_blacklist d !! ip)|];
    destruct (writable d) eqn:E; cbn; congruence.
Qed.

Lemma is_blacklisted_add_ip (d : disk) (ip : string)
  (reason method url user_agent current_time : string) :
  writable d = true ->
  is_blacklisted (add_ip d (Some ip) reason method url user_agent current_time)
    ip = true.
Proof.
  intros Hw. unfold is_blacklisted, add_ip.
  apply bool_decide_eq_true.
  destruct (load_blacklist d !! ip);
    rewrite (proj1 (load_save _ _ Hw)), lookup_insert_eq; eauto.
Qed.

Lemma slice_to_prefix (n : nat) (s : string) :
  exists rest, s = slice_to n s +:+ rest.
Proof.
  revert n. induction s as [|c s IH]; intros n; cbn [slice_to].
  - now exists EmptyString.
  - destruct (is_continuation c).
    + destruct (IH n) as [rest Hr]. exists rest.
      change (String c s = String c (slice_to n s +:+ rest)). now f_equal.
    + destruct n as [|k]; [now exists (String c s)|].
      destruct (IH k) as [rest Hr]. exists rest.
      change (String c s = String c (slice_to k s +:+ rest)). now f_equal.
Qed.

(** What [add_ip] leaves on a writable file: the address is listed; a first
    offence is recorded with one attempt, the reason given, and as
    user-agent the first 200 characters of the one given (all of it when it
    is shorter); a repeated offence adds one to the attempts and moves the
    last attempt, and keeps the first reason, time and user-agent; no other
    address is touched.  On a file that cannot be written nothing
    changes. *)
Theorem add_ip_records (d : disk) (ip : string)
  (reason method url user_agent current_time : string) :
  let d' := add_ip d (Some ip) reason method url user_agent current_time in
  (writable d = false -> d' = d)
  /\ (writable d = true ->
      is_blacklisted d' ip = true
      /\ (forall other, other <> ip ->
            load_blacklist d' !! other = load_blacklist d !! other)
      /\ exists e',
           load_blacklist d' !! ip = Some e'
           /\ e_last_attempt e' = current_time
           /\ match load_blacklist d !! ip with
              | Some e =>
                  e_attempts e' = (e_attempts e + 1)%Z
                  /\ e_first_blocked e' = e_first_blocked e
                  /\ e_reason e' = e_reason e
                  /\ e_user_agent e' = e_user_agent e
              | None =>
                  e_attempts e' = 1%Z
                  /\ e_first_blocked e' = current_time
                  /\ e_reason e' = reason
                  /\ (exists rest, user_agent = e_user_agent e' +:+ rest)
                  /\ len (e_user_agent e') = Nat.min 200 (len user_agent)
                  /\ ((len user_agent <= 200)%nat ->
                      e_user_agent e' = user_agent)
              end).
Proof.
  cbv zeta. split.
  - intros Hw. unfold add_ip, save_blacklist. rewrite Hw.
    now destruct (load_blacklist d !! ip).
  - intros Hw. split; [now apply is_blacklisted_add_ip|].
    unfold add_ip.
    destruct (load_blacklist d !! ip) as [e|] eqn:E;
      rewrite (proj1 (load_save _ _ Hw)).
    + split; [intros other Hne; now rewrite lookup_insert_ne by congruence|].
      eexists. split; [apply lookup_insert_eq|]. cbn. tauto.
    + split; [intros other Hne; now rewrite lookup_insert_ne by congruence|].
      eexists. split; [apply lookup_insert_eq|]. cbn.
      assert (Hua : (if truthy user_agent then slice_to 200 user_agent
                     else EmptyString) = slice_to 200 user_agent)
        by now destruct user_agent.
      rewrite Hua.
      repeat split.
      * apply slice_to_prefix.
      * apply len_slice_to.
      * intros Hlen. now apply slice_to_short.
Qed.

Definition long_user_agent : string :=
  browser_user_agent +:+ " " +:+ browser_user_agent +:+ " (compatible)".

Lemma add_ip_records_witness :
  let d := {| blacklist_json := None; writable := true |} in
  let d' := add_ip d (Some "203.0.113.9") "악성경로: /wp-admin" "GET"
              "http://nest.example.org/wp-admin" long_user_agent
              "2025-06-01T10:00:00" in
  is_blacklisted d' "203.0.113.9" = true
  /\ (forall other, other <> "203.0.113.9" ->
        load_blacklist d' !! other = load_blacklist d !! other)
  /\ exists e',
       load_blacklist d' !! "203.0.113.9" = Some e'
       /\ e_last_attempt e' = "2025-06-01T10:00:00"
       /\ e_attempts e' = 1%Z
       /\ e_first_blocked e' = "2025-06-01T10:00:00"
       /\ e_reason e' = "악성경로: /wp-admin"
       /\ (exists rest, long_user_agent = e_user_agent e' +:+ rest)
       /\ len (e_user_agent e') = Nat.min 200 (len long_user_agent)
       /\ ((len long_user_agent <= 200)%nat ->
           e_user_agent e' = long_user_agent).
Proof.
  exact (proj2 (add_ip_records {| blacklist_json := None; writable := true |}
                  "203.0.113.9" "악성경로: /wp-admin" "GET"
                  "http://nest.example.org/wp-admin" long_user_agent
                  "2025-06-01T10:00:00") eq_refl).
Defined.

(** A user-agent of 236 characters is stored as its first 200. *)
Example long_user_agent_cut :
  len long_user_agent = 236
  /\ (e_user_agent <$>
        load_blacklist
          (add_ip {| blacklist_json := None; writable := true |}
             (Some "203.0.113.9") "악성경로: /wp-admin" "GET"
             "http://nest.example.org/wp-admin" long_user_agent
             "2025-06-01T10:00:00") !! "203.0.113.9")
     = Some (slice_to 200 long_user_agent)
  /\ len (slice_to 200 long_user_agent) = 200.
Proof. vm_compute. repeat split; reflexivity. Qed.

(** [remove_ip] undoes a first [add_ip]: an address that was not listed is
    not listed after being added and removed, and every other address reads
    as before; removing an address that is not listed answers [False] and
    does not write the file. *)
Theorem remove_ip_undoes_add_ip (d : disk) (ip : string)
  (reason method url user_agent current_time : string) :
  writable d = true ->
  is_blacklisted d ip = false ->
  remove_ip d ip = (false, d)
  /\ let d' := add_ip d (Some ip) reason method url user_agent current_time in
     fst (remove_ip d' ip) = true
     /\ is_blacklisted (snd (remove_ip d' ip)) ip = false
     /\ load_blacklist (snd (remove_ip d' ip)) = load_blacklist d.
Proof.
  intros Hw Hnot. unfold is_blacklisted in *.
  apply bool_decide_eq_false in Hnot.
  assert (Hnone : load_blacklist d !! ip = None).
  { destruct (load_blacklist d !! ip) eqn:E; [|reflexivity].
    exfalso. apply Hnot. eauto. }
  split; [unfold remove_ip; now rewrite Hnone|].
  cbv zeta. unfold add_ip. rewrite Hnone.
  set (d1 := save_blacklist d _).
  assert (Hw1 : writable d1 = true) by now apply load_save.
  unfold remove_ip.
  assert (Hl1 : load_blacklist d1 = <[ip := first_offence current_time reason
                                        method url user_agent]> (load_blacklist d))
    by now apply load_save.
  rewrite Hl1, lookup_insert_eq. cbn [fst snd].
  rewrite (proj1 (load_save _ _ Hw1)).
  rewrite delete_insert_eq.
  split; [reflexivity|]. split.
  - apply bool_decide_eq_false. rewrite lookup_delete_eq. now intros [? ?].
  - now apply delete_id.
Qed.

Lemma remove_ip_undoes_add_ip_witness :
  let d := {| blacklist_json := None; writable := true |} in
  remove_ip d "203.0.113.9" = (false, d)
  /\ let d' := add_ip d (Some "203.0.113.9") "악성경로: /wp-admin" "GET"
                 "http://nest.example.org/wp-admin" browser_user_agent
                 "2025-06-01T10:00:00" in
     fst (remove_ip d' "203.0.113.9") = true
     /\ is_blacklisted (snd (remove_ip d' "203.0.113.9")) "203.0.113.9" = false
     /\ load_blacklist (snd (remove_ip d' "203.0.113.9")) = load_blacklist d.
Proof.
  apply (remove_ip_undoes_add_ip {| blacklist_json := None; writable := true |}
           "203.0.113.9" "악성경로: /wp-admin" "GET"
           "http://nest.example.org/wp-admin" browser_user_agent
           "2025-06-01T10:00:00"); reflexivity.
Defined.

(** The request, as the hooks read it.  [headers] are the pairs
    [dict(request.headers)] is built from; a header is looked up without
    regard to case, and the WSGI entry [HTTP_X_FORWARDED_FOR] is the
    X-Forwarded-For header. *)
Record request := {
  remote_addr : option string;
  request_method : string;
  request_path : string;
  request_url : string;
  request_headers : list (string * string)
}.

Definition headers_get (name : string) (headers : list (string * string))
  : option string :=
  snd <$> find (fun h => String.eqb (lower (fst h)) (lower name)) headers.

(** [s.split(',')[0]]. *)
Fixpoint before_comma (s : string) : string :=
  match s with
  | EmptyString => EmptyString
  | String c rest =>
      if Ascii.eqb c ","%char then EmptyString else String c (before_comma rest)
  end.

(** A hook answers [None], and the request goes on, or a body and a
    status. *)
Definition answer := option (string * Z).
Definition forbidden : answer := Some (EmptyString, 403%Z).

Definition allowed_methods : list string :=
  [ "GET"; "POST"; "PUT"; "DELETE"; "HEAD"; "OPTIONS"; "PATCH" ].

Definition suspicious_patterns : list string :=
  [ "MGLNDD"; "CONNECT_"; "TUNNEL_"; "PROXY_" ].

(** The first lines of [enhanced_instant_block_security]: the address the
    request is screened under, [None] when the hook returns at once. *)
Definition client_ip_of (r : request) : option string :=
  let client_ip :=
    match headers_get "X-Forwarded-For" (request_headers r) with
    | Some v => Some v
    | None => remote_addr r
    end in
  match client_ip with
  | Some client_ip =>
      if truthy client_ip then Some (strip (before_comma client_ip)) else None
  | None => None
  end.

Definition request_line (r : request) : string :=
  request_method r +:+ " " +:+ request_path r.

Definition enhanced_instant_block_security (d : disk) (r : request)
  (current_time : string) : answer * disk :=
  match client_ip_of r with
  | None => (None, d)
  | Some client_ip =>
      if is_blacklisted d client_ip then (forbidden, d) else
      let user_agent :=
        default EmptyString (headers_get "User-Agent" (request_headers r)) in
      let method := request_method r in
      let path := request_path r in
      let headers := request_headers r in
      if truthy method && negb (mem method allowed_methods)
         && (contains "MGLNDD" method || contains "_" method)
      then (forbidden,
            add_ip d (Some client_ip) ("비정상메소드: " +:+ method) method
              (request_url r) user_agent current_time)
      else
      match find (fun pattern => contains pattern (request_line r)
                                 || contains pattern method)
                 suspicious_patterns with
      | Some pattern =>
          (forbidden,
           add_ip d (Some client_ip) ("비정상요청: " +:+ pattern) method
             (request_line r) user_agent current_time)
      | None =>
          match is_malicious_pattern client_ip method path (Some user_agent)
                  headers with
          | Some malicious_reason =>
              if truthy malicious_reason
              then (forbidden,
                    add_ip d (Some client_ip) malicious_reason method
                      (request_url r) user_agent current_time)
              else (None, d)
          | None => (None, d)
          end
      end
  end.

Lemma headers_get_name (name v : string) (headers : list (string * string)) :
  headers_get name headers = Some v ->
  exists h, In h headers /\ lower (fst h) = lower name.
Proof.
  unfold headers_get. destruct (find _ headers) as [h|] eqn:E; [|discriminate].
  intros _. apply find_some in E as [Hin Heq]. exists h.
  split; [exact Hin | now apply String.eqb_eq].
Qed.

(** A request that carries X-Forwarded-For is never in a normal context:
    the header's own name holds the word "forward". *)
Lemma forwarded_not_normal (method user_agent v : string)
  (headers : list (string * string)) :
  headers_get "X-Forwarded-For" headers = Some v ->
  normal_request method user_agent headers = false.
Proof.
  intros H. apply headers_get_name in H as (h & Hin & Hname).
  unfold normal_request.
  assert (Hf : forallb (fun h => negb (existsb (fun p => contains p (lower (fst h)))
                                         proxy_header_words)) headers = false).
  { apply not_true_is_false. intros Hall.
    rewrite forallb_forall in Hall. specialize (Hall h Hin).
    rewrite Hname in Hall. discriminate Hall. }
  rewrite Hf. apply andb_false_r.
Qed.

(** Where a refusal of the second hook comes from: the address was listed
    already and the file is left alone, or it is added now. *)
Lemma refusal_inv (d d' : disk) (r : request) (current_time : string) :
  enhanced_instant_block_security d r current_time = (forbidden, d') ->
  exists client_ip,
    client_ip_of r = Some client_ip
    /\ ((is_blacklisted d client_ip = true /\ d' = d)
        \/ exists reason method url user_agent,
             d' = add_ip d (Some client_ip) reason method url user_agent
                    current_time).
Proof.
  unfold enhanced_instant_block_security.
  destruct (client_ip_of r) as [client_ip|]; [|discriminate].
  intros H. exists client_ip. split; [reflexivity|].
  destruct (is_blacklisted d client_ip) eqn:Hb.
  { left. split; [reflexivity|]. congruence. }
  right.
  destruct (truthy (request_method r) && _ && _).
  { injection H as <-. eauto. }
  destruct (find _ suspicious_patterns).
  { injection H as <-. eauto. }
  destruct (is_malicious_pattern _ _ _ _ _) as [reason|]; [|discriminate].
  destruct (truthy reason); [|discriminate].
  injection H as <-. eauto.
Qed.

(** Once refused, always refused: after the second hook has refused a
    request, on a file that can be written, it refuses every later request
    screened under the same address, whatever that request asks for, and
    without writing to the file again. *)
Theorem refused_stays_refused (d d' : disk) (r : request)
  (current_time : string) :
  writable d = true ->
  enhanced_instant_block_security d r current_time = (forbidden, d') ->
  forall (later : request) (later_time : string),
    client_ip_of later = client_ip_of r ->
    enhanced_instant_block_security d' later later_time = (forbidden, d').
Proof.
  intros Hw H later later_time Hsame.
  apply refusal_inv in H as (client_ip & Hc & Hcase).
  assert (Hlisted : is_blacklisted d' client_ip = true).
  { destruct Hcase as [[Hb ->]|(reason & method & url & user_agent & ->)];
      [exact Hb | now apply is_blacklisted_add_ip]. }
  unfold enhanced_instant_block_security.
  rewrite Hsame, Hc, Hlisted. reflexivity.
Qed.

(** Every request that carries a non-empty X-Forwarded-For header is
    refused by the second hook, whatever it asks for: if nothing else is
    wrong with it, the header's own name is what the screening reports.
    On a file that can be written, the first address named by the header is
    listed afterwards. *)
Theorem forwarded_request_refused (d : disk) (r : request)
  (current_time v : string) :
  headers_get "X-Forwarded-For" (request_headers r) = Some v ->
  truthy v = true ->
  fst (enhanced_instant_block_security d r current_time) = forbidden
  /\ (writable d = true ->
      is_blacklisted (snd (enhanced_instant_block_security d r current_time))
        (strip (before_comma v)) = true).
Proof.
  intros Hv Ht. unfold enhanced_instant_block_security, client_ip_of.
  rewrite Hv, Ht.
  destruct (is_blacklisted d _) eqn:Hb; [split; [reflexivity | now intros _]|].
  cbv zeta.
  destruct (truthy (request_method r) && _ && _).
  { split; [reflexivity | intros Hw; now apply is_blacklisted_add_ip]. }
  destruct (find _ suspicious_patterns).
  { split; [reflexivity | intros Hw; now apply is_blacklisted_add_ip]. }
  destruct (is_malicious_pattern _ _ _ _ _) as [reason|] eqn:E.
  - rewrite (reason_truthy _ _ _ _ _ _ E).
    split; [reflexivity | intros Hw; now apply is_blacklisted_add_ip].
  - apply none_iff_clean in E. apply andb_true_iff in E as [E _].
    rewrite (forwarded_not_normal _ _ _ _ Hv) in E. discriminate E.
Qed.

(** [get_real_ip]. *)
Definition get_real_ip (r : request) : option string :=
  let get name :=
    match headers_get name (request_headers r) with
    | Some v => if truthy v then Some v else None
    | None => None
    end in
  match get "X-Forwarded-For" with
  | Some v => Some (strip (before_comma v))
  | None =>
      match get "X-Real-IP" with
      | Some v => Some v
      | None =>
          match get "CF-Connecting-IP" with
          | Some v => Some v
          | None => remote_addr r
          end
      end
  end.

Section IpAddressLibrary.

Variable Addr : Type.
Variable Net : Type.
Variable ip_address : string -> option Addr.
Variable ip_network : string -> option Net.
Variable net_contains : Net -> Addr -> bool.
Variable addr_str : Addr -> string.

(** [is_ip_allowed(client_ip)]: [ip_address(None)] raises, which the
    function answers with [False]. *)
Definition ip_allowed (file : whitelist_file) (client_ip : option string)
  : bool :=
  match client_ip with
  | Some ip =>
      is_ip_allowed Addr Net ip_address ip_network net_contains addr_str file ip
  | None => false
  end.

(** [check_ip_whitelist], the hook [init_ip_whitelist] registers. *)
Definition check_ip_whitelist (file : whitelist_file) (d : disk) (r : request)
  (current_time : string) : answer * disk :=
  let client_ip := get_real_ip r in
  if negb (ip_allowed file client_ip) then
    (forbidden,
     add_ip d client_ip "화이트리스트 외부IP" (request_method r) (request_url r)
       (default EmptyString (headers_get "User-Agent" (request_headers r)))
       current_time)
  else (None, d).

(** The two hooks in the order they are registered: the first answer that
    is not [None] is the response. *)
Definition before_request (file : whitelist_file) (d : disk) (r : request)
  (current_time : string) : answer * disk :=
  match check_ip_whitelist file d r current_time with
  | (Some response, d') => (Some response, d')
  | (None, d') => enhanced_instant_block_security d' r current_time
  end.

(** An address on the whitelist can be locked out by anybody: a request
    from any peer that names the address in X-Forwarded-For passes the
    whitelist hook under that name and is refused by the second hook,
    which lists the address; from then on the requests the address sends
    itself are refused, whatever they ask for. *)
Theorem listed_by_forwarded_name (file : whitelist_file) (d : disk)
  (r : request) (victim current_time : string) :
  writable d = true ->
  truthy victim = true ->
  strip (before_comma victim) = victim ->
  ip_allowed file (Some victim) = true ->
  headers_get "X-Forwarded-For" (request_headers r) = Some victim ->
  check_ip_whitelist file d r current_time = (None, d)
  /\ fst (before_request file d r current_time) = forbidden
  /\ forall (direct : request) (later_time : string),
       headers_get "X-Forwarded-For" (request_headers direct) = None ->
       remote_addr direct = Some victim ->
       fst (before_request file (snd (before_request file d r current_time))
              direct later_time) = forbidden.
Proof.
  intros Hw Ht Hplain Hallowed Hv.
  assert (Hfirst : check_ip_whitelist file d r current_time = (None, d)).
  { unfold check_ip_whitelist, get_real_ip. rewrite Hv, Ht, Hplain, Hallowed.
    reflexivity. }
  destruct (forwarded_request_refused d r current_time victim Hv Ht)
    as [Hrefused Hlisted].
  specialize (Hlisted Hw). rewrite Hplain in Hlisted.
  assert (Hchain : before_request file d r current_time
                   = enhanced_instant_block_security d r current_time).
  { unfold before_request. now rewrite Hfirst. }
  rewrite Hchain.
  split; [exact Hfirst|]. split; [exact Hrefused|].
  intros direct later_time Hnone Hremote.
  set (d' := snd (enhanced_instant_block_security d r current_time)) in *.
  unfold before_request.
  destruct (check_ip_whitelist file d' direct later_time) as [[response|] d'']
    eqn:Hcheck.
  - unfold check_ip_whitelist in Hcheck.
    destruct (negb _) in Hcheck; [|discriminate].
    now injection Hcheck as <- _.
  - assert (d'' = d') as ->.
    { unfold check_ip_whitelist in Hcheck.
      destruct (negb _) in Hcheck; [discriminate|]. congruence. }
    unfold enhanced_instant_block_security, client_ip_of.
    rewrite Hnone, Hremote, Ht, Hplain, Hlisted. reflexivity.
Qed.

(** The whitelist is decided on the name a request gives itself: a request
    from any peer that names a whitelisted address in X-Real-IP, and is
    otherwise unremarkable (an ASCII path that is clean, latin-1 header
    text, an allowed method, a normal context), passes both hooks and leaves
    the blacklist alone, provided the peer itself is not blacklisted yet. *)
Theorem real_ip_header_passes (file : whitelist_file) (d : disk)
  (r : request) (claimed peer : string) :
  headers_get "X-Forwarded-For" (request_headers r) = None ->
  headers_get "X-Real-IP" (request_headers r) = Some claimed ->
  truthy claimed = true ->
  ip_allowed file (Some claimed) = true ->
  remote_addr r = Some peer ->
  truthy peer = true ->
  is_blacklisted d (strip (before_comma peer)) = false ->
  mem (request_method r) allowed_methods = true ->
  is_ascii (request_path r) = true ->
  forallb (fun h => is_latin1 (fst h) && is_latin1 (snd h)) (request_headers r)
  = true ->
  existsb (fun pattern => contains pattern (request_line r)) suspicious_patterns
  = false ->
  normal_request (request_method r)
    (default EmptyString (headers_get "User-Agent" (request_headers r)))
    (request_headers r)
  && path_clean (request_path r) = true ->
  forall current_time, before_request file d r current_time = (None, d).
Proof.
  intros Hnone Hreal Ht Hallowed Hremote Hpeer Hnot Hmethod _ _ Hline Hclean
    current_time.
  unfold before_request, check_ip_whitelist, get_real_ip.
  rewrite Hnone, Hreal, Ht, Hallowed. cbn [negb].
  unfold enhanced_instant_block_security, client_ip_of.
  rewrite Hnone, Hremote, Hpeer, Hnot. cbv zeta.
  rewrite Hmethod. cbn [negb andb]. rewrite andb_false_r. cbv iota.
  assert (Hfind : find (fun pattern => contains pattern (request_line r)
                                       || contains pattern (request_method r))
                    suspicious_patterns = None).
  { pose proof (find_existsb
                  (fun pattern => contains pattern (request_line r)
                                  || contains pattern (request_method r))
                  suspicious_patterns) as Hf.
    rewrite existsb_orb, Hline in Hf. cbn [orb] in Hf.
    apply andb_true_iff in Hclean as [Hnormal _].
    unfold normal_request in Hnormal.
    repeat (apply andb_true_iff in Hnormal as [Hnormal ?]).
    match goal with
    | X : negb (existsb (fun prefix => contains prefix (request_method r)) _)
          = true |- _ =>
        apply negb_true_iff in X;
        change suspicious_patterns with suspicious_prefixes in Hf;
        rewrite X in Hf
    end.
    change suspicious_patterns with suspicious_prefixes.
    now destruct (find _ suspicious_prefixes). }
  rewrite Hfind.
  apply (none_iff_clean (strip (before_comma peer))) in Hclean.
  rewrite Hclean. reflexivity.
Qed.

End IpAddressLibrary.

Definition browser_request (peer : string) (path : string)
  (headers : list (string * string)) : request :=
  {| remote_addr := Some peer;
     request_method := "GET";
     request_path := path;
     request_url := "http://nest.example.org" +:+ path;
     request_headers := headers |}.

Definition fresh_disk : disk := {| blacklist_json := None; writable := true |}.

Lemma refused_stays_refused_witness :
  let probe := browser_request "203.0.113.9" "/wp-admin/setup.php"
                 browser_headers in
  let d' := snd (enhanced_instant_block_security fresh_disk probe
                   "2025-06-01T10:00:00") in
  enhanced_instant_block_security d'
    (browser_request "203.0.113.9" "/" browser_headers) "2025-06-01T10:05:00"
  = (forbidden, d').
Proof.
  cbv zeta.
  apply (refused_stays_refused fresh_disk _
           (browser_request "203.0.113.9" "/wp-admin/setup.php" browser_headers)
           "2025-06-01T10:00:00");
    [reflexivity | vm_compute; reflexivity | reflexivity].
Defined.

Lemma forwarded_request_refused_witness :
  let r := browser_request "198.51.100.7" "/"
             (("X-Forwarded-For", "192.168.0.10, 10.0.0.1") :: browser_headers) in
  fst (enhanced_instant_block_security fresh_disk r "2025-06-01T10:00:00")
  = forbidden
  /\ (writable fresh_disk = true ->
      is_blacklisted
        (snd (enhanced_instant_block_security fresh_disk r "2025-06-01T10:00:00"))
        (strip (before_comma "192.168.0.10, 10.0.0.1")) = true).
Proof.
  apply (forwarded_request_refused fresh_disk
           (browser_request "198.51.100.7" "/"
              (("X-Forwarded-For", "192.168.0.10, 10.0.0.1") :: browser_headers))
           "2025-06-01T10:00:00" "192.168.0.10, 10.0.0.1"); reflexivity.
Defined.

Definition allowed_by (file : whitelist_file) (client_ip : option string) : bool :=
  ip_allowed IPv4.addr IPv4.net IPv4.ip_address IPv4.ip_network
    IPv4.net_contains IPv4.text file client_ip.

Definition hooks (file : whitelist_file) (d : disk) (r : request)
  (current_time : string) : answer * disk :=
  before_request IPv4.addr IPv4.net IPv4.ip_address IPv4.ip_network
    IPv4.net_contains IPv4.text file d r current_time.

Lemma listed_by_forwarded_name_witness :
  let r := browser_request "198.51.100.7" "/"
             (("X-Forwarded-For", "192.168.0.10") :: browser_headers) in
  fst (hooks Missing fresh_disk r "2025-06-01T10:00:00") = forbidden
  /\ fst (hooks Missing (snd (hooks Missing fresh_disk r "2025-06-01T10:00:00"))
            (browser_request "192.168.0.10" "/" browser_headers)
            "2025-06-01T10:05:00") = forbidden
  /\ fst (hooks Missing fresh_disk
            (browser_request "192.168.0.10" "/" browser_headers)
            "2025-06-01T10:05:00") = None.
Proof.
  cbv zeta.
  destruct (listed_by_forwarded_name IPv4.addr IPv4.net IPv4.ip_address
              IPv4.ip_network IPv4.net_contains IPv4.text Missing fresh_disk
              (browser_request "198.51.100.7" "/"
                 (("X-Forwarded-For", "192.168.0.10") :: browser_headers))
              "192.168.0.10" "2025-06-01T10:00:00")
    as (_ & Hrefused & Hlater);
    [reflexivity | reflexivity | reflexivity | vm_compute; reflexivity
    | reflexivity |].
  split; [exact Hrefused|]. split.
  - apply Hlater; reflexivity.
  - vm_compute. reflexivity.
Defined.

Lemma real_ip_header_passes_witness :
  let r := browser_request "198.51.100.7" "/gallery/12"
             (("X-Real-Ip", "127.0.0.1") :: browser_headers) in
  allowed_by Missing (Some "198.51.100.7") = false
  /\ hooks Missing fresh_disk r "2025-06-01T10:00:00" = (None, fresh_disk).
Proof.
  cbv zeta. split; [vm_compute; reflexivity|].
  apply (real_ip_header_passes IPv4.addr IPv4.net IPv4.ip_address
           IPv4.ip_network IPv4.net_contains IPv4.text Missing fresh_disk
           (browser_request "198.51.100.7" "/gallery/12"
              (("X-Real-Ip", "127.0.0.1") :: browser_headers))
           "127.0.0.1" "198.51.100.7");
    vm_compute; reflexivity.
Defined.

End Security.
